(** * plataforma-lojas: shipping quotes and plan entitlements

    A shallow embedding of the server core of the storefront builder:

    - [storage.ts]: the queries of [DatabaseStorage] the core relies on
      and [calculateShipping];
    - [subscriptionMiddleware.ts]: [requireActiveSubscription],
      [checkProductLimit], [checkOrderLimit] and [getPlanUsage];
    - the routes [POST /api/shipping/calculate], [GET /api/plans],
      [GET /api/subscription], [GET /api/plan-usage] and
      [POST /api/products] of [registerRoutes].

    Asynchronous code is written in a small state-and-exception monad
    over a [World]: the database tables, whether the database answers,
    the module-level plan cache, the clock, and a trace of the storage
    calls made so far. *)

From Stdlib Require Import List String Ascii ZArith QArith Bool Lia.
Import ListNotations.

Local Open Scope string_scope.
Local Open Scope Z_scope.

(* ------------------------------------------------------------------ *)
(** ** JavaScript values used by the core *)
(* ------------------------------------------------------------------ *)

Module Js.

(** Strings are byte strings (UTF-8).  The only strings the core ever
    compares are digit strings, on which byte order and UTF-16 code-unit
    order agree. *)

Definition isDigit (c : ascii) : bool :=
  let n := N_of_ascii c in (48 <=? n)%N && (n <=? 57)%N.

(** [s.replace(/\D/g, '')]: every character that is not [0-9] is
    removed.  Each byte of a multi-byte character is a non-digit. *)
Fixpoint stripNonDigits (s : string) : string :=
  match s with
  | EmptyString => EmptyString
  | String c r =>
      if isDigit c then String c (stripNonDigits r) else stripNonDigits r
  end.

(** [a <= b] and [a >= b] on strings: lexicographic order. *)
Definition str_le (a b : string) : bool := String.leb a b.
Definition str_ge (a b : string) : bool := String.leb b a.

(** A string is falsy exactly when it is empty. *)
Definition truthyStr (s : string) : bool :=
  match s with EmptyString => false | String _ _ => true end.

(** JS numbers.  Finite values are exact rationals: the rounding of
    IEEE doubles is not modelled (the core only compares numbers and
    tests them against zero). *)
Inductive number : Type :=
| NaN
| NegInf
| Fin (q : Q)
| PosInf.

Definition zero : number := Fin 0.

Definition num_le (a b : number) : bool :=
  match a, b with
  | NaN, _ | _, NaN => false
  | NegInf, _ => true
  | _, PosInf => true
  | Fin x, Fin y => Qle_bool x y
  | Fin _, NegInf => false
  | PosInf, _ => false
  end.

Definition num_ge (a b : number) : bool := num_le b a.

Definition num_lt (a b : number) : bool :=
  match a, b with
  | NaN, _ | _, NaN => false
  | NegInf, NegInf => false
  | NegInf, _ => true
  | PosInf, _ => false
  | Fin x, Fin y => negb (Qle_bool y x)
  | Fin _, NegInf => false
  | Fin _, PosInf => true
  end.

Definition num_gt (a b : number) : bool := num_lt b a.

(** [a === b] on numbers. *)
Definition num_eq (a b : number) : bool :=
  match a, b with
  | NegInf, NegInf | PosInf, PosInf => true
  | Fin x, Fin y => Qeq_bool x y
  | _, _ => false
  end.

(** A number is falsy when it is [0] or [NaN]. *)
Definition truthyNum (a : number) : bool :=
  match a with
  | NaN => false
  | Fin x => negb (Qeq_bool x 0)
  | _ => true
  end.

(** [x || 0] for a number that may be [undefined]. *)
Definition orZero (x : option number) : number :=
  match x with
  | Some n => if truthyNum n then n else zero
  | None => zero
  end.

Definition Qsign (x : Q) : Z := Z.sgn (Qnum x).

(** [a / b].  There is no negative zero: a zero divisor counts as
    positive. *)
Definition num_div (a b : number) : number :=
  match a, b with
  | NaN, _ | _, NaN => NaN
  | Fin x, Fin y =>
      if Qeq_bool y 0 then
        match Qsign x with
        | Z0 => NaN
        | Zpos _ => PosInf
        | Zneg _ => NegInf
        end
      else Fin (Qred (x / y))
  | Fin _, _ => Fin 0
  | PosInf, Fin y => if Qle_bool 0 y then PosInf else NegInf
  | NegInf, Fin y => if Qle_bool 0 y then NegInf else PosInf
  | _, _ => NaN
  end.

(** [a * b] *)
Definition num_mul (a b : number) : number :=
  match a, b with
  | NaN, _ | _, NaN => NaN
  | Fin x, Fin y => Fin (Qred (x * y))
  | Fin x, PosInf | PosInf, Fin x =>
      match Qsign x with Z0 => NaN | Zpos _ => PosInf | Zneg _ => NegInf end
  | Fin x, NegInf | NegInf, Fin x =>
      match Qsign x with Z0 => NaN | Zpos _ => NegInf | Zneg _ => PosInf end
  | PosInf, PosInf | NegInf, NegInf => PosInf
  | PosInf, NegInf | NegInf, PosInf => NegInf
  end.

Definition ofZ (z : Z) : number := Fin (inject_Z z).

(** *** [parseFloat] *)

Definition isSpace (c : ascii) : bool :=
  let n := N_of_ascii c in
  ((9 <=? n)%N && (n <=? 13)%N) || (n =? 32)%N.

Fixpoint trimStart (s : string) : string :=
  match s with
  | String c r => if isSpace c then trimStart r else s
  | EmptyString => s
  end.

Definition digitVal (c : ascii) : Z := Z.of_N (N_of_ascii c) - 48.

(** Reads the longest run of digits at the head of [s]: its value on
    top of [acc], the number of digits read, and the rest. *)
Fixpoint readDigits (s : string) (acc : Z) (n : nat) : Z * nat * string :=
  match s with
  | String c r =>
      if isDigit c then readDigits r (10 * acc + digitVal c) (S n)
      else (acc, n, s)
  | EmptyString => (acc, n, s)
  end.

(** The exponent part: [e] or [E], a sign, digits.  It counts when at
    least one digit is there; otherwise it is [0]. *)
Definition readExponent (s : string) : Z :=
  match s with
  | String c r =>
      if (Ascii.eqb c "e" || Ascii.eqb c "E")%bool then
        let '(neg, r') :=
          match r with
          | String "-" t => (true, t)
          | String "+" t => (false, t)
          | _ => (false, r)
          end in
        let '(v, n, _) := readDigits r' 0 0 in
        match n with
        | O => 0
        | S _ => if neg then - v else v
        end
      else 0
  | EmptyString => 0
  end.

(** [parseFloat s]: leading white space is skipped, then the longest
    prefix that is a decimal literal is read; [NaN] when there is none.
    Overflow to infinity and underflow to zero of doubles are not
    modelled. *)
Definition parseFloat (s : string) : number :=
  let s1 := trimStart s in
  let '(neg, s2) :=
    match s1 with
    | String "-" r => (true, r)
    | String "+" r => (false, r)
    | _ => (false, s1)
    end in
  if String.prefix "Infinity" s2 then (if neg then NegInf else PosInf)
  else
    let '(ip, ni, s3) := readDigits s2 0 0 in
    let '(m, nf, s4) :=
      match s3 with
      | String "." r => readDigits r ip 0
      | _ => (ip, O, s3)
      end in
    match (ni + nf)%nat with
    | O => NaN
    | S _ =>
        let e := readExponent s4 - Z.of_nat nf in
        let num := (if neg then - m else m) * 10 ^ (Z.max e 0) in
        let den := Z.to_pos (10 ^ (Z.max (- e) 0)) in
        Fin (Qred (num # den))
    end.

(** Decimal rendering of an integer, as in a template literal. *)
Fixpoint natDigits (fuel : nat) (n : N) (acc : string) : string :=
  match fuel with
  | O => acc
  | S f =>
      let acc' := String (ascii_of_N (48 + n mod 10)) acc in
      if (n / 10 =? 0)%N then acc' else natDigits f (n / 10)%N acc'
  end.

Definition intToString (z : Z) : string :=
  let n := Z.to_N (Z.abs z) in
  let d := natDigits (S (N.to_nat (N.log2 n))) n "" in
  if z <? 0 then String "-" d else d.

End Js.

(* ------------------------------------------------------------------ *)
(** ** Dates *)
(* ------------------------------------------------------------------ *)

(** A [Date] is its time value: milliseconds since the epoch.  Local
    time is UTC shifted by a fixed number of minutes ([utcOffset], local
    minus UTC); daylight-saving changes are not modelled.  The calendar
    is the proleptic Gregorian one, as in ECMAScript. *)
Module JsDate.

Definition msPerDay : Z := 86400000.

(** Days in the years of a 400-year era before its year [yoe]; the
    years of an era start on March 1. *)
Definition daysBeforeYear (yoe : Z) : Z := 365 * yoe + yoe / 4 - yoe / 100.


(** Days of a year before its month [mp], months counted from March. *)
Definition daysBeforeMonth (mp : Z) : Z := (153 * mp + 2) / 5.

(** The year of the era of its day [doe]. *)
Definition yearOfEra (doe : Z) : Z :=
  (doe - doe / 1460 + doe / 36524 - doe / 146096) / 365.

(** The month, counted from March, of the day [doy] of a year. *)
Definition monthFromMarch (doy : Z) : Z := (5 * doy + 2) / 153.

(** Days since 1970-01-01 of a civil date, [m] in [1..12]. *)
Definition daysFromCivil (y m d : Z) : Z :=
  let y' := if m <=? 2 then y - 1 else y in
  let era := y' / 400 in
  let yoe := y' - era * 400 in
  let doy := daysBeforeMonth (if 2 <? m then m - 3 else m + 9) + d - 1 in
  let doe := daysBeforeYear yoe + doy in
  era * 146097 + doe - 719468.

(** The civil date [(y, m, d)] of a day number, [m] in [1..12]. *)
Definition civilFromDays (z : Z) : Z * Z * Z :=
  let z' := z + 719468 in
  let era := z' / 146097 in
  let doe := z' - era * 146097 in
  let yoe := yearOfEra doe in
  let doy := doe - daysBeforeYear yoe in
  let mp := monthFromMarch doy in
  let d := doy - daysBeforeMonth mp + 1 in
  let m := if mp <? 10 then mp + 3 else mp - 9 in
  ((if m <=? 2 then yoe + era * 400 + 1 else yoe + era * 400), m, d).

Definition localDay (utcOffset t : Z) : Z :=
  (t + utcOffset * 60000) / msPerDay.

(** [d.getFullYear()] *)
Definition getFullYear (utcOffset t : Z) : Z :=
  let '(y, _, _) := civilFromDays (localDay utcOffset t) in y.

(** [d.getMonth()], in [0..11]. *)
Definition getMonth (utcOffset t : Z) : Z :=
  let '(_, m, _) := civilFromDays (localDay utcOffset t) in m - 1.


(** [new Date(year, monthIndex, day)]: local midnight of that day, for
    [monthIndex] in [0..11] (years below 100 are not remapped). *)
Definition ofLocalDate (utcOffset year monthIndex day : Z) : Z :=
  daysFromCivil year (monthIndex + 1) day * msPerDay - utcOffset * 60000.

(** [new Date(y, mo, d, h, mi, s, ms)] *)
Definition ofLocal (utcOffset y mo d h mi s ms : Z) : Z :=
  ofLocalDate utcOffset y mo d + ((h * 60 + mi) * 60 + s) * 1000 + ms.

(** [new Date(v)] for a timestamp column: [null] converts to [0]. *)
Definition ofColumn (v : option Z) : Z :=
  match v with Some t => t | None => 0 end.

End JsDate.

(* ------------------------------------------------------------------ *)
(** ** Schema ([shared/schema.ts]) *)
(* ------------------------------------------------------------------ *)

(** Only the columns the core reads are kept.  [decimal] columns are
    strings, as the driver returns them; nullable columns are options;
    timestamps are time values. *)

Record Store : Type := mkStore
  { store_id : string;
    store_userId : string;
    store_slug : string }.

Record Product : Type := mkProduct
  { product_id : string;
    product_storeId : string;
    product_name : string;
    product_isActive : option bool;
    product_createdAt : option Z }.

Record Order : Type := mkOrder
  { order_id : string;
    order_storeId : string;
    order_status : option string;
    order_createdAt : option Z }.

Record Plan : Type := mkPlan
  { plan_id : string;
    plan_name : string;
    plan_slug : string;
    price : string;
    stripePriceId : option string;
    maxProducts : option Z;
    maxOrders : option Z;
    features : list string;
    plan_isActive : option bool }.

Record Subscription : Type := mkSubscription
  { sub_id : string;
    sub_userId : string;
    planId : string;
    sub_status : string;
    cancelAtPeriodEnd : option bool;
    sub_createdAt : option Z }.

Record ShippingConfig : Type := mkShippingConfig
  { config_storeId : string;
    freeShippingThreshold : option string;
    defaultShippingCost : option string }.

Record ShippingZone : Type := mkShippingZone
  { zone_storeId : string;
    zone_name : string;
    zipCodeStart : string;
    zipCodeEnd : string;
    shippingCost : string;
    estimatedDays : option Z;
    zone_isActive : option bool }.

Record Db : Type := mkDb
  { stores : list Store;
    products : list Product;
    orders : list Order;
    plans : list Plan;
    subscriptions : list Subscription;
    shippingConfigs : list ShippingConfig;
    shippingZones : list ShippingZone;
    (** source of [gen_random_uuid()] *)
    nextId : Z }.

(* ------------------------------------------------------------------ *)
(** ** SQL fragments *)
(* ------------------------------------------------------------------ *)

Module Sql.

Section OrderBy.
Context {A : Type} (precedes : A -> A -> bool).

Fixpoint insertRow (x : A) (l : list A) : list A :=
  match l with
  | [] => [x]
  | y :: r => if precedes x y then x :: l else y :: insertRow x r
  end.

(** [ORDER BY]: a stable sort; rows that compare equal stay in table
    order (the database leaves their order open). *)
Fixpoint orderBy (l : list A) : list A :=
  match l with
  | [] => []
  | x :: r => insertRow x (orderBy r)
  end.
End OrderBy.

(** [desc(col)] on a nullable timestamp: PostgreSQL puts NULL first. *)
Definition descNullsFirst (a b : option Z) : bool :=
  match a, b with
  | None, _ => true
  | Some _, None => false
  | Some x, Some y => y <=? x
  end.

(** [eq(col, true)] on a nullable boolean. *)
Definition isTrue (b : option bool) : bool :=
  match b with Some true => true | _ => false end.

(** [lower(s)], on ASCII letters. *)
Definition lowerChar (c : ascii) : ascii :=
  let n := N_of_ascii c in
  if ((65 <=? n) && (n <=? 90))%N then ascii_of_N (n + 32) else c.

Fixpoint lower (s : string) : string :=
  match s with
  | EmptyString => EmptyString
  | String c r => String (lowerChar c) (lower r)
  end.

(** The value of a [decimal] column, for [ORDER BY]. *)
Definition numeric (s : string) : Js.number := Js.parseFloat s.

(** [const [row] = await ...]: the first row, if any. *)
Definition first {A : Type} (l : list A) : option A := hd_error l.

End Sql.

(* ------------------------------------------------------------------ *)
(** ** The world and asynchronous computations *)
(* ------------------------------------------------------------------ *)

(** The calls made on [storage], with their arguments. *)
Inductive StorageCall : Type :=
| GetStoreByUserId (userId : option string)
| GetStoreById (id : string)
| GetStoreBySlug (slug : string)
| GetProductsByStoreId (storeId : string)
| CreateProduct (storeId : string)
| GetOrdersByStoreId (storeId : string)
| UpdateOrder (id : string)
| GetAllPlans
| GetPlanBySlug (slug : string)
| GetSubscriptionByUserId (userId : string)
| GetShippingConfig (storeId : string)
| GetShippingZones (storeId : string).

Record World : Type := mkWorld
  { db : Db;
    (** whether the database answers; when it does not, every storage
        call rejects *)
    dbUp : bool;
    (** storage calls made so far, oldest first *)
    trace : list StorageCall;
    (** [plansCache] and [plansCacheTime] of [registerRoutes] *)
    plansCache : option (list Plan);
    plansCacheTime : Z;
    (** [Date.now()] *)
    clock : Z;
    (** local time minus UTC, in minutes *)
    utcOffset : Z }.

Definition withDb (d : Db) (w : World) : World :=
  mkWorld d (dbUp w) (trace w) (plansCache w) (plansCacheTime w)
          (clock w) (utcOffset w).

Definition logCall (c : StorageCall) (w : World) : World :=
  mkWorld (db w) (dbUp w) (trace w ++ [c]) (plansCache w) (plansCacheTime w)
          (clock w) (utcOffset w).

Definition withPlansCache (c : option (list Plan)) (t : Z) (w : World) : World :=
  mkWorld (db w) (dbUp w) (trace w) c t (clock w) (utcOffset w).

(** How an awaited promise settles. *)
Inductive Completion (A : Type) : Type :=
| Fulfilled (a : A)
| Rejected (reason : string).
Arguments Fulfilled {A} a.
Arguments Rejected {A} reason.

Definition Async (A : Type) : Type := World -> Completion A * World.

Definition ret {A : Type} (a : A) : Async A := fun w => (Fulfilled a, w).

Definition throw {A : Type} (reason : string) : Async A :=
  fun w => (Rejected reason, w).

Definition bind {A B : Type} (m : Async A) (k : A -> Async B) : Async B :=
  fun w =>
    match m w with
    | (Fulfilled a, w') => k a w'
    | (Rejected e, w') => (Rejected e, w')
    end.

(** [try { m } catch (error) { h error }] *)
Definition tryCatch {A : Type} (m : Async A) (h : string -> Async A) : Async A :=
  fun w =>
    match m w with
    | (Fulfilled a, w') => (Fulfilled a, w')
    | (Rejected e, w') => h e w'
    end.

Declare Scope async_scope.
Delimit Scope async_scope with async.
Notation "x <- m ;; k" := (bind m (fun x => k))
  (at level 100, m at next level, right associativity) : async_scope.
Notation "m ;;; k" := (bind m (fun _ => k))
  (at level 100, right associativity) : async_scope.
Local Open Scope async_scope.

(** A read-only query. *)
Definition dbSelect {A : Type} (c : StorageCall) (q : Db -> A) : Async A :=
  fun w =>
    if dbUp w then (Fulfilled (q (db w)), logCall c w)
    else (Rejected "database unavailable", logCall c w).

(** A statement that changes the tables. *)
Definition dbExec {A : Type} (c : StorageCall) (q : Db -> A * Db) : Async A :=
  fun w =>
    if dbUp w then
      let '(a, d) := q (db w) in (Fulfilled a, withDb d (logCall c w))
    else (Rejected "database unavailable", logCall c w).

(** [Date.now()] / [new Date()] *)
Definition dateNow : Async Z := fun w => (Fulfilled (clock w), w).

Definition localOffset : Async Z := fun w => (Fulfilled (utcOffset w), w).

(* ------------------------------------------------------------------ *)
(** ** [storage.ts] *)
(* ------------------------------------------------------------------ *)

Module Rows.

(** The row sets of the queries, as functions of the tables. *)

(** [userId] is [undefined] when the request carries no claims; the
    comparison then selects no row. *)
Definition storeByUserId (userId : option string) (d : Db) : option Store :=
  match userId with
  | Some u => Sql.first (filter (fun s => String.eqb (store_userId s) u) (stores d))
  | None => None
  end.

Definition storeById (id : string) (d : Db) : option Store :=
  Sql.first (filter (fun s => String.eqb (store_id s) id) (stores d)).

Definition storeBySlug (slug : string) (d : Db) : option Store :=
  Sql.first (filter (fun s => String.eqb (Sql.lower (store_slug s)) (Sql.lower slug))
                    (stores d)).

Definition productsByStoreId (storeId : string) (d : Db) : list Product :=
  Sql.orderBy
    (fun a b => Sql.descNullsFirst (product_createdAt a) (product_createdAt b))
    (filter (fun p => String.eqb (product_storeId p) storeId) (products d)).

Definition ordersByStoreId (storeId : string) (d : Db) : list Order :=
  Sql.orderBy
    (fun a b => Sql.descNullsFirst (order_createdAt a) (order_createdAt b))
    (filter (fun o => String.eqb (order_storeId o) storeId) (orders d)).

Definition allPlans (d : Db) : list Plan :=
  Sql.orderBy
    (fun a b => Js.num_le (Sql.numeric (price a)) (Sql.numeric (price b)))
    (filter (fun p => Sql.isTrue (plan_isActive p)) (plans d)).

Definition planById (id : string) (d : Db) : option Plan :=
  Sql.first (filter (fun p => String.eqb (plan_id p) id) (plans d)).

Definition planBySlug (slug : string) (d : Db) : option Plan :=
  Sql.first (filter (fun p => String.eqb (plan_slug p) slug) (plans d)).

(** The user's subscription rows, newest first. *)
Definition subscriptionsOf (userId : string) (d : Db) : list Subscription :=
  Sql.orderBy
    (fun a b => Sql.descNullsFirst (sub_createdAt a) (sub_createdAt b))
    (filter (fun s => String.eqb (sub_userId s) userId) (subscriptions d)).

(** [... leftJoin(plans, eq(subscriptions.planId, plans.id)) ...
    .limit(1)]: the newest row with the plan row it references, if that
    exists ([plans.id] is the primary key, so at most one does). *)
Definition latestSubscriptionJoined (userId : string) (d : Db)
  : option (Subscription * option Plan) :=
  match subscriptionsOf userId d with
  | [] => None
  | s :: _ => Some (s, planById (planId s) d)
  end.

Definition shippingConfig (storeId : string) (d : Db) : option ShippingConfig :=
  Sql.first (filter (fun c => String.eqb (config_storeId c) storeId)
                    (shippingConfigs d)).

(** The store's active zones, [ORDER BY name]; names are compared byte
    by byte (the database's collation may order them otherwise). *)
Definition shippingZonesOf (storeId : string) (d : Db) : list ShippingZone :=
  Sql.orderBy
    (fun a b => String.leb (zone_name a) (zone_name b))
    (filter (fun z => String.eqb (zone_storeId z) storeId && Sql.isTrue (zone_isActive z))
            (shippingZones d)).

End Rows.

(** [Subscription & { plan: Plan }] *)
Record SubscriptionWithPlan : Type := mkSubscriptionWithPlan
  { subscription_row : Subscription;
    subscription_plan : Plan }.

(** [InsertProduct]: the validated request body. *)
Record InsertProduct : Type := mkInsertProduct
  { insert_name : string;
    insert_isActive : option bool }.


(** [{ cost: number; estimatedDays: number }] *)
Record ShippingQuote : Type := mkShippingQuote
  { cost : Js.number;
    quote_estimatedDays : Z }.

(** [a?.f] *)
Definition optChain {A B : Type} (a : option A) (f : A -> option B) : option B :=
  match a with Some x => f x | None => None end.

Module storage.

Definition getStoreByUserId (userId : option string) : Async (option Store) :=
  dbSelect (GetStoreByUserId userId) (Rows.storeByUserId userId).

Definition getStoreById (id : string) : Async (option Store) :=
  dbSelect (GetStoreById id) (Rows.storeById id).

Definition getStoreBySlug (slug : string) : Async (option Store) :=
  dbSelect (GetStoreBySlug slug) (Rows.storeBySlug slug).

Definition getProductsByStoreId (storeId : string) : Async (list Product) :=
  dbSelect (GetProductsByStoreId storeId) (Rows.productsByStoreId storeId).

Definition createProduct (data : InsertProduct) (storeId : string) : Async Product :=
  now <- dateNow ;;
  dbExec (CreateProduct storeId)
    (fun d =>
       let p := mkProduct ("product-" ++ Js.intToString (nextId d)) storeId
                          (insert_name data) (insert_isActive data) (Some now) in
       (p, mkDb (stores d) (products d ++ [p]) (orders d) (plans d)
                (subscriptions d) (shippingConfigs d) (shippingZones d)
                (nextId d + 1))).

Definition getOrdersByStoreId (storeId : string) : Async (list Order) :=
  dbSelect (GetOrdersByStoreId storeId) (Rows.ordersByStoreId storeId).



Definition getAllPlans : Async (list Plan) :=
  dbSelect GetAllPlans Rows.allPlans.

Definition getPlanBySlug (slug : string) : Async (option Plan) :=
  dbSelect (GetPlanBySlug slug) (Rows.planBySlug slug).

(** [if (!subscription || !subscription.plans) return undefined;
    return { ...subscription.subscriptions, plan: subscription.plans }] *)
Definition withPlan (subscription : option (Subscription * option Plan))
  : option SubscriptionWithPlan :=
  match subscription with
  | None => None
  | Some (_, None) => None
  | Some (s, Some p) => Some (mkSubscriptionWithPlan s p)
  end.

Definition getSubscriptionByUserId (userId : string)
  : Async (option SubscriptionWithPlan) :=
  subscription <- dbSelect (GetSubscriptionByUserId userId)
                           (Rows.latestSubscriptionJoined userId) ;;
  ret (withPlan subscription).

Definition getShippingConfig (storeId : string) : Async (option ShippingConfig) :=
  dbSelect (GetShippingConfig storeId) (Rows.shippingConfig storeId).

Definition getShippingZones (storeId : string) : Async (list ShippingZone) :=
  dbSelect (GetShippingZones storeId) (Rows.shippingZonesOf storeId).

(** The test of the free-shipping branch: the threshold is a non-empty
    string, parses to more than zero, and the order total reaches it. *)
Definition freeShippingReached (config : option ShippingConfig)
           (orderTotal : Js.number) : bool :=
  match optChain config freeShippingThreshold with
  | Some t =>
      Js.truthyStr t && Js.num_gt (Js.parseFloat t) Js.zero
      && Js.num_ge orderTotal (Js.parseFloat t)
  | None => false
  end.

(** The test of the zone loop. *)
Definition zoneContains (zone : ShippingZone) (cleanZip : string) : bool :=
  let zipStart := Js.stripNonDigits (zipCodeStart zone) in
  let zipEnd := Js.stripNonDigits (zipCodeEnd zone) in
  Js.str_ge cleanZip zipStart && Js.str_le cleanZip zipEnd.

(** [zone.estimatedDays || 7]: [null] and [0] are falsy. *)
Definition estimatedDaysOr7 (zone : ShippingZone) : Z :=
  match estimatedDays zone with
  | Some n => if n =? 0 then 7 else n
  | None => 7
  end.

(** The [for (const zone of zones)] loop: the quote returned from
    inside the loop, or [None] when the loop runs to its end. *)
Fixpoint zoneLoop (zones : list ShippingZone) (cleanZip : string)
  : option ShippingQuote :=
  match zones with
  | [] => None
  | zone :: rest =>
      if zoneContains zone cleanZip then
        Some (mkShippingQuote (Js.parseFloat (shippingCost zone))
                              (estimatedDaysOr7 zone))
      else zoneLoop rest cleanZip
  end.

Definition defaultCostOf (config : option ShippingConfig) : Js.number :=
  match optChain config defaultShippingCost with
  | Some c => if Js.truthyStr c then Js.parseFloat c else Js.zero
  | None => Js.zero
  end.

Definition calculateShipping (storeId zipCode : string) (orderTotal : Js.number)
  : Async ShippingQuote :=
  config <- getShippingConfig storeId ;;
  let cleanZip := Js.stripNonDigits zipCode in
  if freeShippingReached config orderTotal then
    ret (mkShippingQuote Js.zero 7)
  else
    zones <- getShippingZones storeId ;;
    match zoneLoop zones cleanZip with
    | Some quote => ret quote
    | None => ret (mkShippingQuote (defaultCostOf config) 7)
    end.

End storage.

(* ------------------------------------------------------------------ *)
(** ** Requests and responses *)
(* ------------------------------------------------------------------ *)

(** [req.subscription], one constructor per object the middleware
    stores there. *)
Inductive ReqSubscription : Type :=
| (** [{ status: "active", plan: freePlan, isFree: true }] *)
  ImplicitFree (freePlan : option Plan)
| (** the stored row with its plan *)
  Stored (s : SubscriptionWithPlan).

Definition statusOf (s : ReqSubscription) : string :=
  match s with
  | ImplicitFree _ => "active"
  | Stored s => sub_status (subscription_row s)
  end.

Definition planOf (s : ReqSubscription) : option Plan :=
  match s with
  | ImplicitFree freePlan => freePlan
  | Stored s => Some (subscription_plan s)
  end.


Record UsageEntry : Type := mkUsageEntry
  { current : Z;
    limit : option Z;
    percentage : Js.number }.

Record PlanInfo : Type := mkPlanInfo
  { info_name : option string;
    info_slug : option string;
    info_maxProducts : option Z;
    info_maxOrders : option Z }.

Record PlanUsage : Type := mkPlanUsage
  { usage_plan : PlanInfo;
    usage_products : UsageEntry;
    usage_orders : UsageEntry }.

(** The JSON bodies the routes send. *)
Inductive Body : Type :=
| JsonMessage (message : string)
| JsonRedirect (message redirectTo : string)
| JsonLimit (message : string) (limit current : Z) (upgradeRequired : bool)
            (redirectTo : string)
| (** [shippingCost] is sent as [cost.toString()] *)
  JsonQuote (shippingCost : Js.number) (estimatedDays : Z) (isFree : bool)
| JsonPlans (l : list Plan)
| JsonSubscription (s : ReqSubscription)
| JsonProduct (p : Product)
| JsonUsage (u : PlanUsage).

Record Response : Type := mkResponse
  { status : Z;
    body : Body }.

(** [res.json(b)] *)
Definition ok (b : Body) : Response := mkResponse 200 b.

Record Request : Type := mkRequest
  { (** [req.user?.claims?.sub]; [None] when the request has no user *)
    claimsSub : option string;
    (** [req.subscription] *)
    subscription : option ReqSubscription;
    (** [req.body.storeId] *)
    body_storeId : option string;
    (** [insertProductSchema.parse(req.body)]; [None] when it throws *)
    body_product : option InsertProduct }.

Definition setSubscription (s : ReqSubscription) (req : Request) : Request :=
  mkRequest (claimsSub req) (Some s) (body_storeId req) (body_product req).

(** What a middleware does with a request: call [next()], or answer. *)
Inductive Step : Type :=
| Next (req : Request)
| Respond (res : Response).

Definition Middleware : Type := Request -> Async Step.
Definition Handler : Type := Request -> Async Response.

(** [app.post(path, mw1, ..., mwn, handler)] *)
Fixpoint route (mws : list Middleware) (handler : Handler) (req : Request)
  : Async Response :=
  match mws with
  | [] => handler req
  | mw :: rest =>
      step <- mw req ;;
      match step with
      | Next req' => route rest handler req'
      | Respond res => ret res
      end
  end.

(** A string, [undefined] or empty, in a condition. *)
Definition truthyOptStr (s : option string) : bool :=
  match s with Some s => Js.truthyStr s | None => false end.

(* ------------------------------------------------------------------ *)
(** ** [subscriptionMiddleware.ts] *)
(* ------------------------------------------------------------------ *)

Definition requireActiveSubscription : Middleware := fun req =>
  tryCatch
    (match claimsSub req with
     | Some userId =>
         if negb (Js.truthyStr userId) then
           ret (Respond (mkResponse 401 (JsonMessage "Usuário não autenticado")))
         else
           subscription <- storage.getSubscriptionByUserId userId ;;
           match subscription with
           | None =>
               freePlan <- storage.getPlanBySlug "gratis" ;;
               ret (Next (setSubscription (ImplicitFree freePlan) req))
           | Some subscription =>
               if negb (String.eqb (sub_status (subscription_row subscription)) "active")
               then
                 ret (Respond (mkResponse 403
                        (JsonRedirect
                           "Sua assinatura não está ativa. Por favor, renove sua assinatura."
                           "/dashboard/subscription")))
               else ret (Next (setSubscription (Stored subscription) req))
           end
     | None =>
         ret (Respond (mkResponse 401 (JsonMessage "Usuário não autenticado")))
     end)
    (fun _ => ret (Respond (mkResponse 500 (JsonMessage "Erro ao verificar assinatura")))).

Definition productLimitMessage (plan : Plan) (maxProducts : Z) : string :=
  "Você atingiu o limite de " ++ Js.intToString maxProducts
  ++ " produtos do plano " ++ plan_name plan
  ++ ". Faça upgrade para adicionar mais produtos.".

Definition checkProductLimit : Middleware := fun req =>
  tryCatch
    (let userId := claimsSub req in
     store <- storage.getStoreByUserId userId ;;
     match store with
     | None => ret (Respond (mkResponse 404 (JsonMessage "Loja não encontrada")))
     | Some store =>
         let plan := optChain (subscription req) planOf in
         match plan, optChain plan maxProducts with
         | Some plan, Some limit =>
             currentProducts <- storage.getProductsByStoreId (store_id store) ;;
             if Z.of_nat (List.length currentProducts) >=? limit then
               ret (Respond (mkResponse 403
                      (JsonLimit (productLimitMessage plan limit)
                                 limit
                                 (Z.of_nat (List.length currentProducts))
                                 true
                                 "/dashboard/subscription")))
             else ret (Next req)
         | _, _ => ret (Next req)
         end
     end)
    (fun _ => ret (Respond (mkResponse 500
                     (JsonMessage "Erro ao verificar limite de produtos")))).

(** [new Date(now.getFullYear(), now.getMonth(), 1)] *)
Definition firstDayOfMonth (utcOffset now : Z) : Z :=
  JsDate.ofLocalDate utcOffset
    (JsDate.getFullYear utcOffset now) (JsDate.getMonth utcOffset now) 1.

(** [orders.filter(order => new Date(order.createdAt!) >= firstDayOfMonth)] *)
Definition ordersSince (firstDay : Z) (orders : list Order) : list Order :=
  filter (fun order => firstDay <=? JsDate.ofColumn (order_createdAt order)) orders.

Definition orderLimitMessage (plan : Plan) (maxOrders : Z) : string :=
  "Você atingiu o limite de " ++ Js.intToString maxOrders
  ++ " pedidos/mês do plano " ++ plan_name plan
  ++ ". Faça upgrade para processar mais pedidos.".

Definition checkOrderLimit : Middleware := fun req =>
  tryCatch
    (let userId := claimsSub req in
     store <- storage.getStoreByUserId userId ;;
     match store with
     | None => ret (Respond (mkResponse 404 (JsonMessage "Loja não encontrada")))
     | Some store =>
         let plan := optChain (subscription req) planOf in
         match plan, optChain plan maxOrders with
         | Some plan, Some limit =>
             currentOrders <- storage.getOrdersByStoreId (store_id store) ;;
             now <- dateNow ;;
             offset <- localOffset ;;
             let ordersThisMonth :=
               ordersSince (firstDayOfMonth offset now) currentOrders in
             if Z.of_nat (List.length ordersThisMonth) >=? limit then
               ret (Respond (mkResponse 403
                      (JsonLimit (orderLimitMessage plan limit)
                                 limit
                                 (Z.of_nat (List.length ordersThisMonth))
                                 true
                                 "/dashboard/subscription")))
             else ret (Next req)
         | _, _ => ret (Next req)
         end
     end)
    (fun _ => ret (Respond (mkResponse 500
                     (JsonMessage "Erro ao verificar limite de pedidos")))).

(** [limit ? (current / limit) * 100 : 0]: [null], [undefined] and [0]
    are falsy. *)
Definition percentageOf (current : Z) (limit : option Z) : Js.number :=
  match limit with
  | Some l =>
      if l =? 0 then Js.zero
      else Js.num_mul (Js.num_div (Js.ofZ current) (Js.ofZ l)) (Js.ofZ 100)
  | None => Js.zero
  end.

(** The object [getPlanUsage] returns. *)
Definition usageSnapshot (plan : option Plan) (products : list Product)
           (ordersThisMonth : list Order) : PlanUsage :=
  mkPlanUsage
    (mkPlanInfo (option_map plan_name plan)
                (option_map plan_slug plan)
                (optChain plan maxProducts)
                (optChain plan maxOrders))
    (mkUsageEntry (Z.of_nat (List.length products))
                  (optChain plan maxProducts)
                  (percentageOf (Z.of_nat (List.length products))
                                (optChain plan maxProducts)))
    (mkUsageEntry (Z.of_nat (List.length ordersThisMonth))
                  (optChain plan maxOrders)
                  (percentageOf (Z.of_nat (List.length ordersThisMonth))
                                (optChain plan maxOrders))).

Definition getPlanUsage (userId : string) : Async (option PlanUsage) :=
  tryCatch
    (store <- storage.getStoreByUserId (Some userId) ;;
     match store with
     | None => ret None
     | Some store =>
         subscription <- storage.getSubscriptionByUserId userId ;;
         plan <- match subscription with
                 | Some s => ret (Some (subscription_plan s))
                 | None => storage.getPlanBySlug "gratis"
                 end ;;
         products <- storage.getProductsByStoreId (store_id store) ;;
         orders <- storage.getOrdersByStoreId (store_id store) ;;
         now <- dateNow ;;
         offset <- localOffset ;;
         let ordersThisMonth := ordersSince (firstDayOfMonth offset now) orders in
         ret (Some (usageSnapshot plan products ordersThisMonth))
     end)
    (fun _ => ret None).

(* ------------------------------------------------------------------ *)
(** ** Routes ([registerRoutes]) *)
(* ------------------------------------------------------------------ *)

Module routes.

(** The store a new product goes to: [req.body.storeId] when given and
    owned by the user, else the user's first store; or the response that
    ends the request. *)
Definition targetStoreOf (userId : string) (bodyStoreId : option string)
  : Async (Response + string) :=
  let firstStore :=
    store <- storage.getStoreByUserId (Some userId) ;;
    match store with
    | None => ret (inl (mkResponse 404 (JsonMessage "Store not found")))
    | Some store => ret (inr (store_id store))
    end in
  match bodyStoreId with
  | Some targetStoreId =>
      if Js.truthyStr targetStoreId then
        targetStore <- storage.getStoreById targetStoreId ;;
        match targetStore with
        | Some s =>
            if negb (String.eqb (store_userId s) userId) then
              ret (inl (mkResponse 403 (JsonMessage
                "You don't have permission to add products to this store")))
            else ret (inr targetStoreId)
        | None =>
            ret (inl (mkResponse 403 (JsonMessage
              "You don't have permission to add products to this store")))
        end
      else firstStore
  | None => firstStore
  end.

(** [POST /api/products]; [isAuthenticated] has already put the user
    on the request. *)
Definition createProductHandler : Handler := fun req =>
  tryCatch
    (match claimsSub req with
     | None => throw "Cannot read properties of undefined (reading 'claims')"
     | Some userId =>
         target <- targetStoreOf userId (body_storeId req) ;;
         match target with
         | inl res => ret res
         | inr targetStoreId =>
             match body_product req with
             | None => throw "Invalid product"
             | Some validatedData =>
                 product <- storage.createProduct
                              (mkInsertProduct (insert_name validatedData) (Some true))
                              targetStoreId ;;
                 ret (ok (JsonProduct product))
             end
         end
     end)
    (fun message =>
       ret (mkResponse 400
              (JsonMessage (if Js.truthyStr message then message
                            else "Failed to create product")))).

Definition postApiProducts : Handler :=
  route [requireActiveSubscription; checkProductLimit] createProductHandler.

(** [POST /api/shipping/calculate] with the body fields [storeSlug],
    [zipCode] and [orderTotal]. *)
Definition postShippingCalculate (storeSlug zipCode : option string)
           (orderTotal : option Js.number) : Async Response :=
  tryCatch
    (match storeSlug, zipCode with
     | Some storeSlug, Some zipCode =>
         if negb (Js.truthyStr storeSlug) || negb (Js.truthyStr zipCode) then
           ret (mkResponse 400 (JsonMessage "Store slug and zip code are required"))
         else
           store <- storage.getStoreBySlug storeSlug ;;
           match store with
           | None => ret (mkResponse 404 (JsonMessage "Store not found"))
           | Some store =>
               shipping <- storage.calculateShipping (store_id store) zipCode
                             (Js.orZero orderTotal) ;;
               ret (ok (JsonQuote (cost shipping)
                                  (quote_estimatedDays shipping)
                                  (Js.num_eq (cost shipping) Js.zero)))
           end
     | _, _ =>
         ret (mkResponse 400 (JsonMessage "Store slug and zip code are required"))
     end)
    (fun _ => ret (mkResponse 500 (JsonMessage "Failed to calculate shipping"))).

(** [GET /api/plan-usage] *)
Definition getApiPlanUsage (userId : string) : Async Response :=
  tryCatch
    (usage <- getPlanUsage userId ;;
     match usage with
     | None => ret (mkResponse 404 (JsonMessage "Unable to fetch plan usage"))
     | Some usage => ret (ok (JsonUsage usage))
     end)
    (fun _ => ret (mkResponse 500 (JsonMessage "Failed to fetch plan usage"))).

Definition CACHE_TTL : Z := 5 * 60 * 1000.

Definition fallbackPlans : list Plan :=
  [ mkPlan "gratis" "Grátis" "gratis" "0.00" None (Some 5) (Some 10)
      ["Até 5 produtos"; "Até 10 pedidos/mês"; "Loja básica"; "Suporte por email"]
      (Some true);
    mkPlan "basico" "Básico" "basico" "29.90" None (Some 50) (Some 100)
      ["Até 50 produtos"; "Até 100 pedidos/mês"; "Personalização de cores";
       "Cupons de desconto"; "Suporte prioritário"]
      (Some true);
    mkPlan "profissional" "Profissional" "profissional" "79.90" None (Some 200) None
      ["Até 200 produtos"; "Pedidos ilimitados"; "Personalização completa";
       "Cupons ilimitados"; "Análises avançadas"; "Suporte VIP"]
      (Some true);
    mkPlan "enterprise" "Enterprise" "enterprise" "199.90" None None None
      ["Produtos ilimitados"; "Pedidos ilimitados"; "Todas as funcionalidades";
       "API personalizada"; "Suporte dedicado 24/7"]
      (Some true) ].

Definition readPlansCache : Async (option (list Plan) * Z) :=
  fun w => (Fulfilled (plansCache w, plansCacheTime w), w).

Definition writePlansCache (plans : list Plan) (now : Z) : Async unit :=
  fun w => (Fulfilled tt, withPlansCache (Some plans) now w).

(** [GET /api/plans] *)
Definition getApiPlans : Async Response :=
  tryCatch
    (now <- dateNow ;;
     cache <- readPlansCache ;;
     match cache with
     | (Some cached, cacheTime) =>
         if now - cacheTime <? CACHE_TTL then ret (ok (JsonPlans cached))
         else
           plans <- storage.getAllPlans ;;
           writePlansCache plans now ;;;
           ret (ok (JsonPlans plans))
     | (None, _) =>
         plans <- storage.getAllPlans ;;
         writePlansCache plans now ;;;
         ret (ok (JsonPlans plans))
     end)
    (fun _ =>
       cache <- readPlansCache ;;
       match cache with
       | (Some cached, _) => ret (ok (JsonPlans cached))
       | (None, _) => ret (ok (JsonPlans fallbackPlans))
       end).

(** [GET /api/subscription] *)
Definition getApiSubscription (userId : string) : Async Response :=
  tryCatch
    (subscription <- storage.getSubscriptionByUserId userId ;;
     match subscription with
     | None =>
         freePlan <- storage.getPlanBySlug "gratis" ;;
         ret (ok (JsonSubscription (ImplicitFree freePlan)))
     | Some subscription => ret (ok (JsonSubscription (Stored subscription)))
     end)
    (fun _ => ret (mkResponse 500 (JsonMessage "Failed to fetch subscription"))).

End routes.

(* ------------------------------------------------------------------ *)
(** ** The specification's wording *)
(* ------------------------------------------------------------------ *)

Module Spec.

(** Lexicographic order on strings, character by character. *)
Inductive LexLe : string -> string -> Prop :=
| LexLe_empty : forall b, LexLe EmptyString b
| LexLe_less : forall c d a b,
    (N_of_ascii c < N_of_ascii d)%N -> LexLe (String c a) (String d b)
| LexLe_same : forall c a b, LexLe a b -> LexLe (String c a) (String c b).

(** [start <= zip <= end] on the digit-stripped bounds. *)
Definition inRange (zone : ShippingZone) (cleanZip : string) : Prop :=
  LexLe (Js.stripNonDigits (zipCodeStart zone)) cleanZip
  /\ LexLe cleanZip (Js.stripNonDigits (zipCodeEnd zone)).

(** [zone.estimatedDays ?? 7] *)
Definition estimatedDaysNullish (zone : ShippingZone) : Z :=
  match estimatedDays zone with Some n => n | None => 7 end.

(** [config.defaultShippingCost ?? 0], as a number. *)
Definition defaultCostNullish (config : option ShippingConfig) : Js.number :=
  match optChain config defaultShippingCost with
  | Some c => Js.parseFloat c
  | None => Js.zero
  end.

(** [current / limit * 100] when the limit is non-null, else [0]. *)
Definition percentage (current : Z) (limit : option Z) : Js.number :=
  match limit with
  | Some l => Js.num_mul (Js.num_div (Js.ofZ current) (Js.ofZ l)) (Js.ofZ 100)
  | None => Js.zero
  end.

(** The rows of a store's orders created on or after [firstDay]. *)
Definition monthlyOrders (storeId : string) (firstDay : Z) (d : Db) : list Order :=
  filter (fun o => String.eqb (order_storeId o) storeId
                   && (firstDay <=? JsDate.ofColumn (order_createdAt o)))
         (orders d).


(** The tables after the user's subscription rows are taken away. *)
Definition withoutSubscriptionsOf (userId : string) (d : Db) : Db :=
  mkDb (stores d) (products d) (orders d) (plans d)
       (filter (fun s => negb (String.eqb (sub_userId s) userId)) (subscriptions d))
       (shippingConfigs d) (shippingZones d) (nextId d).

(** The number of product rows of a store. *)
Definition productCount (storeId : string) (d : Db) : Z :=
  Z.of_nat (List.length
              (filter (fun p => String.eqb (product_storeId p) storeId) (products d))).

(** A plan list in ascending order of price. *)
Definition ascendingByPrice (l : list Plan) : Prop :=
  forall i j a b,
    (i < j)%nat -> nth_error l i = Some a -> nth_error l j = Some b ->
    Js.num_le (Js.parseFloat (price a)) (Js.parseFloat (price b)) = true.

End Spec.

(** The cached plans are no longer fresh. *)
Definition cacheIsStale (w : World) : bool :=
  negb (clock w - plansCacheTime w <? routes.CACHE_TTL).

(** The value a computation settles with, if it fulfils. *)
Definition valueOf {A : Type} (r : Completion A * World) : option A :=
  match fst r with Fulfilled a => Some a | Rejected _ => None end.

(* ------------------------------------------------------------------ *)
(** ** Sample data *)
(* ------------------------------------------------------------------ *)

Module Sample.

Definition emptyDb : Db := mkDb [] [] [] [] [] [] [] 1.

(** A world at 2024-03-15 12:00 in a zone three hours behind UTC, with
    an empty trace and no cached plans. *)
Definition worldOf (d : Db) : World :=
  mkWorld d true [] None 0 (JsDate.ofLocal (-180) 2024 2 15 12 0 0 0) (-180).

Definition offline (w : World) : World :=
  mkWorld (db w) false (trace w) (plansCache w) (plansCacheTime w)
          (clock w) (utcOffset w).

Definition loja : Store := mkStore "s1" "u1" "Loja-Um".

Definition capital : ShippingZone :=
  mkShippingZone "s1" "Capital" "01000-000" "05999-999" "10.00" (Some 3) (Some true).

Definition interior : ShippingZone :=
  mkShippingZone "s1" "Interior" "06000-000" "09999-999" "20.00" (Some 5) (Some true).

(** A zone whose delivery time is stored as zero days. *)
Definition sameDay : ShippingZone :=
  mkShippingZone "s1" "Capital" "01000-000" "05999-999" "10.00" (Some 0) (Some true).

Definition shippingDb (zones : list ShippingZone) : Db :=
  mkDb [loja] [] [] [] []
       [mkShippingConfig "s1" (Some "200.00") (Some "15.00")] zones 1.

Definition gratis : Plan :=
  mkPlan "plan-gratis" "Grátis" "gratis" "0.00" None (Some 5) (Some 10) [] (Some true).

Definition enterprise : Plan :=
  mkPlan "plan-enterprise" "Enterprise" "enterprise" "199.90" None None None []
         (Some true).

Definition produto (n : Z) : Product :=
  mkProduct ("product-" ++ Js.intToString n) "s1" "Caneca" (Some true) (Some n).

(** The store of user [u1] with the given products; nobody has a
    subscription row. *)
Definition catalogDb (ps : list Product) (plans : list Plan) : Db :=
  mkDb [loja] ps [] plans [] [] [] 100.

Definition fiveProducts : list Product :=
  [produto 1; produto 2; produto 3; produto 4; produto 5].

Definition fourProducts : list Product :=
  [produto 1; produto 2; produto 3; produto 4].

(** A product-creation request of user [u1], before any middleware. *)
Definition newProduct : Request :=
  mkRequest (Some "u1") None None (Some (mkInsertProduct "Caneca" None)).

Definition pro : Plan :=
  mkPlan "plan-pro" "Profissional" "profissional" "79.90" None (Some 200) None []
         (Some true).

(** User [u1] has an older row on the free plan and a newer one, past
    due, on the professional plan.  User [u2] has one row, whose plan
    does not exist. *)
Definition olderRow : Subscription :=
  mkSubscription "sub-1" "u1" "plan-gratis" "active" (Some false) (Some 1000).

Definition newerRow : Subscription :=
  mkSubscription "sub-2" "u1" "plan-pro" "past_due" (Some false) (Some 2000).

Definition danglingRow : Subscription :=
  mkSubscription "sub-3" "u2" "plan-gone" "canceled" (Some true) (Some 3000).

Definition subscriptionDb : Db :=
  mkDb [loja; mkStore "s2" "u2" "loja-dois"] [] [] [gratis; pro]
       [olderRow; newerRow; danglingRow] [] [] 100.

Definition subscriptionWorld : World := worldOf subscriptionDb.

(** A tier that allows no product at all. *)
Definition vitrine : Plan :=
  mkPlan "plan-vitrine" "Vitrine" "gratis" "0.00" None (Some 0) (Some 10) []
         (Some true).

Definition zeroLimitWorld : World :=
  worldOf (catalogDb [produto 1; produto 2; produto 3] [vitrine]).

(** Orders of store [s1] around the turn of the month (local time):
    the last millisecond of February, the first of March, a cancelled
    order of March, and an order of another store. *)
Definition pedidos : list Order :=
  [ mkOrder "o1" "s1" (Some "delivered")
            (Some (JsDate.ofLocal (-180) 2024 1 29 23 59 59 999));
    mkOrder "o2" "s1" (Some "pending")
            (Some (JsDate.ofLocal (-180) 2024 2 1 0 0 0 0));
    mkOrder "o3" "s1" (Some "cancelled")
            (Some (JsDate.ofLocal (-180) 2024 2 10 9 30 0 0));
    mkOrder "o4" "s2" (Some "pending")
            (Some (JsDate.ofLocal (-180) 2024 2 11 9 30 0 0)) ].

Definition ordersWorld : World :=
  worldOf (mkDb [loja] [] pedidos [gratis] [] [] [] 100).

(** A world whose database is down, with plans cached long ago. *)
Definition staleWorld : World :=
  mkWorld emptyDb false [] (Some [gratis; pro]) 0
          (JsDate.ofLocal (-180) 2024 2 15 12 0 0 0) (-180).

Definition shippingWorld : World := worldOf (shippingDb [interior; capital]).

Definition sameDayWorld : World := worldOf (shippingDb [sameDay]).

End Sample.

(* ------------------------------------------------------------------ *)
(** ** Tables and row order, for stating further properties *)
(* ------------------------------------------------------------------ *)

Module Tables.

(** [l] is in the order of [precedes]: each row precedes all later ones. *)
Fixpoint sortedBy {A : Type} (precedes : A -> A -> bool) (l : list A) : Prop :=
  match l with
  | [] => True
  | x :: r => (forall y, In y r -> precedes x y = true) /\ sortedBy precedes r
  end.

(** The tables with other shipping zones. *)
Definition withShippingZones (zones : list ShippingZone) (d : Db) : Db :=
  mkDb (stores d) (products d) (orders d) (plans d) (subscriptions d)
       (shippingConfigs d) zones (nextId d).

(** An active zone of the store whose bounds enclose the cleaned zip. *)
Definition encloses (storeId cleanZip : string) (d : Db) (z : ShippingZone) : Prop :=
  In z (shippingZones d)
  /\ zone_storeId z = storeId
  /\ zone_isActive z = Some true
  /\ Spec.inRange z cleanZip.

(** The quote [calculateShipping] takes from a zone. *)
Definition quoteOf (z : ShippingZone) : ShippingQuote :=
  mkShippingQuote (Js.parseFloat (shippingCost z)) (storage.estimatedDaysOr7 z).

(** The price of a plan is a finite number. *)
Definition pricedFinitely (p : Plan) : Prop :=
  exists q, Js.parseFloat (price p) = Js.Fin q.

End Tables.

(* ------------------------------------------------------------------ *)
(** ** Further sample data *)
(* ------------------------------------------------------------------ *)

Module Fixture.



(** A request that has passed [requireActiveSubscription] on the
    implicit free plan [plan]. *)
Definition resolved (plan : Plan) : Request :=
  setSubscription (ImplicitFree (Some plan)) Sample.newProduct.

(** User [u1] owns two stores: the first holds no product, the second
    holds five. *)
Definition filial : Store := mkStore "s2" "u1" "filial".

Definition naFilial (n : Z) : Product :=
  mkProduct ("product-" ++ Js.intToString n) "s2" "Caneca" (Some true) (Some n).

Definition twoStoresWorld : World :=
  Sample.worldOf
    (mkDb [Sample.loja; filial]
          [naFilial 1; naFilial 2; naFilial 3; naFilial 4; naFilial 5]
          [] [Sample.gratis] [] [] [] 100).

(** A product for the second store. *)
Definition newProductForFilial : Request :=
  mkRequest (Some "u1") None (Some "s2") (Some (mkInsertProduct "Caneca" None)).

(** A product for a store of somebody else. *)
Definition newProductForStranger : Request :=
  mkRequest (Some "u7") None (Some "s1") (Some (mkInsertProduct "Caneca" None)).

(** Two active zones of store [s1] enclose 01310-100; a third one is
    switched off and a fourth belongs to another store. *)
Definition centro : ShippingZone :=
  mkShippingZone "s1" "Centro" "01000-000" "01999-999" "8.00" (Some 2) (Some true).

Definition desligada : ShippingZone :=
  mkShippingZone "s1" "Aaa" "00000-000" "99999-999" "1.00" (Some 1) (Some false).

Definition alheia : ShippingZone :=
  mkShippingZone "s9" "Aab" "00000-000" "99999-999" "2.00" (Some 1) (Some true).

Definition overlapWorld : World :=
  Sample.worldOf (Sample.shippingDb [centro; desligada; Sample.capital; alheia]).


(** User [u1] subscribes to the professional plan, and so does user
    [u3]; [u1] has the store with four products. *)
Definition assinatura : Subscription :=
  mkSubscription "sub-7" "u1" "plan-pro" "active" (Some false) (Some 5000).

Definition assinante : Db :=
  mkDb [Sample.loja] Sample.fourProducts [] [Sample.gratis; Sample.pro]
       [assinatura;
        mkSubscription "sub-8" "u3" "plan-pro" "active" (Some false) (Some 6000)]
       [] [] 100.


(** Two stores of user [u1].  The first holds an active product, one
    switched off and one whose [isActive] is null; the second holds a
    product that is switched off. *)
Definition parados : Db :=
  mkDb [Sample.loja; filial]
       [Sample.produto 1;
        mkProduct "product-2" "s1" "Prato" (Some false) (Some 2);
        mkProduct "product-3" "s1" "Copo" None (Some 3);
        mkProduct "product-4" "s2" "Jarra" (Some false) (Some 4)]
       [] [Sample.gratis] [] [] [] 100.

End Fixture.

(* ------------------------------------------------------------------ *)
(** ** [storage.ts]: updates and deletes *)
(* ------------------------------------------------------------------ *)

Module DatabaseStorage.

(** A statement of a method that has no entry in [StorageCall]: it
    settles like the others and leaves [trace] as it is. *)
Definition dbRun {A : Type} (q : Db -> A * Db) : Async A :=
  fun w =>
    if dbUp w then let '(a, d) := q (db w) in (Fulfilled a, withDb d w)
    else (Rejected "database unavailable", w).

Definition withProducts (rows : list Product) (d : Db) : Db :=
  mkDb (stores d) rows (orders d) (plans d) (subscriptions d)
       (shippingConfigs d) (shippingZones d) (nextId d).

Definition withSubscriptions (rows : list Subscription) (d : Db) : Db :=
  mkDb (stores d) (products d) (orders d) (plans d) rows
       (shippingConfigs d) (shippingZones d) (nextId d).

(** [Partial<InsertProduct>]: a column is set when its field is present. *)
Record ProductPatch : Type := mkProductPatch
  { patch_name : option string;
    patch_isActive : option (option bool) }.

Definition patchProduct (data : ProductPatch) (p : Product) : Product :=
  mkProduct (product_id p) (product_storeId p)
            (match patch_name data with Some n => n | None => product_name p end)
            (match patch_isActive data with Some a => a | None => product_isActive p end)
            (product_createdAt p).

(** [update(products).set({ ...productData, updatedAt }).where(eq(products.id, id))
    .returning()]; the first returned row, [undefined] when there is none. *)
Definition updateProduct (id : string) (data : ProductPatch) : Async (option Product) :=
  dbRun
    (fun d =>
       let hit := fun p => String.eqb (product_id p) id in
       let rows := map (fun p => if hit p then patchProduct data p else p) (products d) in
       (Sql.first (filter hit rows), withProducts rows d)).

(** [delete(products).where(eq(products.id, id))] *)
Definition deleteProduct (id : string) : Async unit :=
  dbRun
    (fun d =>
       (tt, withProducts (filter (fun p => negb (String.eqb (product_id p) id))
                                 (products d)) d)).

(** [set({ status: "canceled", cancelAtPeriodEnd: true, updatedAt })] on
    one row. *)
Definition canceled (s : Subscription) : Subscription :=
  mkSubscription (sub_id s) (sub_userId s) (planId s) "canceled" (Some true)
                 (sub_createdAt s).

(** [update(subscriptions).set(...).where(eq(subscriptions.userId, userId))] *)
Definition cancelSubscription (userId : string) : Async unit :=
  dbRun
    (fun d =>
       (tt, withSubscriptions
              (map (fun s => if String.eqb (sub_userId s) userId then canceled s else s)
                   (subscriptions d)) d)).

End DatabaseStorage.

(* ------------------------------------------------------------------ *)
(** ** Routes that change rows *)
(* ------------------------------------------------------------------ *)

Module handlers.

(** The bodies these routes answer with. *)
Inductive Json : Type :=
| Message (message : string)
| Fixed (message : string) (count : Z)
| Success (success : bool) (message : string)
| Products (products : list Product).

Record Reply : Type := mkReply
  { reply_status : Z;
    reply_body : Json }.

(** A [boolean | null] in a condition. *)
Definition truthyOptBool (b : option bool) : bool :=
  match b with Some true => true | _ => false end.

(** The loop of [POST /api/products/fix-inactive] over the rows read
    before it, with [fixedCount]. *)
Fixpoint activateLoop (products : list Product) (fixedCount : Z) : Async Z :=
  match products with
  | [] => ret fixedCount
  | product :: rest =>
      if negb (truthyOptBool (product_isActive product)) then
        DatabaseStorage.updateProduct (product_id product)
          (DatabaseStorage.mkProductPatch None (Some (Some true))) ;;;
        activateLoop rest (fixedCount + 1)
      else activateLoop rest fixedCount
  end.

(** [POST /api/products/fix-inactive] *)
Definition postFixInactive (userId : string) : Async Reply :=
  tryCatch
    (store <- storage.getStoreByUserId (Some userId) ;;
     match store with
     | None => ret (mkReply 404 (Message "Store not found"))
     | Some store =>
         products <- storage.getProductsByStoreId (store_id store) ;;
         fixedCount <- activateLoop products 0 ;;
         ret (mkReply 200
                (Fixed (Js.intToString fixedCount ++ " produtos ativados com sucesso")
                       fixedCount))
     end)
    (fun _ => ret (mkReply 500 (Message "Failed to fix products"))).

(** [GET /api/stores/:slug/products] *)
Definition getStoreProducts (slug : string) : Async Reply :=
  tryCatch
    (store <- storage.getStoreBySlug slug ;;
     match store with
     | None => ret (mkReply 404 (Message "Store not found"))
     | Some store =>
         products <- storage.getProductsByStoreId (store_id store) ;;
         ret (mkReply 200
                (Products (filter (fun p => truthyOptBool (product_isActive p))
                                  products)))
     end)
    (fun _ => ret (mkReply 500 (Message "Failed to fetch products"))).

(** [DELETE /api/products/:id] *)
Definition deleteApiProduct (id : string) : Async Reply :=
  tryCatch
    (DatabaseStorage.deleteProduct id ;;;
     ret (mkReply 200 (Message "Product deleted")))
    (fun _ => ret (mkReply 500 (Message "Failed to delete product"))).

(** [POST /api/subscription/cancel] *)
Definition postSubscriptionCancel (userId : string) : Async Reply :=
  tryCatch
    (DatabaseStorage.cancelSubscription userId ;;;
     ret (mkReply 200 (Success true "Assinatura cancelada com sucesso")))
    (fun _ => ret (mkReply 500 (Message "Failed to cancel subscription"))).

End handlers.

(* ------------------------------------------------------------------ *)
(** ** [notifications.ts] *)
(* ------------------------------------------------------------------ *)

Module notifications.

(** The recipient of [sendSmsNotification], from [order.customerPhone]. *)
Definition toNumber (customerPhone : string) : string :=
  let toNumber := Js.stripNonDigits customerPhone in
  let toNumber :=
    if negb (String.prefix "55" toNumber) then "55" ++ toNumber else toNumber in
  if negb (String.prefix "+" toNumber) then "+" ++ toNumber else toNumber.

End notifications.

(* ------------------------------------------------------------------ *)
(** ** [cart.tsx] *)
(* ------------------------------------------------------------------ *)

Module Cart.

(** The columns of a product that the cart reads. *)
Record CartProduct : Type := mkCartProduct
  { cart_product_id : string;
    cart_product_price : string;
    stock : option Z }.

(** Quantities are integers. *)
Record CartItem : Type := mkCartItem
  { product : CartProduct;
    quantity : Z }.

(** A [number | null] as an argument of [Math.min]: [null] converts
    to 0. *)
Definition numberOf (n : option Z) : Z :=
  match n with Some n => n | None => 0 end.

Definition updateQuantity (cartItems : list CartItem) (productId : string) (delta : Z)
  : list CartItem :=
  map (fun item =>
         if String.eqb (cart_product_id (product item)) productId then
           let newQuantity :=
             Z.max 1 (Z.min (quantity item + delta) (numberOf (stock (product item)))) in
           mkCartItem (product item) newQuantity
         else item)
      cartItems.

Definition removeItem (cartItems : list CartItem) (productId : string) : list CartItem :=
  filter (fun item => negb (String.eqb (cart_product_id (product item)) productId))
         cartItems.

End Cart.

(* ------------------------------------------------------------------ *)
(** ** [checkout.tsx] *)
(* ------------------------------------------------------------------ *)

Module Checkout.

(** [a - b] *)
Definition num_sub (a b : Js.number) : Js.number :=
  match a, b with
  | Js.NaN, _ | _, Js.NaN => Js.NaN
  | Js.Fin x, Js.Fin y => Js.Fin (Qred (x - y))
  | Js.PosInf, Js.PosInf | Js.NegInf, Js.NegInf => Js.NaN
  | Js.PosInf, _ | _, Js.NegInf => Js.PosInf
  | Js.NegInf, _ | _, Js.PosInf => Js.NegInf
  end.

(** A number in a JSON body: [JSON.stringify] writes [null] for NaN and
    the infinities. *)
Definition jsonNumber (a : Js.number) : option Js.number :=
  match a with
  | Js.Fin x => Some (Js.Fin x)
  | _ => None
  end.

(** The shipping message, as the parts of its template; the rendering
    of the cost with [toFixed(2)] is left out. *)
Inductive ShippingMessage : Type :=
| NoMessage
| FreteGratis
| Frete (shippingCost : Js.number) (estimatedDays : option Z)
| NaoFoiPossivel.

(** The state the shipping calculation sets. *)
Record Shipping : Type := mkShipping
  { shippingCost : Js.number;
    shippingMessage : ShippingMessage;
    isCalculatingShipping : bool }.

(** [response.ok] *)
Definition responseOk (res : Response) : bool :=
  (200 <=? status res) && (status res <=? 299).

(** What the checkout does with the answer; any other 2xx body has
    neither [isFree] nor a cost that parses. *)
Definition readQuote (res : Response) : Js.number * ShippingMessage :=
  match body res with
  | JsonQuote shippingCost estimatedDays isFree =>
      if isFree then (Js.zero, FreteGratis)
      else (shippingCost,
            Frete shippingCost
                  (if Js.truthyNum (Js.ofZ estimatedDays) then Some estimatedDays
                   else None))
  | _ => (Js.NaN, Frete Js.NaN None)
  end.

(** [calculateShipping(zipCode)] of the checkout page, run against the
    server's route, from the state [s] to the state it leaves.  The
    length of the zip code is counted in bytes, which is its length in
    JS when it is written in ASCII. *)
Definition calculateShipping (storeSlug : option string) (subtotal discount : Js.number)
           (zipCode : string) (s : Shipping) : Async Shipping :=
  if negb (truthyOptStr storeSlug) || (Z.of_nat (String.length zipCode) <? 8) then
    ret s
  else
    tryCatch
      (response <- routes.postShippingCalculate storeSlug
                     (Some (Js.stripNonDigits zipCode))
                     (jsonNumber (num_sub subtotal discount)) ;;
       if negb (responseOk response) then throw "Erro ao calcular frete"
       else
         let '(cost, message) := readQuote response in
         ret (mkShipping cost message false))
      (fun _ => ret (mkShipping Js.zero NaoFoiPossivel false)).

End Checkout.

(* ------------------------------------------------------------------ *)
(** ** The product table *)
(* ------------------------------------------------------------------ *)

Module Catalog.

(** What [updateProduct(id, { isActive: true })] does to a row. *)
Definition activate : Product -> Product :=
  DatabaseStorage.patchProduct (DatabaseStorage.mkProductPatch None (Some (Some true))).

(** [!product.isActive] *)
Definition inactive (p : Product) : bool :=
  negb (handlers.truthyOptBool (product_isActive p)).

(** The ids of the rows that are not active. *)
Definition inactiveIds (rows : list Product) : list string :=
  map product_id (filter inactive rows).

(** The table after the rows with one of [ids] have been activated. *)
Definition activated (ids : list string) (rows : list Product) : list Product :=
  map (fun p => if existsb (String.eqb (product_id p)) ids then activate p else p) rows.

(** [id] is the primary key. *)
Definition uniqueIds (rows : list Product) : Prop :=
  NoDup (map product_id rows).

End Catalog.

(* ------------------------------------------------------------------ *)
(** ** Digit strings *)
(* ------------------------------------------------------------------ *)

Module Text.

(** Every character is one of [0-9]. *)
Fixpoint allDigits (s : string) : bool :=
  match s with
  | EmptyString => true
  | String c r => Js.isDigit c && allDigits r
  end.

End Text.

(* ------------------------------------------------------------------ *)
(** ** The plan usage widget *)
(* ------------------------------------------------------------------ *)

Module PlanUsageWidget.

Definition isNearLimit (percentage : Js.number) : bool :=
  Js.num_ge percentage (Js.ofZ 80).

Definition isAtLimit (percentage : Js.number) : bool :=
  Js.num_ge percentage (Js.ofZ 100).

End PlanUsageWidget.

(* ------------------------------------------------------------------ *)
(** ** [categories.tsx]: the storefront *)
(* ------------------------------------------------------------------ *)

Module Storefront.

(** [cart.findIndex(f)]; [None] is -1. *)
Fixpoint findIndex {A : Type} (f : A -> bool) (l : list A) : option nat :=
  match l with
  | [] => None
  | x :: r => if f x then Some 0%nat else option_map S (findIndex f r)
  end.

(** [cart[i].quantity += 1]; [i] comes from [findIndex] and is always
    within the cart. *)
Fixpoint incrementAt (i : nat) (cart : list Cart.CartItem) : list Cart.CartItem :=
  match cart, i with
  | [], _ => []
  | item :: rest, O =>
      Cart.mkCartItem (Cart.product item) (Cart.quantity item + 1) :: rest
  | item :: rest, S i => item :: incrementAt i rest
  end.

(** The cart [addToCart(product)] writes back, from the cart it read. *)
Definition addToCart (cart : list Cart.CartItem) (product : Cart.CartProduct)
  : list Cart.CartItem :=
  let existingIndex :=
    findIndex (fun item => String.eqb (Cart.cart_product_id (Cart.product item))
                                      (Cart.cart_product_id product)) cart in
  match existingIndex with
  | Some existingIndex => incrementAt existingIndex cart
  | None => (cart ++ [Cart.mkCartItem product 1])%list
  end.

(** [cart.reduce((sum, item) => sum + item.quantity, 0)] *)
Definition cartCount (cart : list Cart.CartItem) : Z :=
  fold_left (fun sum item => sum + Cart.quantity item) cart 0.

Record Category : Type := mkCategory
  { category_id : string;
    category_name : string }.

(** The columns of a product that the storefront groups by. *)
Record Item : Type := mkItem
  { item_id : string;
    categoryId : option string;
    isFeatured : option bool;
    isPromotion : option bool }.

Record Group : Type := mkGroup
  { group_category : option Category;
    group_products : list Item }.

Record Organized : Type := mkOrganized
  { featured : list Item;
    promotions : list Item;
    byCategory : list Group }.

(** [p.categoryId === category.id] *)
Definition inCategory (category : Category) (p : Item) : bool :=
  match categoryId p with
  | Some c => String.eqb c (category_id category)
  | None => false
  end.

(** [organizedProducts()]; [filteredProducts] is [None] while the
    products have not been loaded. *)
Definition organizedProducts (filteredProducts : option (list Item))
           (categories : list Category) : Organized :=
  match filteredProducts with
  | None => mkOrganized [] [] []
  | Some filteredProducts =>
      let featured :=
        filter (fun p => handlers.truthyOptBool (isFeatured p)) filteredProducts in
      let promotions :=
        filter (fun p => negb (handlers.truthyOptBool (isFeatured p))
                         && handlers.truthyOptBool (isPromotion p))
               filteredProducts in
      let regular :=
        filter (fun p => negb (handlers.truthyOptBool (isFeatured p))
                         && negb (handlers.truthyOptBool (isPromotion p)))
               filteredProducts in
      let uncategorized :=
        filter (fun p => negb (truthyOptStr (categoryId p))) regular in
      let byCategory :=
        if (0 <? List.length uncategorized)%nat
        then [mkGroup None uncategorized] else [] in
      let byCategory :=
        fold_left
          (fun byCategory category =>
             let categoryProducts := filter (inCategory category) regular in
             if (0 <? List.length categoryProducts)%nat
             then (byCategory ++ [mkGroup (Some category) categoryProducts])%list
             else byCategory)
          categories byCategory in
      mkOrganized featured promotions byCategory
  end.

(** Every product the storefront shows, section after section. *)
Definition shown (o : Organized) : list Item :=
  (featured o ++ promotions o
   ++ List.concat (map group_products (byCategory o)))%list.

End Storefront.

(* ------------------------------------------------------------------ *)
(** ** Basic facts *)
(* ------------------------------------------------------------------ *)

Lemma dbSelect_up {A : Type} (c : StorageCall) (q : Db -> A) (w : World) :
  dbUp w = true -> dbSelect c q w = (Fulfilled (q (db w)), logCall c w).
Proof. intros H. unfold dbSelect. now rewrite H. Qed.

Lemma dbSelect_down {A : Type} (c : StorageCall) (q : Db -> A) (w : World) :
  dbUp w = false ->
  dbSelect c q w = (Rejected "database unavailable", logCall c w).
Proof. intros H. unfold dbSelect. now rewrite H. Qed.

Lemma bind_fulfilled {A B : Type} (m : Async A) (k : A -> Async B) w a w' :
  m w = (Fulfilled a, w') -> bind m k w = k a w'.
Proof. intros H. unfold bind. now rewrite H. Qed.

Lemma bind_rejected {A B : Type} (m : Async A) (k : A -> Async B) w e w' :
  m w = (Rejected e, w') -> bind m k w = (Rejected e, w').
Proof. intros H. unfold bind. now rewrite H. Qed.

Lemma tryCatch_fulfilled {A : Type} (m : Async A) h w a w' :
  m w = (Fulfilled a, w') -> tryCatch m h w = (Fulfilled a, w').
Proof. intros H. unfold tryCatch. now rewrite H. Qed.

Lemma tryCatch_rejected {A : Type} (m : Async A) h w e w' :
  m w = (Rejected e, w') -> tryCatch m h w = h e w'.
Proof. intros H. unfold tryCatch. now rewrite H. Qed.

(** Unfolds one storage read on a world whose database answers. *)
Ltac storage_read :=
  unfold storage.getStoreByUserId, storage.getStoreById, storage.getStoreBySlug,
    storage.getProductsByStoreId, storage.getOrdersByStoreId, storage.getAllPlans,
    storage.getPlanBySlug, storage.getShippingConfig, storage.getShippingZones;
  rewrite dbSelect_up by (cbn; assumption).

(** *** Lexicographic order *)

Lemma ascii_compare_lt (c d : ascii) :
  Ascii.compare c d = Lt <-> (N_of_ascii c < N_of_ascii d)%N.
Proof. unfold Ascii.compare. apply N.compare_lt_iff. Qed.

Lemma ascii_compare_refl (c : ascii) : Ascii.compare c c = Eq.
Proof. unfold Ascii.compare. apply N.compare_refl. Qed.

Lemma string_leb_cons (c d : ascii) (a b : string) :
  String.leb (String c a) (String d b)
  = match Ascii.compare c d with
    | Lt => true
    | Eq => String.leb a b
    | Gt => false
    end.
Proof. unfold String.leb. cbn. now destruct (Ascii.compare c d). Qed.

Lemma leb_LexLe (a b : string) : String.leb a b = true <-> Spec.LexLe a b.
Proof.
  split.
  - revert b. induction a as [|c a IH]; intros b H.
    + constructor.
    + destruct b as [|d b]; [discriminate H|].
      rewrite string_leb_cons in H.
      destruct (Ascii.compare c d) eqn:E; try discriminate.
      * apply Ascii.compare_eq_iff in E. subst d.
        apply Spec.LexLe_same. now apply IH.
      * apply Spec.LexLe_less. now apply ascii_compare_lt.
  - induction 1 as [b|c d a b Hlt|c a b _ IH].
    + now destruct b.
    + rewrite string_leb_cons.
      apply ascii_compare_lt in Hlt. now rewrite Hlt.
    + rewrite string_leb_cons, ascii_compare_refl. exact IH.
Qed.

Lemma zoneContains_inRange (zone : ShippingZone) (cleanZip : string) :
  storage.zoneContains zone cleanZip = true <-> Spec.inRange zone cleanZip.
Proof.
  unfold storage.zoneContains, Spec.inRange, Js.str_ge, Js.str_le.
  rewrite andb_true_iff, !leb_LexLe. reflexivity.
Qed.

(** *** Numbers *)

Lemma reaching_positive_is_truthy (s t : Js.number) :
  Js.num_gt t Js.zero = true -> Js.num_ge s t = true -> Js.truthyNum s = true.
Proof.
  unfold Js.num_gt, Js.num_ge, Js.zero.
  destruct t as [| |x|]; cbn; try discriminate;
    destruct s as [| |y|]; cbn; try discriminate; try reflexivity.
  intros Hx Hy.
  apply negb_true_iff in Hx.
  apply Qle_bool_iff in Hy.
  apply negb_true_iff.
  destruct (Qeq_bool y 0) eqn:E; [|reflexivity].
  apply Qeq_bool_iff in E.
  assert (Hle : Qle_bool x 0 = true).
  { apply Qle_bool_iff. rewrite <- E. exact Hy. }
  congruence.
Qed.

Lemma orZero_reaching (s t : Js.number) :
  Js.num_gt t Js.zero = true -> Js.num_ge s t = true -> Js.orZero (Some s) = s.
Proof.
  intros Ht Hs. unfold Js.orZero.
  now rewrite (reaching_positive_is_truthy s t Ht Hs).
Qed.

(** *** The zone loop *)

Lemma zoneLoop_first_match (pre post : list ShippingZone) (zone : ShippingZone)
      (cleanZip : string) :
  (forall z, In z pre -> storage.zoneContains z cleanZip = false) ->
  storage.zoneContains zone cleanZip = true ->
  storage.zoneLoop (pre ++ zone :: post) cleanZip
  = Some (mkShippingQuote (Js.parseFloat (shippingCost zone))
                          (storage.estimatedDaysOr7 zone)).
Proof.
  intros Hpre Hz. induction pre as [|z pre IH]; cbn.
  - now rewrite Hz.
  - rewrite (Hpre z) by now left.
    apply IH. intros z' Hin. apply Hpre. now right.
Qed.

Lemma zoneLoop_no_match (zones : list ShippingZone) (cleanZip : string) :
  (forall z, In z zones -> storage.zoneContains z cleanZip = false) ->
  storage.zoneLoop zones cleanZip = None.
Proof.
  induction zones as [|z zones IH]; intros H; cbn; [reflexivity|].
  rewrite (H z) by now left.
  apply IH. intros z' Hin. apply H. now right.
Qed.

(** *** The shipping route on top of [calculateShipping] *)

Lemma postShippingCalculate_quote (w w' : World) (storeSlug zipCode : string)
      (orderTotal : option Js.number) (store : Store) (q : ShippingQuote) :
  dbUp w = true ->
  Js.truthyStr storeSlug = true ->
  Js.truthyStr zipCode = true ->
  Rows.storeBySlug storeSlug (db w) = Some store ->
  storage.calculateShipping (store_id store) zipCode (Js.orZero orderTotal)
    (logCall (GetStoreBySlug storeSlug) w) = (Fulfilled q, w') ->
  routes.postShippingCalculate (Some storeSlug) (Some zipCode) orderTotal w
  = (Fulfilled (ok (JsonQuote (cost q) (quote_estimatedDays q)
                              (Js.num_eq (cost q) Js.zero))), w').
Proof.
  intros Hup Hslug Hzip Hstore Hcalc.
  unfold routes.postShippingCalculate.
  rewrite Hslug, Hzip. cbn [negb orb].
  apply tryCatch_fulfilled.
  unfold bind at 1. storage_read. rewrite Hstore.
  unfold bind at 1. rewrite Hcalc. reflexivity.
Qed.

Lemma calculateShipping_free (w : World) (storeId zipCode : string)
      (orderTotal : Js.number) :
  dbUp w = true ->
  storage.freeShippingReached (Rows.shippingConfig storeId (db w)) orderTotal = true ->
  storage.calculateShipping storeId zipCode orderTotal w
  = (Fulfilled (mkShippingQuote Js.zero 7), logCall (GetShippingConfig storeId) w).
Proof.
  intros Hup Hfree. unfold storage.calculateShipping.
  unfold bind at 1. storage_read. now rewrite Hfree.
Qed.

Lemma calculateShipping_zones (w : World) (storeId zipCode : string)
      (orderTotal : Js.number) :
  dbUp w = true ->
  storage.freeShippingReached (Rows.shippingConfig storeId (db w)) orderTotal = false ->
  storage.calculateShipping storeId zipCode orderTotal w
  = (Fulfilled
       (match storage.zoneLoop (Rows.shippingZonesOf storeId (db w))
                               (Js.stripNonDigits zipCode) with
        | Some quote => quote
        | None => mkShippingQuote
                    (storage.defaultCostOf (Rows.shippingConfig storeId (db w))) 7
        end),
     logCall (GetShippingZones storeId) (logCall (GetShippingConfig storeId) w)).
Proof.
  intros Hup Hfree. unfold storage.calculateShipping.
  unfold bind at 1. storage_read. rewrite Hfree.
  unfold bind at 1. storage_read. cbn [db logCall].
  now destruct (storage.zoneLoop _ _).
Qed.

Lemma parsed_positive_is_truthy (t : string) :
  Js.num_gt (Js.parseFloat t) Js.zero = true -> Js.truthyStr t = true.
Proof. destruct t; [discriminate|reflexivity]. Qed.

(* ------------------------------------------------------------------ *)
(** ** Shipping quotes *)
(* ------------------------------------------------------------------ *)

(** C1.  When the store's shipping configuration has a free-shipping
    threshold that parses to more than zero and the order subtotal
    reaches it, [calculateShipping] returns cost 0 in 7 days after the
    single read of the configuration, and the route answers
    [{shippingCost: 0, estimatedDays: 7, isFree: true}]: the zones are
    never read, whatever they contain. *)
Theorem free_shipping_threshold_short_circuits
        (w : World) (storeSlug zipCode threshold : string)
        (store : Store) (config : ShippingConfig) (subtotal : Js.number) :
  dbUp w = true ->
  Js.truthyStr storeSlug = true ->
  Js.truthyStr zipCode = true ->
  Rows.storeBySlug storeSlug (db w) = Some store ->
  Rows.shippingConfig (store_id store) (db w) = Some config ->
  freeShippingThreshold config = Some threshold ->
  Js.num_gt (Js.parseFloat threshold) Js.zero = true ->
  Js.num_ge subtotal (Js.parseFloat threshold) = true ->
  storage.calculateShipping (store_id store) zipCode subtotal w
  = (Fulfilled (mkShippingQuote Js.zero 7),
     logCall (GetShippingConfig (store_id store)) w)
  /\ routes.postShippingCalculate (Some storeSlug) (Some zipCode) (Some subtotal) w
     = (Fulfilled (ok (JsonQuote Js.zero 7 true)),
        logCall (GetShippingConfig (store_id store))
                (logCall (GetStoreBySlug storeSlug) w)).
Proof.
  intros Hup Hslug Hzip Hstore Hconfig Hthr Hpos Hreach.
  assert (Hfree : forall w0, db w0 = db w ->
            storage.freeShippingReached
              (Rows.shippingConfig (store_id store) (db w0)) subtotal = true).
  { intros w0 ->. rewrite Hconfig. unfold storage.freeShippingReached, optChain.
    rewrite Hthr, (parsed_positive_is_truthy _ Hpos), Hpos, Hreach. reflexivity. }
  split.
  - apply calculateShipping_free; auto.
  - apply (postShippingCalculate_quote w _ storeSlug zipCode (Some subtotal)
             store (mkShippingQuote Js.zero 7) Hup Hslug Hzip Hstore).
    rewrite (orZero_reaching _ _ Hpos Hreach).
    apply calculateShipping_free; [exact Hup | now apply Hfree].
Qed.

Lemma free_shipping_threshold_short_circuits_witness :
  storage.calculateShipping "s1" "01310-100" (Js.Fin 250) Sample.shippingWorld
  = (Fulfilled (mkShippingQuote Js.zero 7),
     logCall (GetShippingConfig "s1") Sample.shippingWorld)
  /\ routes.postShippingCalculate (Some "loja-um") (Some "01310-100")
       (Some (Js.Fin 250)) Sample.shippingWorld
     = (Fulfilled (ok (JsonQuote Js.zero 7 true)),
        logCall (GetShippingConfig "s1")
                (logCall (GetStoreBySlug "loja-um") Sample.shippingWorld)).
Proof.
  apply (free_shipping_threshold_short_circuits
           Sample.shippingWorld "loja-um" "01310-100" "200.00" Sample.loja
           (mkShippingConfig "s1" (Some "200.00") (Some "15.00")) (Js.Fin 250));
    reflexivity.
Defined.

Lemma not_inRange_zoneContains (zones : list ShippingZone) (cleanZip : string) :
  (forall z, In z zones -> ~ Spec.inRange z cleanZip) ->
  forall z, In z zones -> storage.zoneContains z cleanZip = false.
Proof.
  intros H z Hin. apply not_true_is_false. intros Hc.
  apply (H z Hin). now apply zoneContains_inRange.
Qed.

(** C2, as the specification words it, fails: a zone whose
    [estimatedDays] is present and equal to [0] contains the zip, yet the
    quote carries 7 days, not the stored value. *)
Lemma zero_days_zone_is_quoted_seven_days :
  Spec.inRange Sample.sameDay (Js.stripNonDigits "01310-100")
  /\ Spec.estimatedDaysNullish Sample.sameDay = 0
  /\ option_map quote_estimatedDays
       (valueOf (storage.calculateShipping "s1" "01310-100" (Js.Fin 50)
                                           Sample.sameDayWorld))
     <> Some (Spec.estimatedDaysNullish Sample.sameDay).
Proof.
  split; [|split].
  - apply zoneContains_inRange. reflexivity.
  - reflexivity.
  - vm_compute. discriminate.
Qed.

(** C2, amended.  When the free-shipping threshold is not reached, the
    quote comes from the first zone, in the order storage returns them,
    whose digit-stripped bounds enclose the cleaned zip in lexicographic
    order: the cost is the zone's shipping cost, the days are the zone's
    [estimatedDays] unless that is null or zero, in which case they are
    7, and the route reports [isFree] exactly when the cost equals 0. *)
Theorem first_matching_zone_gives_the_quote
        (w : World) (storeSlug zipCode : string) (orderTotal : option Js.number)
        (store : Store) (pre post : list ShippingZone) (zone : ShippingZone) :
  dbUp w = true ->
  Js.truthyStr storeSlug = true ->
  Js.truthyStr zipCode = true ->
  Rows.storeBySlug storeSlug (db w) = Some store ->
  storage.freeShippingReached
    (Rows.shippingConfig (store_id store) (db w)) (Js.orZero orderTotal) = false ->
  Rows.shippingZonesOf (store_id store) (db w) = (pre ++ zone :: post)%list ->
  (forall z, In z pre -> ~ Spec.inRange z (Js.stripNonDigits zipCode)) ->
  Spec.inRange zone (Js.stripNonDigits zipCode) ->
  exists days : Z,
    (estimatedDays zone = None -> days = 7)
    /\ (estimatedDays zone = Some 0 -> days = 7)
    /\ (forall n, estimatedDays zone = Some n -> n <> 0 -> days = n)
    /\ valueOf (storage.calculateShipping (store_id store) zipCode
                                          (Js.orZero orderTotal) w)
       = Some (mkShippingQuote (Js.parseFloat (shippingCost zone)) days)
    /\ valueOf (routes.postShippingCalculate (Some storeSlug) (Some zipCode)
                                             orderTotal w)
       = Some (ok (JsonQuote (Js.parseFloat (shippingCost zone)) days
                             (Js.num_eq (Js.parseFloat (shippingCost zone)) Js.zero))).
Proof.
  intros Hup Hslug Hzip Hstore Hfree Hzones Hpre Hzone.
  assert (Hloop : storage.zoneLoop (Rows.shippingZonesOf (store_id store) (db w))
                                   (Js.stripNonDigits zipCode)
                  = Some (mkShippingQuote (Js.parseFloat (shippingCost zone))
                                          (storage.estimatedDaysOr7 zone))).
  { rewrite Hzones. apply zoneLoop_first_match.
    - now apply not_inRange_zoneContains.
    - now apply zoneContains_inRange. }
  exists (storage.estimatedDaysOr7 zone).
  repeat split.
  - unfold storage.estimatedDaysOr7. now intros ->.
  - unfold storage.estimatedDaysOr7. now intros ->.
  - unfold storage.estimatedDaysOr7. intros n -> Hn.
    destruct (Z.eqb_spec n 0); [contradiction|reflexivity].
  - rewrite calculateShipping_zones by assumption. unfold valueOf. cbn [fst].
    now rewrite Hloop.
  - rewrite (postShippingCalculate_quote w
               (logCall (GetShippingZones (store_id store))
                  (logCall (GetShippingConfig (store_id store))
                     (logCall (GetStoreBySlug storeSlug) w)))
               storeSlug zipCode orderTotal store
               (mkShippingQuote (Js.parseFloat (shippingCost zone))
                                (storage.estimatedDaysOr7 zone))
               Hup Hslug Hzip Hstore).
    + reflexivity.
    + rewrite calculateShipping_zones by assumption.
      cbn [db logCall]. rewrite Hloop. reflexivity.
Qed.

Lemma first_matching_zone_gives_the_quote_witness :
  exists days : Z,
    (estimatedDays Sample.capital = None -> days = 7)
    /\ (estimatedDays Sample.capital = Some 0 -> days = 7)
    /\ (forall n, estimatedDays Sample.capital = Some n -> n <> 0 -> days = n)
    /\ valueOf (storage.calculateShipping "s1" "01310-100"
                  (Js.orZero (Some (Js.Fin 50))) Sample.shippingWorld)
       = Some (mkShippingQuote (Js.parseFloat "10.00") days)
    /\ valueOf (routes.postShippingCalculate (Some "LOJA-UM") (Some "01310-100")
                  (Some (Js.Fin 50)) Sample.shippingWorld)
       = Some (ok (JsonQuote (Js.parseFloat "10.00") days
                             (Js.num_eq (Js.parseFloat "10.00") Js.zero))).
Proof.
  apply (first_matching_zone_gives_the_quote
           Sample.shippingWorld "LOJA-UM" "01310-100" (Some (Js.Fin 50))
           Sample.loja [] [Sample.interior] Sample.capital);
    try reflexivity.
  - intros z [].
  - apply zoneContains_inRange. reflexivity.
Defined.

(** C3.  When the threshold is not reached and no zone returned by
    storage encloses the cleaned zip (in particular when there are no
    zones), [calculateShipping] fulfils with the configured default
    shipping cost, or 0 when there is no configuration or no default,
    in 7 days.  For a store with neither configuration nor zones the
    quote is cost 0 in 7 days. *)
Theorem unmatched_zip_falls_back_to_default_cost
        (w : World) (storeId zipCode : string) (orderTotal : Js.number) :
  dbUp w = true ->
  (storage.freeShippingReached (Rows.shippingConfig storeId (db w)) orderTotal = false ->
   (forall z, In z (Rows.shippingZonesOf storeId (db w)) ->
              ~ Spec.inRange z (Js.stripNonDigits zipCode)) ->
   optChain (Rows.shippingConfig storeId (db w)) defaultShippingCost <> Some "" ->
   storage.calculateShipping storeId zipCode orderTotal w
   = (Fulfilled (mkShippingQuote
                   (Spec.defaultCostNullish (Rows.shippingConfig storeId (db w))) 7),
      logCall (GetShippingZones storeId) (logCall (GetShippingConfig storeId) w)))
  /\ (Rows.shippingConfig storeId (db w) = None ->
      Rows.shippingZonesOf storeId (db w) = [] ->
      storage.calculateShipping storeId zipCode orderTotal w
      = (Fulfilled (mkShippingQuote Js.zero 7),
         logCall (GetShippingZones storeId) (logCall (GetShippingConfig storeId) w))).
Proof.
  intros Hup. split.
  - intros Hfree Hzones Hdefault.
    rewrite calculateShipping_zones by assumption.
    rewrite zoneLoop_no_match by now apply not_inRange_zoneContains.
    do 3 f_equal.
    unfold storage.defaultCostOf, Spec.defaultCostNullish.
    destruct (optChain _ defaultShippingCost) as [c|]; [|reflexivity].
    destruct c; [now contradiction Hdefault | reflexivity].
  - intros Hconfig Hzones.
    rewrite calculateShipping_zones.
    + now rewrite Hzones, Hconfig.
    + exact Hup.
    + now rewrite Hconfig.
Qed.

Lemma unmatched_zip_falls_back_to_default_cost_witness :
  storage.calculateShipping "s1" "99999-999" (Js.Fin 50) Sample.shippingWorld
  = (Fulfilled (mkShippingQuote (Js.Fin (15 # 1)) 7),
     logCall (GetShippingZones "s1")
             (logCall (GetShippingConfig "s1") Sample.shippingWorld))
  /\ storage.calculateShipping "s2" "99999-999" (Js.Fin 50) Sample.shippingWorld
     = (Fulfilled (mkShippingQuote Js.zero 7),
        logCall (GetShippingZones "s2")
                (logCall (GetShippingConfig "s2") Sample.shippingWorld)).
Proof.
  split.
  - apply (proj1 (unmatched_zip_falls_back_to_default_cost
                    Sample.shippingWorld "s1" "99999-999" (Js.Fin 50) eq_refl)).
    + reflexivity.
    + intros z Hin Hrange. apply zoneContains_inRange in Hrange.
      destruct Hin as [<-|[<-|[]]]; discriminate Hrange.
    + discriminate.
  - apply (proj2 (unmatched_zip_falls_back_to_default_cost
                    Sample.shippingWorld "s2" "99999-999" (Js.Fin 50) eq_refl));
      reflexivity.
Defined.

(* ------------------------------------------------------------------ *)
(** ** [ORDER BY] *)
(* ------------------------------------------------------------------ *)

Section OrderByFacts.
Context {A : Type} (precedes : A -> A -> bool).

Lemma insertRow_length (x : A) (l : list A) :
  List.length (Sql.insertRow precedes x l) = S (List.length l).
Proof.
  induction l as [|y l IH]; cbn; [reflexivity|].
  destruct (precedes x y); cbn; [reflexivity | now rewrite IH].
Qed.

Lemma orderBy_length (l : list A) :
  List.length (Sql.orderBy precedes l) = List.length l.
Proof.
  induction l as [|x l IH]; cbn; [reflexivity|].
  now rewrite insertRow_length, IH.
Qed.

Lemma insertRow_In (x y : A) (l : list A) :
  In y (Sql.insertRow precedes x l) <-> y = x \/ In y l.
Proof.
  induction l as [|z l IH]; cbn.
  - intuition.
  - destruct (precedes x z); cbn; [intuition | rewrite IH; intuition].
Qed.

Lemma orderBy_In (y : A) (l : list A) :
  In y (Sql.orderBy precedes l) <-> In y l.
Proof.
  induction l as [|x l IH]; cbn; [reflexivity|].
  rewrite insertRow_In, IH. intuition.
Qed.

Lemma insertRow_filter_length (keep : A -> bool) (x : A) (l : list A) :
  List.length (filter keep (Sql.insertRow precedes x l))
  = List.length (filter keep (x :: l)).
Proof.
  induction l as [|y l IH]; [reflexivity|].
  cbn [Sql.insertRow]. destruct (precedes x y); [reflexivity|].
  cbn [filter] in *.
  destruct (keep y), (keep x); cbn [List.length] in *; rewrite IH; reflexivity.
Qed.

(** Counting the rows that pass a test does not depend on their order. *)
Lemma orderBy_filter_length (keep : A -> bool) (l : list A) :
  List.length (filter keep (Sql.orderBy precedes l))
  = List.length (filter keep l).
Proof.
  induction l as [|x l IH]; [reflexivity|].
  cbn [Sql.orderBy]. rewrite insertRow_filter_length.
  cbn [filter]. destruct (keep x); cbn [List.length]; now rewrite IH.
Qed.

Hypothesis precedes_total : forall a b, precedes a b = true \/ precedes b a = true.
Hypothesis precedes_trans :
  forall a b c, precedes a b = true -> precedes b c = true -> precedes a c = true.


End OrderByFacts.



Lemma productsByStoreId_count (storeId : string) (d : Db) :
  Z.of_nat (List.length (Rows.productsByStoreId storeId d))
  = Spec.productCount storeId d.
Proof.
  unfold Rows.productsByStoreId, Spec.productCount. now rewrite orderBy_length.
Qed.

(* ------------------------------------------------------------------ *)
(** ** The entitlement gate *)
(* ------------------------------------------------------------------ *)

Lemma route_single (mw : Middleware) (handler : Handler) (req : Request)
      (w w' : World) (step : Step) :
  mw req w = (Fulfilled step, w') ->
  route [mw] handler req w
  = match step with
    | Next req' => handler req' w'
    | Respond res => (Fulfilled res, w')
    end.
Proof.
  intros H. cbn [route]. unfold bind. rewrite H. now destruct step.
Qed.

Lemma checkProductLimit_limited (w : World) (req : Request) (store : Store)
      (plan : Plan) (maxP : Z) :
  dbUp w = true ->
  Rows.storeByUserId (claimsSub req) (db w) = Some store ->
  optChain (subscription req) planOf = Some plan ->
  maxProducts plan = Some maxP ->
  checkProductLimit req w
  = (Fulfilled
       (if Spec.productCount (store_id store) (db w) >=? maxP then
          Respond (mkResponse 403
                     (JsonLimit (productLimitMessage plan maxP) maxP
                                (Spec.productCount (store_id store) (db w))
                                true "/dashboard/subscription"))
        else Next req),
     logCall (GetProductsByStoreId (store_id store))
             (logCall (GetStoreByUserId (claimsSub req)) w)).
Proof.
  intros Hup Hstore Hplan Hmax.
  unfold checkProductLimit. apply tryCatch_fulfilled.
  unfold bind at 1. storage_read. rewrite Hstore, Hplan.
  cbn [optChain]. rewrite Hmax.
  unfold bind at 1. storage_read. cbn [db logCall].
  rewrite productsByStoreId_count.
  now destruct (_ >=? _).
Qed.

(** C4.  For a request whose resolved plan has the product limit [maxP]
    and whose store holds [n] products: when [n >= maxP] the gate answers
    403 with [limit = maxP], [current = n], [upgradeRequired = true] and
    the redirect to the subscription page, and the handler behind the
    gate is not run; when [n < maxP] the gate calls [next()] with the
    request unchanged.  Either way the gate only reads: the world after
    it differs from the one before by two logged reads. *)
Theorem product_limit_gate_denies_at_limit
        (w : World) (req : Request) (store : Store) (plan : Plan) (maxP : Z)
        (handler : Handler) :
  dbUp w = true ->
  Rows.storeByUserId (claimsSub req) (db w) = Some store ->
  optChain (subscription req) planOf = Some plan ->
  maxProducts plan = Some maxP ->
  let n := Spec.productCount (store_id store) (db w) in
  let after := logCall (GetProductsByStoreId (store_id store))
                       (logCall (GetStoreByUserId (claimsSub req)) w) in
  let denial := mkResponse 403
                  (JsonLimit (productLimitMessage plan maxP) maxP n true
                             "/dashboard/subscription") in
  db after = db w
  /\ (n >= maxP ->
      checkProductLimit req w = (Fulfilled (Respond denial), after)
      /\ route [checkProductLimit] handler req w = (Fulfilled denial, after))
  /\ (n < maxP ->
      checkProductLimit req w = (Fulfilled (Next req), after)
      /\ route [checkProductLimit] handler req w = handler req after).
Proof.
  intros Hup Hstore Hplan Hmax n after denial.
  pose proof (checkProductLimit_limited w req store plan maxP
                Hup Hstore Hplan Hmax) as Hgate.
  fold n in Hgate. fold after in Hgate.
  split; [reflexivity|]. split; intros Hn.
  - assert (E : (n >=? maxP) = true) by (apply Z.geb_le; lia).
    rewrite E in Hgate. split; [exact Hgate|].
    now rewrite (route_single _ _ _ _ _ _ Hgate).
  - assert (E : (n >=? maxP) = false) by (rewrite Z.geb_leb; apply Z.leb_gt; lia).
    rewrite E in Hgate. split; [exact Hgate|].
    now rewrite (route_single _ _ _ _ _ _ Hgate).
Qed.

Lemma product_limit_gate_denies_at_limit_witness :
  route [checkProductLimit] routes.createProductHandler
        (setSubscription (ImplicitFree (Some Sample.gratis)) Sample.newProduct)
        (Sample.worldOf (Sample.catalogDb Sample.fiveProducts [Sample.gratis]))
  = (Fulfilled (mkResponse 403
       (JsonLimit (productLimitMessage Sample.gratis 5) 5 5 true
                  "/dashboard/subscription")),
     logCall (GetProductsByStoreId "s1")
       (logCall (GetStoreByUserId (Some "u1"))
          (Sample.worldOf (Sample.catalogDb Sample.fiveProducts [Sample.gratis]))))
  /\ checkProductLimit
       (setSubscription (ImplicitFree (Some Sample.gratis)) Sample.newProduct)
       (Sample.worldOf (Sample.catalogDb Sample.fourProducts [Sample.gratis]))
     = (Fulfilled
          (Next (setSubscription (ImplicitFree (Some Sample.gratis)) Sample.newProduct)),
        logCall (GetProductsByStoreId "s1")
          (logCall (GetStoreByUserId (Some "u1"))
             (Sample.worldOf (Sample.catalogDb Sample.fourProducts [Sample.gratis])))).
Proof.
  split.
  - destruct (product_limit_gate_denies_at_limit
                (Sample.worldOf (Sample.catalogDb Sample.fiveProducts [Sample.gratis]))
                (setSubscription (ImplicitFree (Some Sample.gratis)) Sample.newProduct)
                Sample.loja Sample.gratis 5 routes.createProductHandler
                eq_refl eq_refl eq_refl eq_refl) as (_ & Hdeny & _).
    apply Hdeny. vm_compute. discriminate.
  - destruct (product_limit_gate_denies_at_limit
                (Sample.worldOf (Sample.catalogDb Sample.fourProducts [Sample.gratis]))
                (setSubscription (ImplicitFree (Some Sample.gratis)) Sample.newProduct)
                Sample.loja Sample.gratis 5 routes.createProductHandler
                eq_refl eq_refl eq_refl eq_refl) as (_ & _ & Hallow).
    apply Hallow. reflexivity.
Defined.

Lemma getSubscriptionByUserId_up (w : World) (userId : string) :
  dbUp w = true ->
  storage.getSubscriptionByUserId userId w
  = (Fulfilled (storage.withPlan (Rows.latestSubscriptionJoined userId (db w))),
     logCall (GetSubscriptionByUserId userId) w).
Proof.
  intros Hup. unfold storage.getSubscriptionByUserId, bind.
  now rewrite dbSelect_up.
Qed.

Lemma requireActiveSubscription_free (w : World) (req : Request) (userId : string) :
  dbUp w = true ->
  claimsSub req = Some userId ->
  Js.truthyStr userId = true ->
  storage.withPlan (Rows.latestSubscriptionJoined userId (db w)) = None ->
  requireActiveSubscription req w
  = (Fulfilled (Next (setSubscription
                        (ImplicitFree (Rows.planBySlug "gratis" (db w))) req)),
     logCall (GetPlanBySlug "gratis") (logCall (GetSubscriptionByUserId userId) w)).
Proof.
  intros Hup Hsub Htruthy Hnone.
  unfold requireActiveSubscription. apply tryCatch_fulfilled.
  rewrite Hsub, Htruthy. cbn [negb].
  unfold bind at 1. rewrite getSubscriptionByUserId_up, Hnone by assumption.
  unfold bind at 1. storage_read. reflexivity.
Qed.

Lemma checkProductLimit_no_plan (w : World) (req : Request) (store : Store) :
  dbUp w = true ->
  Rows.storeByUserId (claimsSub req) (db w) = Some store ->
  optChain (subscription req) planOf = None ->
  checkProductLimit req w
  = (Fulfilled (Next req), logCall (GetStoreByUserId (claimsSub req)) w).
Proof.
  intros Hup Hstore Hplan.
  unfold checkProductLimit. apply tryCatch_fulfilled.
  unfold bind at 1. storage_read. now rewrite Hstore, Hplan.
Qed.

(** C9.  When the request carries no plan, the product gate calls
    [next()] after reading the store only: the products are not counted
    and nothing is compared, whatever the number of products.  This is
    the case of a user without a usable subscription row while storage
    has no plan with slug "gratis": the whole chain of the
    product-creation route then reaches the handler. *)
Theorem missing_plan_grants_unlimited_creation
        (w : World) (req : Request) (store : Store) (handler : Handler) :
  dbUp w = true ->
  Rows.storeByUserId (claimsSub req) (db w) = Some store ->
  (optChain (subscription req) planOf = None ->
   checkProductLimit req w
   = (Fulfilled (Next req), logCall (GetStoreByUserId (claimsSub req)) w)
   /\ route [checkProductLimit] handler req w
      = handler req (logCall (GetStoreByUserId (claimsSub req)) w))
  /\ (forall userId,
         claimsSub req = Some userId ->
         Js.truthyStr userId = true ->
         storage.withPlan (Rows.latestSubscriptionJoined userId (db w)) = None ->
         Rows.planBySlug "gratis" (db w) = None ->
         route [requireActiveSubscription; checkProductLimit] handler req w
         = handler (setSubscription (ImplicitFree None) req)
                   (logCall (GetStoreByUserId (Some userId))
                      (logCall (GetPlanBySlug "gratis")
                         (logCall (GetSubscriptionByUserId userId) w)))).
Proof.
  intros Hup Hstore. split.
  - intros Hplan.
    pose proof (checkProductLimit_no_plan w req store Hup Hstore Hplan) as Hgate.
    split; [exact Hgate|].
    now rewrite (route_single _ _ _ _ _ _ Hgate).
  - intros userId Hsub Htruthy Hnone Hgratis.
    cbn [route]. unfold bind at 1.
    rewrite (requireActiveSubscription_free w req userId) by assumption.
    rewrite Hgratis. unfold bind at 1.
    rewrite (checkProductLimit_no_plan _ _ store).
    + cbn [setSubscription claimsSub]. now rewrite Hsub.
    + exact Hup.
    + cbn [setSubscription claimsSub db logCall]. exact Hstore.
    + reflexivity.
Qed.

Lemma missing_plan_grants_unlimited_creation_witness :
  route [requireActiveSubscription; checkProductLimit] routes.createProductHandler
        Sample.newProduct
        (Sample.worldOf (Sample.catalogDb Sample.fiveProducts []))
  = routes.createProductHandler
      (setSubscription (ImplicitFree None) Sample.newProduct)
      (logCall (GetStoreByUserId (Some "u1"))
         (logCall (GetPlanBySlug "gratis")
            (logCall (GetSubscriptionByUserId "u1")
               (Sample.worldOf (Sample.catalogDb Sample.fiveProducts []))))).
Proof.
  apply (proj2 (missing_plan_grants_unlimited_creation
                  (Sample.worldOf (Sample.catalogDb Sample.fiveProducts []))
                  Sample.newProduct Sample.loja routes.createProductHandler
                  eq_refl eq_refl) "u1");
    reflexivity.
Defined.

(* ------------------------------------------------------------------ *)
(** ** The subscription resolver *)
(* ------------------------------------------------------------------ *)


Lemma filter_none {A : Type} (keep : A -> bool) (l : list A) :
  (forall x, In x l -> keep x = false) -> filter keep l = [].
Proof.
  induction l as [|x l IH]; intros H; cbn; [reflexivity|].
  rewrite (H x) by now left. apply IH. intros y Hy. apply H. now right.
Qed.




Lemma subscriptionsOf_none (userId : string) (d : Db) :
  (forall s, In s (subscriptions d) -> sub_userId s <> userId) ->
  Rows.latestSubscriptionJoined userId d = None.
Proof.
  intros H. unfold Rows.latestSubscriptionJoined, Rows.subscriptionsOf.
  rewrite filter_none; [reflexivity|].
  intros s Hs. apply String.eqb_neq. now apply H.
Qed.


Lemma getApiSubscription_up (w : World) (userId : string) :
  dbUp w = true ->
  routes.getApiSubscription userId w
  = match storage.withPlan (Rows.latestSubscriptionJoined userId (db w)) with
    | Some subscription =>
        (Fulfilled (ok (JsonSubscription (Stored subscription))),
         logCall (GetSubscriptionByUserId userId) w)
    | None =>
        (Fulfilled (ok (JsonSubscription
                          (ImplicitFree (Rows.planBySlug "gratis" (db w))))),
         logCall (GetPlanBySlug "gratis")
                 (logCall (GetSubscriptionByUserId userId) w))
    end.
Proof.
  intros Hup. unfold routes.getApiSubscription.
  destruct (storage.withPlan _) as [sub|] eqn:E.
  - apply tryCatch_fulfilled. unfold bind at 1.
    now rewrite getSubscriptionByUserId_up, E.
  - apply tryCatch_fulfilled. unfold bind at 1.
    rewrite getSubscriptionByUserId_up, E by assumption.
    unfold bind at 1. storage_read. reflexivity.
Qed.



(* ------------------------------------------------------------------ *)
(** ** The calendar *)
(* ------------------------------------------------------------------ *)


Section Calendar.
Import JsDate.













End Calendar.


(* ------------------------------------------------------------------ *)
(** ** The usage accountant *)
(* ------------------------------------------------------------------ *)

(** [getPlanUsage] on a database that answers, for a user with a store. *)
Lemma getPlanUsage_up (w : World) (userId : string) (store : Store) :
  dbUp w = true ->
  Rows.storeByUserId (Some userId) (db w) = Some store ->
  let subscription := storage.withPlan (Rows.latestSubscriptionJoined userId (db w)) in
  let plan := match subscription with
              | Some s => Some (subscription_plan s)
              | None => Rows.planBySlug "gratis" (db w)
              end in
  let w1 := logCall (GetSubscriptionByUserId userId)
                    (logCall (GetStoreByUserId (Some userId)) w) in
  let w2 := match subscription with
            | Some _ => w1
            | None => logCall (GetPlanBySlug "gratis") w1
            end in
  getPlanUsage userId w
  = (Fulfilled
       (Some (usageSnapshot plan
                (Rows.productsByStoreId (store_id store) (db w))
                (ordersSince (firstDayOfMonth (utcOffset w) (clock w))
                             (Rows.ordersByStoreId (store_id store) (db w))))),
     logCall (GetOrdersByStoreId (store_id store))
             (logCall (GetProductsByStoreId (store_id store)) w2)).
Proof.
  intros Hup Hstore subscription plan w1 w2.
  unfold getPlanUsage. apply tryCatch_fulfilled.
  unfold bind at 1. storage_read. rewrite Hstore.
  unfold bind at 1. rewrite getSubscriptionByUserId_up by (cbn; assumption).
  cbn [db logCall]. fold subscription. fold w1.
  subst plan w2. destruct subscription as [s|].
  - unfold bind at 1. unfold ret at 1.
    unfold bind at 1. storage_read.
    unfold bind at 1. storage_read. reflexivity.
  - unfold bind at 1. storage_read.
    unfold bind at 1. storage_read.
    unfold bind at 1. storage_read. reflexivity.
Qed.

(** The reads of the resolver's callers do not look at other users'
    subscription rows, nor at this user's rows once they are gone. *)
Lemma latest_without_subscriptions (userId : string) (d : Db) :
  Rows.latestSubscriptionJoined userId (Spec.withoutSubscriptionsOf userId d) = None.
Proof.
  apply subscriptionsOf_none. cbn [subscriptions Spec.withoutSubscriptionsOf].
  intros s Hs Hu. apply filter_In in Hs. destruct Hs as [_ Hs].
  apply negb_true_iff, String.eqb_neq in Hs. contradiction.
Qed.

(** C10.  When the user's newest subscription row references a plan
    that has no row, [getSubscriptionByUserId] fulfils with nothing, and
    each of its callers ([requireActiveSubscription], the subscription
    route, [getPlanUsage]) settles exactly as it does once the user's
    subscription rows are removed: on the implicit free plan with status
    "active", whatever the status and plan reference of the stored row. *)
Theorem dangling_plan_reference_reads_as_no_subscription
        (w : World) (userId : string) (req : Request)
        (s : Subscription) (rest : list Subscription) :
  dbUp w = true ->
  Rows.subscriptionsOf userId (db w) = s :: rest ->
  Rows.planById (planId s) (db w) = None ->
  let bare := withDb (Spec.withoutSubscriptionsOf userId (db w)) w in
  storage.getSubscriptionByUserId userId w
  = (Fulfilled None, logCall (GetSubscriptionByUserId userId) w)
  /\ routes.getApiSubscription userId w
     = (Fulfilled (ok (JsonSubscription
                         (ImplicitFree (Rows.planBySlug "gratis" (db w))))),
        logCall (GetPlanBySlug "gratis") (logCall (GetSubscriptionByUserId userId) w))
  /\ fst (routes.getApiSubscription userId w)
     = fst (routes.getApiSubscription userId bare)
  /\ (claimsSub req = Some userId ->
      fst (requireActiveSubscription req w)
      = fst (requireActiveSubscription req bare)
      /\ (Js.truthyStr userId = true ->
          fst (requireActiveSubscription req w)
          = Fulfilled (Next (setSubscription
                               (ImplicitFree (Rows.planBySlug "gratis" (db w))) req))))
  /\ fst (getPlanUsage userId w) = fst (getPlanUsage userId bare).
Proof.
  intros Hup Hrows Hplan bare.
  assert (Hjoin : storage.withPlan (Rows.latestSubscriptionJoined userId (db w)) = None).
  { unfold Rows.latestSubscriptionJoined. now rewrite Hrows, Hplan. }
  assert (Hbare : storage.withPlan (Rows.latestSubscriptionJoined userId (db bare)) = None).
  { cbn [bare db withDb]. now rewrite latest_without_subscriptions. }
  assert (Hupb : dbUp bare = true) by exact Hup.
  split; [|split; [|split; [|split]]].
  - now rewrite getSubscriptionByUserId_up, Hjoin.
  - now rewrite getApiSubscription_up, Hjoin.
  - now rewrite !getApiSubscription_up, Hjoin, Hbare.
  - intros Hsub. destruct (Js.truthyStr userId) eqn:Htruthy.
    + rewrite (requireActiveSubscription_free w req userId) by assumption.
      rewrite (requireActiveSubscription_free bare req userId) by assumption.
      split; [reflexivity | intros _; reflexivity].
    + split; [|discriminate].
      unfold requireActiveSubscription, tryCatch.
      now rewrite Hsub, Htruthy.
  - destruct (Rows.storeByUserId (Some userId) (db w)) as [store|] eqn:Hstore.
    + rewrite (getPlanUsage_up w userId store Hup Hstore).
      rewrite (getPlanUsage_up bare userId store Hupb Hstore).
      now rewrite Hjoin, Hbare.
    + unfold getPlanUsage, tryCatch, bind.
      unfold storage.getStoreByUserId.
      rewrite !dbSelect_up by assumption.
      cbn [bare db withDb]. 
      change (Rows.storeByUserId (Some userId) (Spec.withoutSubscriptionsOf userId (db w)))
        with (Rows.storeByUserId (Some userId) (db w)).
      now rewrite Hstore.
Qed.

Lemma dangling_plan_reference_reads_as_no_subscription_witness :
  storage.getSubscriptionByUserId "u2" Sample.subscriptionWorld
  = (Fulfilled None, logCall (GetSubscriptionByUserId "u2") Sample.subscriptionWorld)
  /\ routes.getApiSubscription "u2" Sample.subscriptionWorld
     = (Fulfilled (ok (JsonSubscription (ImplicitFree (Some Sample.gratis)))),
        logCall (GetPlanBySlug "gratis")
                (logCall (GetSubscriptionByUserId "u2") Sample.subscriptionWorld)).
Proof.
  pose proof (dangling_plan_reference_reads_as_no_subscription
                Sample.subscriptionWorld "u2" Sample.newProduct
                Sample.danglingRow [] eq_refl eq_refl eq_refl) as H.
  split; [exact (proj1 H) | exact (proj1 (proj2 H))].
Defined.

(** Every snapshot [getPlanUsage] returns is built by [usageSnapshot]. *)
Lemma getPlanUsage_snapshot (w : World) (userId : string) (u : PlanUsage) :
  valueOf (getPlanUsage userId w) = Some (Some u) ->
  exists plan products ordersThisMonth,
    u = usageSnapshot plan products ordersThisMonth.
Proof.
  intros H. destruct (dbUp w) eqn:Hup.
  - destruct (Rows.storeByUserId (Some userId) (db w)) as [store|] eqn:Hstore.
    + rewrite (getPlanUsage_up w userId store Hup Hstore) in H.
      injection H as <-. eauto.
    + unfold getPlanUsage, tryCatch, bind, storage.getStoreByUserId in H.
      rewrite dbSelect_up, Hstore in H by assumption. discriminate H.
  - unfold getPlanUsage, tryCatch, bind, storage.getStoreByUserId in H.
    rewrite dbSelect_down in H by assumption. discriminate H.
Qed.





Lemma filter_map_length {A : Type} (keep : A -> bool) (g : A -> A) (l : list A) :
  (forall x, keep (g x) = keep x) ->
  List.length (filter keep (map g l)) = List.length (filter keep l).
Proof.
  intros H. induction l as [|x l IH]; cbn; [reflexivity|].
  rewrite H. destruct (keep x); cbn; now rewrite IH.
Qed.

Lemma filter_filter_length {A : Type} (f g : A -> bool) (l : list A) :
  List.length (filter g (filter f l))
  = List.length (filter (fun x => f x && g x) l).
Proof.
  induction l as [|x l IH]; cbn; [reflexivity|].
  destruct (f x); cbn; [|exact IH].
  destruct (g x); cbn; now rewrite IH.
Qed.






(* ------------------------------------------------------------------ *)
(** ** The plan catalog *)
(* ------------------------------------------------------------------ *)

Lemma fallbackPlans_ascending : Spec.ascendingByPrice routes.fallbackPlans.
Proof.
  intros i j a b Hij Ha Hb.
  destruct i as [|[|[|[|i]]]]; destruct j as [|[|[|[|j]]]];
    cbn in Ha, Hb; try lia;
    try (destruct j; discriminate Hb); try (destruct i; discriminate Ha);
    injection Ha as <-; injection Hb as <-; reflexivity.
Qed.

(** [GET /api/plans] when nothing fresh is cached and the database is
    down: the attempt is logged and the handler takes over. *)
Lemma getApiPlans_down (w : World) :
  dbUp w = false ->
  match plansCache w with
  | Some _ => cacheIsStale w = true
  | None => True
  end ->
  routes.getApiPlans w
  = (Fulfilled (ok (JsonPlans match plansCache w with
                              | Some cached => cached
                              | None => routes.fallbackPlans
                              end)),
     logCall GetAllPlans w).
Proof.
  intros Hdown Hstale.
  unfold routes.getApiPlans, tryCatch, bind, dateNow, routes.readPlansCache.
  unfold cacheIsStale in Hstale.
  destruct (plansCache w) as [cached|] eqn:Hcache.
  - apply negb_true_iff in Hstale. rewrite Hstale.
    unfold storage.getAllPlans. rewrite dbSelect_down by assumption.
    cbn [plansCache logCall]. now rewrite Hcache.
  - unfold storage.getAllPlans. rewrite dbSelect_down by assumption.
    cbn [plansCache logCall]. now rewrite Hcache.
Qed.

Lemma getApiPlans_fulfils (w : World) :
  exists res w', routes.getApiPlans w = (Fulfilled res, w').
Proof.
  unfold routes.getApiPlans, tryCatch, bind, dateNow, routes.readPlansCache,
    routes.writePlansCache, storage.getAllPlans, dbSelect, ret.
  destruct (plansCache w) as [cached|] eqn:Hcache.
  - destruct (clock w - plansCacheTime w <? routes.CACHE_TTL); [eauto|].
    destruct (dbUp w); [eauto|].
    cbn [plansCache logCall]. rewrite Hcache. eauto.
  - destruct (dbUp w); [eauto|].
    cbn [plansCache logCall]. rewrite Hcache. eauto.
Qed.

(** C8.  [GET /api/plans] always fulfils with a response.  When the
    read of the plans fails, it answers the cached plans if there are
    any, however old; when nothing is cached it answers the four
    built-in plans, whose slugs are gratis, basico, profissional and
    enterprise, in ascending order of price. *)
Theorem plan_catalog_survives_database_failure (w : World) :
  (exists res w', routes.getApiPlans w = (Fulfilled res, w'))
  /\ (dbUp w = false ->
      forall cached, plansCache w = Some cached ->
        valueOf (routes.getApiPlans w) = Some (ok (JsonPlans cached))
        /\ (cacheIsStale w = true ->
            routes.getApiPlans w
            = (Fulfilled (ok (JsonPlans cached)), logCall GetAllPlans w)))
  /\ (dbUp w = false ->
      plansCache w = None ->
      routes.getApiPlans w
      = (Fulfilled (ok (JsonPlans routes.fallbackPlans)), logCall GetAllPlans w))
  /\ map plan_slug routes.fallbackPlans
     = ["gratis"; "basico"; "profissional"; "enterprise"]
  /\ Spec.ascendingByPrice routes.fallbackPlans.
Proof.
  split; [apply getApiPlans_fulfils|].
  split; [|split; [|split]].
  - intros Hdown cached Hcache.
    assert (Hstale : cacheIsStale w = true ->
              routes.getApiPlans w
              = (Fulfilled (ok (JsonPlans cached)), logCall GetAllPlans w)).
    { intros Hs. rewrite getApiPlans_down; rewrite ?Hcache; auto. }
    split; [|exact Hstale].
    destruct (cacheIsStale w) eqn:E.
    + now rewrite Hstale.
    + unfold cacheIsStale in E. apply negb_false_iff in E.
      unfold routes.getApiPlans, tryCatch, bind, dateNow, routes.readPlansCache.
      now rewrite Hcache, E.
  - intros Hdown Hcache. rewrite getApiPlans_down; rewrite ?Hcache; auto.
  - reflexivity.
  - apply fallbackPlans_ascending.
Qed.

Lemma plan_catalog_survives_database_failure_witness :
  routes.getApiPlans Sample.staleWorld
  = (Fulfilled (ok (JsonPlans [Sample.gratis; Sample.pro])),
     logCall GetAllPlans Sample.staleWorld)
  /\ routes.getApiPlans (Sample.offline (Sample.worldOf Sample.emptyDb))
     = (Fulfilled (ok (JsonPlans routes.fallbackPlans)),
        logCall GetAllPlans (Sample.offline (Sample.worldOf Sample.emptyDb))).
Proof.
  split.
  - apply (proj1 (proj2 (plan_catalog_survives_database_failure Sample.staleWorld))
             eq_refl [Sample.gratis; Sample.pro] eq_refl).
    reflexivity.
  - apply (proj1 (proj2 (proj2 (plan_catalog_survives_database_failure
                                  (Sample.offline (Sample.worldOf Sample.emptyDb)))))
             eq_refl eq_refl).
Defined.

(* ------------------------------------------------------------------ *)
(** ** Worked examples *)
(* ------------------------------------------------------------------ *)

Example parseFloat_15 : Js.parseFloat "15.00" = Js.Fin (15 # 1).
Proof. reflexivity. Qed.
Example parseFloat_neg : Js.parseFloat " -0.50x" = Js.Fin (-1 # 2).
Proof. reflexivity. Qed.
Example parseFloat_exp : Js.parseFloat "1.5e3" = Js.Fin (1500 # 1).
Proof. reflexivity. Qed.
Example parseFloat_expneg : Js.parseFloat ".5E-1" = Js.Fin (1 # 20).
Proof. reflexivity. Qed.
Example parseFloat_empty : Js.parseFloat "" = Js.NaN.
Proof. reflexivity. Qed.
Example parseFloat_dot : Js.parseFloat "." = Js.NaN.
Proof. reflexivity. Qed.
Example parseFloat_inf : Js.parseFloat "-Infinity" = Js.NegInf.
Proof. reflexivity. Qed.
Example strip_cep : Js.stripNonDigits "01310-100" = "01310100".
Proof. reflexivity. Qed.
Example str_le_lex : Js.str_le "10" "9" = true.
Proof. reflexivity. Qed.
Example intToString_5 : Js.intToString 5 = "5".
Proof. reflexivity. Qed.
Example intToString_1200 : Js.intToString 1200 = "1200".
Proof. reflexivity. Qed.
Example intToString_neg : Js.intToString (-37) = "-37".
Proof. reflexivity. Qed.
Example intToString_0 : Js.intToString 0 = "0".
Proof. reflexivity. Qed.

(** Zip ranges are compared as strings: "10" lies between "1" and "9". *)
Example zone_range_is_lexicographic :
  storage.zoneContains
    (mkShippingZone "s1" "Z" "1" "9" "5.00" None (Some true)) "10" = true.
Proof. reflexivity. Qed.

Example quote_in_first_zone :
  valueOf (routes.postShippingCalculate (Some "loja-um") (Some "01310100")
             (Some (Js.Fin 50)) Sample.shippingWorld)
  = Some (ok (JsonQuote (Js.Fin (10 # 1)) 3 false)).
Proof. reflexivity. Qed.

Example quote_in_second_zone :
  valueOf (routes.postShippingCalculate (Some "loja-um") (Some "06500-000")
             None Sample.shippingWorld)
  = Some (ok (JsonQuote (Js.Fin (20 # 1)) 5 false)).
Proof. reflexivity. Qed.

Example quote_outside_zones :
  valueOf (routes.postShippingCalculate (Some "loja-um") (Some "99999999")
             (Some (Js.Fin 50)) Sample.shippingWorld)
  = Some (ok (JsonQuote (Js.Fin (15 # 1)) 7 false)).
Proof. reflexivity. Qed.

Example quote_above_threshold :
  valueOf (routes.postShippingCalculate (Some "loja-um") (Some "01310100")
             (Some (Js.Fin 250)) Sample.shippingWorld)
  = Some (ok (JsonQuote Js.zero 7 true)).
Proof. reflexivity. Qed.

Example quote_without_zip :
  valueOf (routes.postShippingCalculate (Some "loja-um") (Some "")
             (Some (Js.Fin 250)) Sample.shippingWorld)
  = Some (mkResponse 400 (JsonMessage "Store slug and zip code are required")).
Proof. reflexivity. Qed.

Example quote_database_down :
  valueOf (routes.postShippingCalculate (Some "loja-um") (Some "01310100")
             (Some (Js.Fin 250)) (Sample.offline Sample.shippingWorld))
  = Some (mkResponse 500 (JsonMessage "Failed to calculate shipping")).
Proof. reflexivity. Qed.

(** The whole product-creation route at the limit: the answer is the
    denial and no product row is added. *)
Example sixth_product_is_denied :
  let w := Sample.worldOf (Sample.catalogDb Sample.fiveProducts [Sample.gratis]) in
  let r := routes.postApiProducts Sample.newProduct w in
  fst r = Fulfilled (mkResponse 403
            (JsonLimit
               "Você atingiu o limite de 5 produtos do plano Grátis. Faça upgrade para adicionar mais produtos."
               5 5 true "/dashboard/subscription"))
  /\ db (snd r) = db w
  /\ trace (snd r)
     = [GetSubscriptionByUserId "u1"; GetPlanBySlug "gratis";
        GetStoreByUserId (Some "u1"); GetProductsByStoreId "s1"].
Proof. repeat split. Qed.

(** Below the limit the handler runs and the row is added. *)
Example fifth_product_is_created :
  let w := Sample.worldOf (Sample.catalogDb Sample.fourProducts [Sample.gratis]) in
  let r := routes.postApiProducts Sample.newProduct w in
  option_map status (valueOf r) = Some 200
  /\ List.length (products (db (snd r))) = 5%nat
  /\ trace (snd r)
     = [GetSubscriptionByUserId "u1"; GetPlanBySlug "gratis";
        GetStoreByUserId (Some "u1"); GetProductsByStoreId "s1";
        GetStoreByUserId (Some "u1"); CreateProduct "s1"].
Proof. repeat split. Qed.

(** Without a plan with slug "gratis", a sixth product goes through. *)
Example sixth_product_without_free_plan :
  let w := Sample.worldOf (Sample.catalogDb Sample.fiveProducts []) in
  let r := routes.postApiProducts Sample.newProduct w in
  option_map status (valueOf r) = Some 200
  /\ List.length (products (db (snd r))) = 6%nat.
Proof. repeat split. Qed.

(** The subscription route answers the newest row although it is past
    due; the middleware of the product route refuses the same user. *)
Example newest_row_is_returned_whatever_its_status :
  valueOf (routes.getApiSubscription "u1" Sample.subscriptionWorld)
  = Some (ok (JsonSubscription
                (Stored (mkSubscriptionWithPlan Sample.newerRow Sample.pro)))).
Proof. reflexivity. Qed.

Example middleware_refuses_past_due :
  valueOf (requireActiveSubscription Sample.newProduct Sample.subscriptionWorld)
  = Some (Respond (mkResponse 403
            (JsonRedirect
               "Sua assinatura não está ativa. Por favor, renove sua assinatura."
               "/dashboard/subscription"))).
Proof. reflexivity. Qed.

(** Around the turn of the month: the order of the last millisecond of
    February is left out, the one of the first millisecond of March and
    the cancelled one are counted, the other store's order is not. *)
Example orders_of_march :
  map order_id
      (Spec.monthlyOrders "s1"
         (firstDayOfMonth (utcOffset Sample.ordersWorld) (clock Sample.ordersWorld))
         (db Sample.ordersWorld))
  = ["o2"; "o3"].
Proof. reflexivity. Qed.

Example usage_in_march :
  option_map (option_map usage_orders)
             (valueOf (getPlanUsage "u1" Sample.ordersWorld))
  = Some (Some (mkUsageEntry 2 (Some 10) (Js.Fin (20 # 1)))).
Proof. reflexivity. Qed.

Example first_day_of_march_2024 :
  firstDayOfMonth (-180) (JsDate.ofLocal (-180) 2024 2 15 12 0 0 0)
  = JsDate.ofLocal (-180) 2024 2 1 0 0 0 0.
Proof. reflexivity. Qed.

(** An unlimited plan is at 0 percent with no product and with 10000. *)
Example unlimited_plan_percentage :
  percentage (usage_products (usageSnapshot (Some Sample.enterprise) [] [])) = Js.zero
  /\ percentage (usage_products
                   (usageSnapshot (Some Sample.enterprise)
                                  (repeat (Sample.produto 1) (Z.to_nat 10000)) []))
     = Js.zero.
Proof. split; reflexivity. Qed.

Example third_of_limit :
  percentageOf 1 (Some 3) = Js.Fin (100 # 3).
Proof. reflexivity. Qed.

(** Fresh cached plans are served without a storage call, also when the
    database is down. *)
Example fresh_cache_is_served :
  let w := mkWorld Sample.emptyDb false [] (Some [Sample.gratis]) 1000 2000 0 in
  routes.getApiPlans w = (Fulfilled (ok (JsonPlans [Sample.gratis])), w).
Proof. reflexivity. Qed.

(** A successful read refreshes the cache. *)
Example plans_are_cached :
  let w := Sample.worldOf (Sample.catalogDb [] [Sample.pro; Sample.gratis]) in
  let r := routes.getApiPlans w in
  fst r = Fulfilled (ok (JsonPlans [Sample.gratis; Sample.pro]))
  /\ plansCache (snd r) = Some [Sample.gratis; Sample.pro]
  /\ plansCacheTime (snd r) = clock w.
Proof. repeat split. Qed.

(* ------------------------------------------------------------------ *)
(** ** The subscription middleware, further *)
(* ------------------------------------------------------------------ *)

Lemma requireActiveSubscription_stored (w : World) (req : Request) (userId : string)
      (subscription : SubscriptionWithPlan) :
  dbUp w = true ->
  claimsSub req = Some userId ->
  Js.truthyStr userId = true ->
  storage.withPlan (Rows.latestSubscriptionJoined userId (db w)) = Some subscription ->
  requireActiveSubscription req w
  = (Fulfilled
       (if String.eqb (sub_status (subscription_row subscription)) "active" then
          Next (setSubscription (Stored subscription) req)
        else
          Respond (mkResponse 403
                     (JsonRedirect
                        "Sua assinatura não está ativa. Por favor, renove sua assinatura."
                        "/dashboard/subscription"))),
     logCall (GetSubscriptionByUserId userId) w).
Proof.
  intros Hup Hsub Htruthy Hjoin.
  unfold requireActiveSubscription. apply tryCatch_fulfilled.
  rewrite Hsub, Htruthy. cbn [negb].
  unfold bind at 1. rewrite getSubscriptionByUserId_up, Hjoin by assumption.
  now destruct (String.eqb _ "active").
Qed.

(** X1.  A user whose newest subscription row, with its plan, has any
    status other than "active" is answered 403 with the redirect to the
    subscription page by [requireActiveSubscription]; nothing behind it
    on the route runs, and the only storage call is the subscription
    read. *)
Theorem inactive_subscription_is_refused
        (w : World) (req : Request) (userId : string)
        (subscription : SubscriptionWithPlan)
        (rest : list Middleware) (handler : Handler) :
  dbUp w = true ->
  claimsSub req = Some userId ->
  Js.truthyStr userId = true ->
  storage.withPlan (Rows.latestSubscriptionJoined userId (db w)) = Some subscription ->
  sub_status (subscription_row subscription) <> "active" ->
  route (requireActiveSubscription :: rest) handler req w
  = (Fulfilled (mkResponse 403
       (JsonRedirect
          "Sua assinatura não está ativa. Por favor, renove sua assinatura."
          "/dashboard/subscription")),
     logCall (GetSubscriptionByUserId userId) w).
Proof.
  intros Hup Hsub Htruthy Hjoin Hstatus.
  cbn [route]. unfold bind.
  rewrite (requireActiveSubscription_stored w req userId subscription) by assumption.
  apply String.eqb_neq in Hstatus. now rewrite Hstatus.
Qed.

Lemma inactive_subscription_is_refused_witness :
  route [requireActiveSubscription; checkProductLimit] routes.createProductHandler
        Sample.newProduct Sample.subscriptionWorld
  = (Fulfilled (mkResponse 403
       (JsonRedirect
          "Sua assinatura não está ativa. Por favor, renove sua assinatura."
          "/dashboard/subscription")),
     logCall (GetSubscriptionByUserId "u1") Sample.subscriptionWorld).
Proof.
  apply (inactive_subscription_is_refused
           Sample.subscriptionWorld Sample.newProduct "u1"
           (mkSubscriptionWithPlan Sample.newerRow Sample.pro));
    try reflexivity.
  discriminate.
Defined.

Lemma middlewares_fail_closed_aux (w : World) (req : Request) (userId : string) :
  dbUp w = false ->
  claimsSub req = Some userId ->
  Js.truthyStr userId = true ->
  exists w',
    requireActiveSubscription req w
    = (Fulfilled (Respond (mkResponse 500
         (JsonMessage "Erro ao verificar assinatura"))), w').
Proof.
  intros Hdown Hsub Htruthy. eexists.
  unfold requireActiveSubscription, tryCatch.
  rewrite Hsub, Htruthy. cbn [negb].
  unfold bind at 1, storage.getSubscriptionByUserId, bind.
  rewrite dbSelect_down by assumption. reflexivity.
Qed.

(** X2.  With the database down the three middlewares fail closed:
    each answers 500 with its own message instead of calling [next()],
    so the product route answers 500 and the tables stay as they are. *)
Theorem middlewares_fail_closed (w : World) (req : Request) (userId : string) :
  dbUp w = false ->
  claimsSub req = Some userId ->
  Js.truthyStr userId = true ->
  fst (requireActiveSubscription req w)
  = Fulfilled (Respond (mkResponse 500 (JsonMessage "Erro ao verificar assinatura")))
  /\ fst (checkProductLimit req w)
     = Fulfilled (Respond (mkResponse 500
                    (JsonMessage "Erro ao verificar limite de produtos")))
  /\ fst (checkOrderLimit req w)
     = Fulfilled (Respond (mkResponse 500
                    (JsonMessage "Erro ao verificar limite de pedidos")))
  /\ fst (routes.postApiProducts req w)
     = Fulfilled (mkResponse 500 (JsonMessage "Erro ao verificar assinatura"))
  /\ db (snd (routes.postApiProducts req w)) = db w.
Proof.
  intros Hdown Hsub Htruthy.
  assert (H1 : requireActiveSubscription req w
               = (Fulfilled (Respond (mkResponse 500
                    (JsonMessage "Erro ao verificar assinatura"))),
                  logCall (GetSubscriptionByUserId userId) w)).
  { unfold requireActiveSubscription, tryCatch.
    rewrite Hsub, Htruthy. cbn [negb].
    unfold bind at 1, storage.getSubscriptionByUserId, bind.
    now rewrite dbSelect_down. }
  split; [now rewrite H1|].
  split; [|split].
  - unfold checkProductLimit, tryCatch, bind, storage.getStoreByUserId.
    now rewrite dbSelect_down.
  - unfold checkOrderLimit, tryCatch, bind, storage.getStoreByUserId.
    now rewrite dbSelect_down.
  - unfold routes.postApiProducts. cbn [route].
    rewrite (bind_fulfilled _ _ _ _ _ H1). split; reflexivity.
Qed.

Lemma middlewares_fail_closed_witness :
  fst (routes.postApiProducts Sample.newProduct
         (Sample.offline (Sample.worldOf
            (Sample.catalogDb Sample.fourProducts [Sample.gratis]))))
  = Fulfilled (mkResponse 500 (JsonMessage "Erro ao verificar assinatura")).
Proof.
  exact (proj1 (proj2 (proj2 (proj2
    (middlewares_fail_closed
       (Sample.offline (Sample.worldOf
          (Sample.catalogDb Sample.fourProducts [Sample.gratis])))
       Sample.newProduct "u1" eq_refl eq_refl eq_refl))))).
Defined.




(** [getPlanUsage] settles without throwing and only reads. *)
Lemma getPlanUsage_fulfils (w : World) (userId : string) :
  exists usage w',
    getPlanUsage userId w = (Fulfilled usage, w')
    /\ db w' = db w
    /\ (dbUp w = false -> usage = None)
    /\ (Rows.storeByUserId (Some userId) (db w) = None -> usage = None).
Proof.
  destruct (dbUp w) eqn:Hup.
  - destruct (Rows.storeByUserId (Some userId) (db w)) as [store|] eqn:Hstore.
    + rewrite (getPlanUsage_up w userId store Hup Hstore).
      do 2 eexists. split; [reflexivity|].
      split; [|split; discriminate].
      now destruct (storage.withPlan _).
    + unfold getPlanUsage, tryCatch, bind, storage.getStoreByUserId.
      rewrite dbSelect_up, Hstore by assumption.
      do 2 eexists. repeat split; reflexivity.
  - unfold getPlanUsage, tryCatch, bind, storage.getStoreByUserId.
    rewrite dbSelect_down by assumption.
    do 2 eexists. repeat split; reflexivity.
Qed.

(** X4.  [GET /api/plan-usage] never answers 500: [getPlanUsage]
    catches every failure itself and returns null, so the route answers
    either 200 with the snapshot or 404 "Unable to fetch plan usage";
    it answers 404 both when the user has no store and when the
    database is down.  The tables are left as they are. *)
Theorem plan_usage_route_answers_200_or_404 (w : World) (userId : string) :
  exists res w',
    routes.getApiPlanUsage userId w = (Fulfilled res, w')
    /\ db w' = db w
    /\ ((exists usage, res = ok (JsonUsage usage))
        \/ res = mkResponse 404 (JsonMessage "Unable to fetch plan usage"))
    /\ (dbUp w = false \/ Rows.storeByUserId (Some userId) (db w) = None ->
        res = mkResponse 404 (JsonMessage "Unable to fetch plan usage")).
Proof.
  destruct (getPlanUsage_fulfils w userId) as (usage & w' & Hrun & Hdb & Hdown & Hnone).
  unfold routes.getApiPlanUsage, tryCatch, bind. rewrite Hrun.
  destruct usage as [usage|].
  - do 2 eexists. split; [reflexivity|]. split; [exact Hdb|].
    split; [left; eauto|].
    intros [H|H]; [now apply Hdown in H | now apply Hnone in H].
  - do 2 eexists. split; [reflexivity|]. split; [exact Hdb|].
    split; [now right | reflexivity].
Qed.

Lemma plan_usage_route_answers_200_or_404_witness :
  exists res w',
    routes.getApiPlanUsage "u1" (Sample.offline Sample.ordersWorld) = (Fulfilled res, w')
    /\ db w' = db (Sample.offline Sample.ordersWorld)
    /\ ((exists usage, res = ok (JsonUsage usage))
        \/ res = mkResponse 404 (JsonMessage "Unable to fetch plan usage"))
    /\ (dbUp (Sample.offline Sample.ordersWorld) = false
        \/ Rows.storeByUserId (Some "u1") (db (Sample.offline Sample.ordersWorld)) = None ->
        res = mkResponse 404 (JsonMessage "Unable to fetch plan usage")).
Proof.
  exact (plan_usage_route_answers_200_or_404 (Sample.offline Sample.ordersWorld) "u1").
Defined.

(** What [requireActiveSubscription] has established when it calls
    [next()]. *)
Lemma requireActiveSubscription_next (w w1 : World) (req req1 : Request) :
  requireActiveSubscription req w = (Fulfilled (Next req1), w1) ->
  exists userId resolved,
    claimsSub req = Some userId
    /\ Js.truthyStr userId = true
    /\ dbUp w = true
    /\ req1 = setSubscription resolved req
    /\ statusOf resolved = "active"
    /\ planOf resolved
       = match storage.withPlan (Rows.latestSubscriptionJoined userId (db w)) with
         | Some s => Some (subscription_plan s)
         | None => Rows.planBySlug "gratis" (db w)
         end
    /\ db w1 = db w /\ dbUp w1 = true
    /\ clock w1 = clock w /\ utcOffset w1 = utcOffset w.
Proof.
  intros H.
  destruct (claimsSub req) as [userId|] eqn:Hsub.
  2:{ unfold requireActiveSubscription, tryCatch in H. rewrite Hsub in H.
      discriminate H. }
  destruct (Js.truthyStr userId) eqn:Htruthy.
  2:{ unfold requireActiveSubscription, tryCatch in H.
      rewrite Hsub, Htruthy in H. discriminate H. }
  destruct (dbUp w) eqn:Hup.
  2:{ destruct (middlewares_fail_closed_aux w req userId Hup Hsub Htruthy) as [w' Hf].
      rewrite Hf in H. discriminate H. }
  exists userId.
  destruct (storage.withPlan (Rows.latestSubscriptionJoined userId (db w)))
    as [s|] eqn:Hjoin.
  - rewrite (requireActiveSubscription_stored w req userId s) in H by assumption.
    destruct (String.eqb (sub_status (subscription_row s)) "active") eqn:E;
      [|discriminate H].
    injection H as <- <-. exists (Stored s).
    apply String.eqb_eq in E. repeat split; assumption.
  - rewrite (requireActiveSubscription_free w req userId) in H by assumption.
    injection H as <- <-.
    exists (ImplicitFree (Rows.planBySlug "gratis" (db w))).
    repeat split; assumption.
Qed.

Lemma checkProductLimit_unlimited (w : World) (req : Request) (store : Store) :
  dbUp w = true ->
  Rows.storeByUserId (claimsSub req) (db w) = Some store ->
  optChain (optChain (subscription req) planOf) maxProducts = None ->
  checkProductLimit req w
  = (Fulfilled (Next req), logCall (GetStoreByUserId (claimsSub req)) w).
Proof.
  intros Hup Hstore Hmax.
  unfold checkProductLimit. apply tryCatch_fulfilled.
  unfold bind at 1. storage_read. rewrite Hstore.
  destruct (optChain (subscription req) planOf) as [plan|]; [|reflexivity].
  cbn [optChain] in *. now rewrite Hmax.
Qed.

(** X5.  The product gate and the usage snapshot agree.  For a request
    that [requireActiveSubscription] has let through, the gate answers
    (instead of calling [next()]) exactly when the snapshot of the same
    user shows a non-null product limit that the current count has
    reached, and its answer carries the snapshot's limit and count. *)
Theorem product_gate_agrees_with_usage
        (w w1 : World) (req req1 : Request) (userId : string) (store : Store)
        (u : PlanUsage) :
  claimsSub req = Some userId ->
  Rows.storeByUserId (Some userId) (db w) = Some store ->
  requireActiveSubscription req w = (Fulfilled (Next req1), w1) ->
  valueOf (getPlanUsage userId w) = Some (Some u) ->
  (forall res,
      fst (checkProductLimit req1 w1) = Fulfilled (Respond res) ->
      exists message maxP,
        res = mkResponse 403
                (JsonLimit message maxP (current (usage_products u)) true
                           "/dashboard/subscription")
        /\ limit (usage_products u) = Some maxP
        /\ current (usage_products u) >= maxP)
  /\ (forall maxP,
         limit (usage_products u) = Some maxP ->
         current (usage_products u) >= maxP ->
         exists res, fst (checkProductLimit req1 w1) = Fulfilled (Respond res)).
Proof.
  intros Hsub Hstore Hreq Husage.
  destruct (requireActiveSubscription_next w w1 req req1 Hreq)
    as (userId' & resolved & Hsub' & _ & Hup & -> & _ & Hplan & Hdb & Hup1 & _ & _).
  rewrite Hsub in Hsub'. injection Hsub' as <-.
  rewrite (getPlanUsage_up w userId store Hup Hstore) in Husage.
  injection Husage as <-.
  cbn [usageSnapshot usage_products limit current].
  rewrite <- Hplan. rewrite productsByStoreId_count.
  assert (Hstore1 : Rows.storeByUserId (claimsSub (setSubscription resolved req)) (db w1)
                    = Some store).
  { cbn [claimsSub setSubscription]. now rewrite Hsub, Hdb. }
  destruct (planOf resolved) as [plan|] eqn:Hp.
  - destruct (maxProducts plan) as [maxP|] eqn:Hmax; cbn [optChain]; rewrite ?Hmax.
    + rewrite (checkProductLimit_limited w1 _ store plan maxP Hup1 Hstore1)
        by (cbn; assumption).
      cbn [fst]. rewrite Hdb.
      destruct (Spec.productCount (store_id store) (db w) >=? maxP) eqn:E.
      * apply Z.geb_le in E. split.
        -- intros res [= <-]. exists (productLimitMessage plan maxP), maxP.
           repeat split. lia.
        -- intros ? _ _. eauto.
      * split; [discriminate|].
        intros maxP' [= <-] Hge.
        rewrite Z.geb_leb in E. apply Z.leb_gt in E. lia.
    + rewrite (checkProductLimit_unlimited w1 _ store Hup1 Hstore1)
        by (cbn [subscription setSubscription optChain]; now rewrite Hp).
      split; discriminate.
  - rewrite (checkProductLimit_unlimited w1 _ store Hup1 Hstore1)
      by (cbn [subscription setSubscription optChain]; now rewrite Hp).
    split; discriminate.
Qed.

Lemma product_gate_agrees_with_usage_witness :
  exists res,
    fst (checkProductLimit (Fixture.resolved Sample.gratis)
           (logCall (GetPlanBySlug "gratis")
              (logCall (GetSubscriptionByUserId "u1")
                 (Sample.worldOf (Sample.catalogDb Sample.fiveProducts [Sample.gratis])))))
    = Fulfilled (Respond res).
Proof.
  apply (proj2 (product_gate_agrees_with_usage
                  (Sample.worldOf (Sample.catalogDb Sample.fiveProducts [Sample.gratis]))
                  _ Sample.newProduct (Fixture.resolved Sample.gratis) "u1" Sample.loja
                  (usageSnapshot (Some Sample.gratis) Sample.fiveProducts [])
                  eq_refl eq_refl eq_refl eq_refl) 5 eq_refl).
  vm_compute. discriminate.
Defined.

(* ------------------------------------------------------------------ *)
(** ** The product-creation route as a whole *)
(* ------------------------------------------------------------------ *)

(** The tables after one product row is appended. *)
Lemma createProduct_up (w : World) (data : InsertProduct) (storeId : string) :
  dbUp w = true ->
  exists p,
    storage.createProduct data storeId w
    = (Fulfilled p,
       withDb (mkDb (stores (db w)) (products (db w) ++ [p]) (orders (db w))
                    (plans (db w)) (subscriptions (db w)) (shippingConfigs (db w))
                    (shippingZones (db w)) (nextId (db w) + 1))
              (logCall (CreateProduct storeId) w))
    /\ product_storeId p = storeId
    /\ product_name p = insert_name data
    /\ product_isActive p = insert_isActive data
    /\ product_createdAt p = Some (clock w).
Proof.
  intros Hup. eexists. split.
  - unfold storage.createProduct, bind, dateNow, dbExec. rewrite Hup. reflexivity.
  - repeat split.
Qed.

Lemma targetStoreOf_reads (w : World) (userId : string) (bodyStoreId : option string) :
  dbUp w = true ->
  exists target w',
    routes.targetStoreOf userId bodyStoreId w = (Fulfilled target, w')
    /\ db w' = db w /\ dbUp w' = true /\ clock w' = clock w
    /\ (forall res, target = inl res -> status res <> 200).
Proof.
  intros Hup. unfold routes.targetStoreOf.
  assert (Hfirst : exists target w',
             bind (storage.getStoreByUserId (Some userId))
                  (fun store =>
                     match store with
                     | None => ret (inl (mkResponse 404 (JsonMessage "Store not found")))
                     | Some store => ret (inr (store_id store))
                     end) w = (Fulfilled target, w')
             /\ db w' = db w /\ dbUp w' = true /\ clock w' = clock w
             /\ (forall res, target = inl res -> status res <> 200)).
  { unfold bind. storage_read.
    destruct (Rows.storeByUserId (Some userId) (db w)); do 2 eexists;
      (split; [reflexivity|]); repeat split; try assumption;
      intros res [= <-]; discriminate. }
  destruct bodyStoreId as [targetStoreId|]; [|exact Hfirst].
  destruct (Js.truthyStr targetStoreId); [|exact Hfirst].
  unfold bind. storage_read.
  destruct (Rows.storeById targetStoreId (db w)) as [s|].
  - destruct (negb (String.eqb (store_userId s) userId)); do 2 eexists;
      (split; [reflexivity|]); repeat split; try assumption;
      intros res [= <-]; discriminate.
  - do 2 eexists. split; [reflexivity|]. repeat split; try assumption.
    intros res [= <-]. discriminate.
Qed.

(** The handler of the product route answers in every case; it changes
    the tables only when it answers 200, by appending the product it
    returns, which is active. *)
Lemma createProductHandler_writes (w : World) (req : Request) :
  exists res w',
    routes.createProductHandler req w = (Fulfilled res, w')
    /\ (status res <> 200 -> db w' = db w)
    /\ (status res = 200 ->
        exists p,
          res = ok (JsonProduct p)
          /\ product_isActive p = Some true
          /\ db w' = mkDb (stores (db w)) (products (db w) ++ [p]) (orders (db w))
                          (plans (db w)) (subscriptions (db w))
                          (shippingConfigs (db w)) (shippingZones (db w))
                          (nextId (db w) + 1)).
Proof.
  unfold routes.createProductHandler, tryCatch.
  destruct (claimsSub req) as [userId|].
  2:{ cbn. do 2 eexists. split; [reflexivity|]. split; [reflexivity|discriminate]. }
  destruct (dbUp w) eqn:Hup.
  - destruct (targetStoreOf_reads w userId (body_storeId req) Hup)
      as (target & w1 & Hrun & Hdb & Hup1 & Hclock & Hstatus).
    unfold bind at 1. rewrite Hrun.
    destruct target as [res|targetStoreId].
    + do 2 eexists. split; [reflexivity|]. split; [intros _; exact Hdb|].
      intros H. now apply (Hstatus res eq_refl) in H.
    + destruct (body_product req) as [validatedData|].
      * destruct (createProduct_up w1 (mkInsertProduct (insert_name validatedData)
                                                       (Some true))
                                   targetStoreId Hup1) as (p & Hp & _ & _ & Hact & _).
        unfold bind. rewrite Hp.
        do 2 eexists. split; [reflexivity|]. split; [intros H; now contradiction H|].
        intros _. exists p. repeat split; [exact Hact|].
        cbn [db withDb logCall]. now rewrite Hdb.
      * cbn. do 2 eexists. split; [reflexivity|].
        split; [intros _; exact Hdb | discriminate].
  - assert (Hdown : exists e w1,
               routes.targetStoreOf userId (body_storeId req) w = (Rejected e, w1)
               /\ db w1 = db w).
    { unfold routes.targetStoreOf.
      destruct (body_storeId req) as [t|]; [destruct (Js.truthyStr t)|];
        unfold bind, storage.getStoreById, storage.getStoreByUserId;
        rewrite dbSelect_down by assumption; do 2 eexists; split; reflexivity. }
    destruct Hdown as (e & w1 & Hrun & Hdb).
    unfold bind at 1. rewrite Hrun. cbn.
    do 2 eexists. split; [reflexivity|]. split; [intros _; exact Hdb | discriminate].
Qed.

Lemma requireActiveSubscription_settles (w : World) (req : Request) :
  exists step w',
    requireActiveSubscription req w = (Fulfilled step, w')
    /\ db w' = db w
    /\ (forall res, step = Respond res -> status res <> 200).
Proof.
  unfold requireActiveSubscription, tryCatch.
  destruct (claimsSub req) as [userId|].
  2:{ do 2 eexists. split; [reflexivity|]. split; [reflexivity|].
      intros res [= <-]. discriminate. }
  destruct (Js.truthyStr userId); cbn [negb].
  2:{ do 2 eexists. split; [reflexivity|]. split; [reflexivity|].
      intros res [= <-]. discriminate. }
  unfold bind at 1, storage.getSubscriptionByUserId, bind at 1, dbSelect.
  destruct (dbUp w) eqn:Hup.
  - cbn [ret]. destruct (storage.withPlan _) as [s|].
    + destruct (negb (String.eqb (sub_status (subscription_row s)) "active"));
        do 2 eexists; (split; [reflexivity|]); (split; [reflexivity|]).
      * intros res [= <-]. discriminate.
      * discriminate.
    + unfold bind, storage.getPlanBySlug, dbSelect. cbn [dbUp logCall]. rewrite Hup.
      do 2 eexists. split; [reflexivity|]. split; [reflexivity|discriminate].
  - do 2 eexists. split; [reflexivity|]. split; [reflexivity|].
    intros res [= <-]. discriminate.
Qed.

Lemma checkProductLimit_settles (w : World) (req : Request) :
  exists step w',
    checkProductLimit req w = (Fulfilled step, w')
    /\ db w' = db w
    /\ (forall res, step = Respond res -> status res <> 200)
    /\ (forall req1, step = Next req1 -> req1 = req).
Proof.
  unfold checkProductLimit, tryCatch.
  unfold bind at 1, storage.getStoreByUserId, dbSelect.
  destruct (dbUp w) eqn:Hup.
  2:{ do 2 eexists. split; [reflexivity|]. split; [reflexivity|].
      split; [intros res [= <-]|]; discriminate. }
  destruct (Rows.storeByUserId (claimsSub req) (db w)) as [store|].
  2:{ do 2 eexists. split; [reflexivity|]. split; [reflexivity|].
      split; [intros res [= <-]|]; discriminate. }
  destruct (optChain (subscription req) planOf) as [plan|].
  2:{ do 2 eexists. split; [reflexivity|]. split; [reflexivity|].
      split; [discriminate | now intros req1 [= <-]]. }
  destruct (optChain (Some plan) maxProducts) as [maxP|].
  2:{ do 2 eexists. split; [reflexivity|]. split; [reflexivity|].
      split; [discriminate | now intros req1 [= <-]]. }
  unfold bind, storage.getProductsByStoreId, dbSelect. cbn [dbUp logCall]. rewrite Hup.
  destruct (_ >=? maxP); do 2 eexists;
    (split; [reflexivity|]); (split; [reflexivity|]).
  - split; [intros res [= <-]|]; discriminate.
  - split; [discriminate | now intros req1 [= <-]].
Qed.

(** X6.  [POST /api/products] answers every request, and it changes the
    tables only when it answers 200: then exactly one product row has
    been appended, the one in the response, stored as active, and every
    other table is as before. *)
Theorem product_route_writes_only_on_success (w : World) (req : Request) :
  exists res w',
    routes.postApiProducts req w = (Fulfilled res, w')
    /\ (status res <> 200 -> db w' = db w)
    /\ (status res = 200 ->
        exists p,
          res = ok (JsonProduct p)
          /\ product_isActive p = Some true
          /\ db w' = mkDb (stores (db w)) (products (db w) ++ [p]) (orders (db w))
                          (plans (db w)) (subscriptions (db w))
                          (shippingConfigs (db w)) (shippingZones (db w))
                          (nextId (db w) + 1)).
Proof.
  unfold routes.postApiProducts. cbn [route].
  destruct (requireActiveSubscription_settles w req) as (s1 & w1 & H1 & Hdb1 & Hres1).
  rewrite (bind_fulfilled _ _ _ _ _ H1).
  destruct s1 as [req1|res1].
  2:{ do 2 eexists. split; [reflexivity|]. split; [intros _; exact Hdb1|].
      intros H. now apply (Hres1 res1 eq_refl) in H. }
  destruct (checkProductLimit_settles w1 req1) as (s2 & w2 & H2 & Hdb2 & Hres2 & _).
  rewrite (bind_fulfilled _ _ _ _ _ H2).
  destruct s2 as [req2|res2].
  2:{ do 2 eexists. split; [reflexivity|]. split; [intros _; congruence|].
      intros H. now apply (Hres2 res2 eq_refl) in H. }
  destruct (createProductHandler_writes w2 req2) as (res & w3 & H3 & Hkeep & Hadd).
  exists res, w3. split; [exact H3|]. split.
  - intros H. rewrite (Hkeep H). congruence.
  - intros H. destruct (Hadd H) as (p & Hp & Hact & Hdb3).
    exists p. repeat split; try assumption.
    rewrite Hdb3, Hdb2, Hdb1. reflexivity.
Qed.

Lemma product_route_writes_only_on_success_witness :
  exists res w',
    routes.postApiProducts Fixture.newProductForStranger Fixture.twoStoresWorld
    = (Fulfilled res, w')
    /\ (status res <> 200 -> db w' = db Fixture.twoStoresWorld)
    /\ (status res = 200 ->
        exists p,
          res = ok (JsonProduct p)
          /\ product_isActive p = Some true
          /\ db w' = mkDb (stores (db Fixture.twoStoresWorld))
                          (products (db Fixture.twoStoresWorld) ++ [p])
                          (orders (db Fixture.twoStoresWorld))
                          (plans (db Fixture.twoStoresWorld))
                          (subscriptions (db Fixture.twoStoresWorld))
                          (shippingConfigs (db Fixture.twoStoresWorld))
                          (shippingZones (db Fixture.twoStoresWorld))
                          (nextId (db Fixture.twoStoresWorld) + 1)).
Proof.
  exact (product_route_writes_only_on_success
           Fixture.twoStoresWorld Fixture.newProductForStranger).
Defined.

(** X7.  A product cannot be added to a store of somebody else: when
    the body names a store that does not exist or belongs to another
    user, the handler answers 403 after looking that store up, and
    creates nothing. *)
Theorem foreign_store_is_refused
        (w : World) (req : Request) (userId targetStoreId : string) :
  dbUp w = true ->
  claimsSub req = Some userId ->
  body_storeId req = Some targetStoreId ->
  Js.truthyStr targetStoreId = true ->
  (forall s, Rows.storeById targetStoreId (db w) = Some s -> store_userId s <> userId) ->
  routes.createProductHandler req w
  = (Fulfilled (mkResponse 403 (JsonMessage
       "You don't have permission to add products to this store")),
     logCall (GetStoreById targetStoreId) w).
Proof.
  intros Hup Hsub Hbody Htruthy Hforeign.
  unfold routes.createProductHandler. apply tryCatch_fulfilled.
  rewrite Hsub, Hbody. unfold routes.targetStoreOf. rewrite Htruthy.
  unfold bind. storage_read.
  destruct (Rows.storeById targetStoreId (db w)) as [s|]; [|reflexivity].
  assert (E : String.eqb (store_userId s) userId = false)
    by (apply String.eqb_neq; now apply Hforeign).
  now rewrite E.
Qed.

Lemma foreign_store_is_refused_witness :
  routes.createProductHandler Fixture.newProductForStranger Fixture.twoStoresWorld
  = (Fulfilled (mkResponse 403 (JsonMessage
       "You don't have permission to add products to this store")),
     logCall (GetStoreById "s1") Fixture.twoStoresWorld).
Proof.
  apply (foreign_store_is_refused Fixture.twoStoresWorld
           Fixture.newProductForStranger "u7" "s1"); try reflexivity.
  intros s [= <-]. discriminate.
Defined.

Lemma targetStoreOf_owned (w : World) (userId targetStoreId : string) (target : Store) :
  dbUp w = true ->
  Js.truthyStr targetStoreId = true ->
  Rows.storeById targetStoreId (db w) = Some target ->
  store_userId target = userId ->
  routes.targetStoreOf userId (Some targetStoreId) w
  = (Fulfilled (inr targetStoreId), logCall (GetStoreById targetStoreId) w).
Proof.
  intros Hup Htruthy Htarget Howner.
  unfold routes.targetStoreOf. rewrite Htruthy.
  unfold bind. storage_read. rewrite Htarget, Howner, String.eqb_refl. reflexivity.
Qed.

(** X8.  The product limit is checked on the user's first store only.
    When the plan on the request allows [maxP] products and the first
    store holds fewer, a valid product for another store of the same
    user, named in the body, is created there whatever the number of
    products that store already holds. *)
Theorem limit_is_counted_on_first_store
        (w w1 : World) (req req1 : Request) (userId targetStoreId : string)
        (first target : Store) (plan : Plan) (maxP : Z) (data : InsertProduct) :
  requireActiveSubscription req w = (Fulfilled (Next req1), w1) ->
  claimsSub req = Some userId ->
  Rows.storeByUserId (Some userId) (db w) = Some first ->
  optChain (subscription req1) planOf = Some plan ->
  maxProducts plan = Some maxP ->
  Spec.productCount (store_id first) (db w) < maxP ->
  body_storeId req = Some targetStoreId ->
  Js.truthyStr targetStoreId = true ->
  Rows.storeById targetStoreId (db w) = Some target ->
  store_userId target = userId ->
  body_product req = Some data ->
  exists p w',
    routes.postApiProducts req w = (Fulfilled (ok (JsonProduct p)), w')
    /\ product_storeId p = targetStoreId
    /\ product_name p = insert_name data
    /\ products (db w') = (products (db w) ++ [p])%list.
Proof.
  intros Hreq Hsub Hfirst Hplan Hmax Hcount Hbody Htruthy Htarget Howner Hdata.
  destruct (requireActiveSubscription_next w w1 req req1 Hreq)
    as (userId' & resolved & Hsub' & _ & Hup & -> & _ & _ & Hdb & Hup1 & _ & _).
  rewrite Hsub in Hsub'. injection Hsub' as <-.
  unfold routes.postApiProducts. cbn [route].
  rewrite (bind_fulfilled _ _ _ _ _ Hreq).
  assert (Hgate : checkProductLimit (setSubscription resolved req) w1
                  = (Fulfilled (Next (setSubscription resolved req)),
                     logCall (GetProductsByStoreId (store_id first))
                       (logCall (GetStoreByUserId (Some userId)) w1))).
  { rewrite (checkProductLimit_limited w1 _ first plan maxP Hup1);
      cbn [claimsSub setSubscription]; rewrite ?Hsub, ?Hdb; try assumption.
    assert (E : (Spec.productCount (store_id first) (db w) >=? maxP) = false)
      by (rewrite Z.geb_leb; apply Z.leb_gt; lia).
    now rewrite E. }
  rewrite (bind_fulfilled _ _ _ _ _ Hgate).
  set (w2 := logCall _ (logCall _ w1)).
  assert (Hup2 : dbUp w2 = true) by exact Hup1.
  assert (Hdb2 : db w2 = db w) by exact Hdb.
  unfold routes.createProductHandler, tryCatch.
  cbn [claimsSub setSubscription body_storeId body_product].
  rewrite Hsub, Hbody, Hdata.
  rewrite (bind_fulfilled _ _ _ _ _
             (targetStoreOf_owned w2 userId targetStoreId target Hup2 Htruthy
                ltac:(now rewrite Hdb2) Howner)).
  destruct (createProduct_up (logCall (GetStoreById targetStoreId) w2)
              (mkInsertProduct (insert_name data) (Some true)) targetStoreId Hup2)
    as (p & Hp & Hstore & Hname & _ & _).
  unfold bind. rewrite Hp.
  exists p. eexists. split; [reflexivity|].
  repeat split; try assumption.
  cbn [db withDb logCall products]. now rewrite Hdb2.
Qed.

Lemma limit_is_counted_on_first_store_witness :
  exists p w',
    routes.postApiProducts Fixture.newProductForFilial Fixture.twoStoresWorld
    = (Fulfilled (ok (JsonProduct p)), w')
    /\ product_storeId p = "s2"
    /\ product_name p = "Caneca"
    /\ products (db w')
       = (products (db Fixture.twoStoresWorld) ++ [p])%list.
Proof.
  apply (limit_is_counted_on_first_store
           Fixture.twoStoresWorld
           (logCall (GetPlanBySlug "gratis")
              (logCall (GetSubscriptionByUserId "u1") Fixture.twoStoresWorld))
           Fixture.newProductForFilial
           (setSubscription (ImplicitFree (Some Sample.gratis))
                            Fixture.newProductForFilial)
           "u1" "s2" Sample.loja Fixture.filial Sample.gratis 5
           (mkInsertProduct "Caneca" None));
    try reflexivity.
Defined.

(* ------------------------------------------------------------------ *)
(** ** Shipping quotes, further *)
(* ------------------------------------------------------------------ *)

Lemma num_le_trans (a b c : Js.number) :
  Js.num_le a b = true -> Js.num_le b c = true -> Js.num_le a c = true.
Proof.
  destruct a as [| |x|], b as [| |y|], c as [| |z|]; cbn;
    try discriminate; try reflexivity.
  rewrite !Qle_bool_iff. apply Qle_trans.
Qed.

Lemma freeShippingReached_mono (config : option ShippingConfig) (s s' : Js.number) :
  storage.freeShippingReached config s = true ->
  Js.num_ge s' s = true ->
  storage.freeShippingReached config s' = true.
Proof.
  unfold storage.freeShippingReached, Js.num_ge.
  destruct (optChain config freeShippingThreshold) as [t|]; [|discriminate].
  rewrite !andb_true_iff. intros [[Ht Hpos] Hs] Hs'.
  repeat split; try assumption.
  now apply num_le_trans with s.
Qed.

Lemma freeShippingReached_needs_positive (config : option ShippingConfig)
      (s : Js.number) :
  (forall t, optChain config freeShippingThreshold = Some t ->
             Js.num_gt (Js.parseFloat t) Js.zero = false) ->
  storage.freeShippingReached config s = false.
Proof.
  intros H. unfold storage.freeShippingReached.
  destruct (optChain config freeShippingThreshold) as [t|]; [|reflexivity].
  rewrite (H t eq_refl). now rewrite andb_false_r.
Qed.

(** The answer of [calculateShipping] depends on the tables only
    through the store's configuration and its active zones. *)
Lemma calculateShipping_ext (w w' : World) (storeId zipCode : string)
      (orderTotal orderTotal' : Js.number) :
  dbUp w = dbUp w' ->
  Rows.shippingConfig storeId (db w) = Rows.shippingConfig storeId (db w') ->
  Rows.shippingZonesOf storeId (db w) = Rows.shippingZonesOf storeId (db w') ->
  storage.freeShippingReached (Rows.shippingConfig storeId (db w)) orderTotal
  = storage.freeShippingReached (Rows.shippingConfig storeId (db w)) orderTotal' ->
  fst (storage.calculateShipping storeId zipCode orderTotal w)
  = fst (storage.calculateShipping storeId zipCode orderTotal' w').
Proof.
  intros Hup Hconfig Hzones Hfree.
  destruct (dbUp w) eqn:Hw.
  - symmetry in Hup.
    destruct (storage.freeShippingReached _ orderTotal) eqn:E.
    + rewrite (calculateShipping_free w) by assumption.
      rewrite (calculateShipping_free w') by (try rewrite <- Hconfig; congruence).
      reflexivity.
    + rewrite (calculateShipping_zones w) by assumption.
      rewrite (calculateShipping_zones w') by (try rewrite <- Hconfig; congruence).
      cbn [fst]. now rewrite Hzones, Hconfig.
  - symmetry in Hup.
    unfold storage.calculateShipping, bind, storage.getShippingConfig.
    now rewrite !dbSelect_down by assumption.
Qed.

(** X9.  The order total matters to [calculateShipping] only through
    the free-shipping threshold.  Once a total earns the free quote,
    every total at least as large earns it too; and when the store has
    no threshold, or one that does not parse to more than zero, the
    answer is the same for every total. *)
Theorem order_total_matters_only_through_threshold
        (w : World) (storeId zipCode : string) (s s' : Js.number) :
  (dbUp w = true ->
   storage.freeShippingReached (Rows.shippingConfig storeId (db w)) s = true ->
   Js.num_ge s' s = true ->
   storage.calculateShipping storeId zipCode s' w
   = (Fulfilled (mkShippingQuote Js.zero 7), logCall (GetShippingConfig storeId) w))
  /\ ((forall t,
          optChain (Rows.shippingConfig storeId (db w)) freeShippingThreshold = Some t ->
          Js.num_gt (Js.parseFloat t) Js.zero = false) ->
      fst (storage.calculateShipping storeId zipCode s w)
      = fst (storage.calculateShipping storeId zipCode s' w)).
Proof.
  split.
  - intros Hup Hfree Hge. apply calculateShipping_free; [exact Hup|].
    now apply freeShippingReached_mono with s.
  - intros Hnone. apply calculateShipping_ext; try reflexivity.
    now rewrite !freeShippingReached_needs_positive.
Qed.

Lemma order_total_matters_only_through_threshold_witness :
  storage.calculateShipping "s1" "99999-999" (Js.Fin 1000) Sample.shippingWorld
  = (Fulfilled (mkShippingQuote Js.zero 7),
     logCall (GetShippingConfig "s1") Sample.shippingWorld)
  /\ fst (storage.calculateShipping "s2" "99999-999" (Js.Fin 1) Sample.shippingWorld)
     = fst (storage.calculateShipping "s2" "99999-999" (Js.Fin 1000) Sample.shippingWorld).
Proof.
  split.
  - apply (proj1 (order_total_matters_only_through_threshold
                    Sample.shippingWorld "s1" "99999-999" (Js.Fin 200) (Js.Fin 1000)));
      reflexivity.
  - apply (proj2 (order_total_matters_only_through_threshold
                    Sample.shippingWorld "s2" "99999-999" (Js.Fin 1) (Js.Fin 1000))).
    intros t H. discriminate H.
Defined.

Lemma shippingZonesOf_skip (storeId : string) (d : Db)
      (before after : list ShippingZone) (z : ShippingZone) :
  shippingZones d = (before ++ z :: after)%list ->
  zone_storeId z <> storeId \/ zone_isActive z <> Some true ->
  Rows.shippingZonesOf storeId d
  = Rows.shippingZonesOf storeId (Tables.withShippingZones (before ++ after) d).
Proof.
  intros Hz Hskip. unfold Rows.shippingZonesOf.
  cbn [Tables.withShippingZones shippingZones]. rewrite Hz.
  rewrite !filter_app. cbn [filter].
  assert (E : String.eqb (zone_storeId z) storeId && Sql.isTrue (zone_isActive z) = false).
  { destruct Hskip as [H|H].
    - apply String.eqb_neq in H. now rewrite H.
    - apply andb_false_iff. right.
      destruct (zone_isActive z) as [[|]|]; try reflexivity. now contradiction H. }
  now rewrite E.
Qed.

(** X10.  A zone that is not active, or that belongs to another store,
    has no part in a quote: [calculateShipping] settles the same way
    with the zone row in the table and without it. *)
Theorem inactive_or_foreign_zone_is_ignored
        (w : World) (storeId zipCode : string) (orderTotal : Js.number)
        (before after : list ShippingZone) (z : ShippingZone) :
  shippingZones (db w) = (before ++ z :: after)%list ->
  zone_storeId z <> storeId \/ zone_isActive z <> Some true ->
  fst (storage.calculateShipping storeId zipCode orderTotal w)
  = fst (storage.calculateShipping storeId zipCode orderTotal
           (withDb (Tables.withShippingZones (before ++ after) (db w)) w)).
Proof.
  intros Hz Hskip. apply calculateShipping_ext; try reflexivity.
  cbn [db withDb]. now apply shippingZonesOf_skip with z.
Qed.

Lemma inactive_or_foreign_zone_is_ignored_witness :
  fst (storage.calculateShipping "s1" "01310-100" (Js.Fin 50) Fixture.overlapWorld)
  = fst (storage.calculateShipping "s1" "01310-100" (Js.Fin 50)
           (withDb (Tables.withShippingZones
                      [Fixture.centro; Sample.capital; Fixture.alheia]
                      (db Fixture.overlapWorld))
                   Fixture.overlapWorld)).
Proof.
  apply (inactive_or_foreign_zone_is_ignored Fixture.overlapWorld "s1" "01310-100"
           (Js.Fin 50) [Fixture.centro] [Sample.capital; Fixture.alheia]
           Fixture.desligada eq_refl).
  right. discriminate.
Defined.

Section SortedFacts.
Context {A : Type} (precedes : A -> A -> bool) (P : A -> Prop).
Hypothesis precedes_total :
  forall a b, P a -> P b -> precedes a b = true \/ precedes b a = true.
Hypothesis precedes_trans :
  forall a b c, P a -> P b -> P c ->
                precedes a b = true -> precedes b c = true -> precedes a c = true.

Lemma insertRow_sorted (x : A) (l : list A) :
  P x -> (forall y, In y l -> P y) ->
  Tables.sortedBy precedes l ->
  Tables.sortedBy precedes (Sql.insertRow precedes x l).
Proof.
  intros Hx. induction l as [|y r IH]; intros HP Hs.
  - cbn. split; [intros ? []|exact I].
  - cbn [Sql.insertRow]. destruct Hs as [Hy Hr].
    assert (HPy : P y) by (apply HP; now left).
    assert (HPr : forall z, In z r -> P z) by (intros z Hz; apply HP; now right).
    destruct (precedes x y) eqn:E.
    + split; [|split; assumption].
      intros z [<-|Hz]; [exact E|].
      apply precedes_trans with y; auto.
    + split; [|now apply IH].
      intros z Hz. apply insertRow_In in Hz. destruct Hz as [->|Hz]; [|now apply Hy].
      destruct (precedes_total y x HPy Hx) as [H|H]; [exact H|congruence].
Qed.

Lemma orderBy_sorted (l : list A) :
  (forall y, In y l -> P y) ->
  Tables.sortedBy precedes (Sql.orderBy precedes l).
Proof.
  induction l as [|x l IH]; intros HP; [exact I|].
  cbn [Sql.orderBy]. apply insertRow_sorted.
  - apply HP. now left.
  - intros y Hy. apply orderBy_In in Hy. apply HP. now right.
  - apply IH. intros y Hy. apply HP. now right.
Qed.
End SortedFacts.

Lemma sortedBy_split {A : Type} (precedes : A -> A -> bool)
      (pre post : list A) (x : A) :
  Tables.sortedBy precedes (pre ++ x :: post) ->
  forall y, In y post -> precedes x y = true.
Proof.
  induction pre as [|a pre IH]; cbn; intros [H Hs]; [exact H | now apply IH].
Qed.

Lemma sortedBy_nth {A : Type} (precedes : A -> A -> bool) (l : list A) :
  Tables.sortedBy precedes l ->
  forall i j a b,
    (i < j)%nat -> nth_error l i = Some a -> nth_error l j = Some b ->
    precedes a b = true.
Proof.
  induction l as [|x l IH]; intros Hs i j a b Hij Ha Hb.
  - now destruct i.
  - destruct Hs as [Hx Hl]. destruct j as [|j]; [lia|].
    cbn in Hb. destruct i as [|i].
    + injection Ha as <-. apply Hx. now apply nth_error_In with j.
    + cbn in Ha. apply (IH Hl i j); [lia|assumption|assumption].
Qed.

Lemma LexLe_trans (a b c : string) :
  Spec.LexLe a b -> Spec.LexLe b c -> Spec.LexLe a c.
Proof.
  intros Hab. revert c.
  induction Hab as [b|x y a b Hlt|x a b Hab IH]; intros c Hbc.
  - constructor.
  - inversion Hbc; subst.
    + apply Spec.LexLe_less. lia.
    + now apply Spec.LexLe_less.
  - inversion Hbc; subst.
    + now apply Spec.LexLe_less.
    + apply Spec.LexLe_same. now apply IH.
Qed.

Lemma string_leb_trans (a b c : string) :
  String.leb a b = true -> String.leb b c = true -> String.leb a c = true.
Proof. rewrite !leb_LexLe. apply LexLe_trans. Qed.

Lemma shippingZonesOf_sorted (storeId : string) (d : Db) :
  Tables.sortedBy (fun a b => String.leb (zone_name a) (zone_name b))
                  (Rows.shippingZonesOf storeId d).
Proof.
  unfold Rows.shippingZonesOf. apply orderBy_sorted with (P := fun _ => True).
  - intros a b _ _. apply String.leb_total.
  - intros a b c _ _ _. apply string_leb_trans.
  - trivial.
Qed.

Lemma shippingZonesOf_In (storeId : string) (d : Db) (z : ShippingZone) :
  In z (Rows.shippingZonesOf storeId d)
  <-> In z (shippingZones d) /\ zone_storeId z = storeId
      /\ zone_isActive z = Some true.
Proof.
  unfold Rows.shippingZonesOf. rewrite orderBy_In, filter_In, andb_true_iff.
  rewrite String.eqb_eq. unfold Sql.isTrue.
  destruct (zone_isActive z) as [[|]|]; intuition congruence.
Qed.

Lemma first_match_split (zones : list ShippingZone) (cleanZip : string) :
  (exists z, In z zones /\ storage.zoneContains z cleanZip = true) ->
  exists pre z post,
    zones = (pre ++ z :: post)%list
    /\ (forall y, In y pre -> storage.zoneContains y cleanZip = false)
    /\ storage.zoneContains z cleanZip = true.
Proof.
  induction zones as [|a zones IH]; intros (z & Hin & Hz); [destruct Hin|].
  destruct (storage.zoneContains a cleanZip) eqn:E.
  - exists [], a, zones. repeat split; [intros ? []|exact E].
  - destruct Hin as [->|Hin]; [congruence|].
    destruct (IH (ex_intro _ z (conj Hin Hz))) as (pre & z' & post & -> & Hpre & Hz').
    exists (a :: pre), z', post. repeat split; [|exact Hz'].
    intros y [<-|Hy]; [exact E | now apply Hpre].
Qed.

(** X11.  Where zones overlap, the name decides.  When the threshold is
    not reached and some active zone of the store encloses the cleaned
    zip, the quote is taken from an enclosing active zone whose name
    comes first among all of them (names compared byte by byte, as
    [ORDER BY name] is modelled). *)
Theorem overlapping_zones_first_name_wins
        (w : World) (storeId zipCode : string) (orderTotal : Js.number) :
  dbUp w = true ->
  storage.freeShippingReached (Rows.shippingConfig storeId (db w)) orderTotal = false ->
  (exists z, Tables.encloses storeId (Js.stripNonDigits zipCode) (db w) z) ->
  exists z,
    Tables.encloses storeId (Js.stripNonDigits zipCode) (db w) z
    /\ valueOf (storage.calculateShipping storeId zipCode orderTotal w)
       = Some (Tables.quoteOf z)
    /\ forall z', Tables.encloses storeId (Js.stripNonDigits zipCode) (db w) z' ->
                  String.leb (zone_name z) (zone_name z') = true.
Proof.
  intros Hup Hfree (z0 & Hin0 & Hs0 & Ha0 & Hr0).
  set (zip := Js.stripNonDigits zipCode) in *.
  destruct (first_match_split (Rows.shippingZonesOf storeId (db w)) zip)
    as (pre & z & post & Hzones & Hpre & Hz).
  { exists z0. split; [|now apply zoneContains_inRange].
    apply shippingZonesOf_In. auto. }
  assert (Hzin : In z (Rows.shippingZonesOf storeId (db w))).
  { rewrite Hzones. apply in_or_app. right. now left. }
  apply shippingZonesOf_In in Hzin. destruct Hzin as (Hin & Hs & Ha).
  exists z. split; [|split].
  - split; [exact Hin|]. split; [exact Hs|]. split; [exact Ha|].
    now apply zoneContains_inRange.
  - rewrite calculateShipping_zones by assumption. unfold valueOf. cbn [fst].
    fold zip. rewrite Hzones, (zoneLoop_first_match pre post z zip Hpre Hz).
    reflexivity.
  - intros z' (Hin' & Hs' & Ha' & Hr').
    assert (Hz' : In z' (Rows.shippingZonesOf storeId (db w)))
      by (apply shippingZonesOf_In; auto).
    rewrite Hzones in Hz'. apply in_app_or in Hz'.
    destruct Hz' as [Hz'|[<-|Hz']].
    + apply zoneContains_inRange in Hr'. rewrite (Hpre z' Hz') in Hr'. discriminate.
    + destruct (String.leb_total (zone_name z) (zone_name z)); assumption.
    + pose proof (shippingZonesOf_sorted storeId (db w)) as Hsorted.
      rewrite Hzones in Hsorted.
      now apply (sortedBy_split _ pre post z Hsorted z').
Qed.

Lemma overlapping_zones_first_name_wins_witness :
  exists z,
    Tables.encloses "s1" (Js.stripNonDigits "01310-100") (db Fixture.overlapWorld) z
    /\ valueOf (storage.calculateShipping "s1" "01310-100" (Js.Fin 50)
                                          Fixture.overlapWorld)
       = Some (Tables.quoteOf z)
    /\ forall z', Tables.encloses "s1" (Js.stripNonDigits "01310-100")
                                  (db Fixture.overlapWorld) z' ->
                  String.leb (zone_name z) (zone_name z') = true.
Proof.
  apply (overlapping_zones_first_name_wins Fixture.overlapWorld "s1" "01310-100"
           (Js.Fin 50) eq_refl eq_refl).
  exists Fixture.centro.
  split; [now left|]. split; [reflexivity|]. split; [reflexivity|].
  split; apply leb_LexLe; reflexivity.
Defined.

Example overlap_is_quoted_from_capital :
  valueOf (storage.calculateShipping "s1" "01310-100" (Js.Fin 50) Fixture.overlapWorld)
  = Some (Tables.quoteOf Sample.capital).
Proof. reflexivity. Qed.

(* ------------------------------------------------------------------ *)
(** ** The plan catalog, further *)
(* ------------------------------------------------------------------ *)

Lemma getApiPlans_reads (w : World) :
  dbUp w = true ->
  plansCache w = None \/ cacheIsStale w = true ->
  routes.getApiPlans w
  = (Fulfilled (ok (JsonPlans (Rows.allPlans (db w)))),
     withPlansCache (Some (Rows.allPlans (db w))) (clock w) (logCall GetAllPlans w)).
Proof.
  intros Hup Hcache.
  unfold routes.getApiPlans. apply tryCatch_fulfilled.
  unfold bind at 1, dateNow. unfold bind at 1, routes.readPlansCache.
  assert (Hread : bind storage.getAllPlans
                    (fun plans =>
                       bind (routes.writePlansCache plans (clock w))
                            (fun _ => ret (ok (JsonPlans plans)))) w
                  = (Fulfilled (ok (JsonPlans (Rows.allPlans (db w)))),
                     withPlansCache (Some (Rows.allPlans (db w))) (clock w)
                                    (logCall GetAllPlans w))).
  { unfold bind at 1. storage_read. reflexivity. }
  destruct (plansCache w) as [cached|] eqn:E; [|exact Hread].
  destruct Hcache as [H|H]; [discriminate H|].
  unfold cacheIsStale in H. apply negb_true_iff in H. rewrite H. exact Hread.
Qed.

Lemma allPlans_In (d : Db) (p : Plan) :
  In p (Rows.allPlans d) <-> In p (plans d) /\ plan_isActive p = Some true.
Proof.
  unfold Rows.allPlans. rewrite orderBy_In, filter_In. unfold Sql.isTrue.
  destruct (plan_isActive p) as [[|]|]; intuition congruence.
Qed.

Lemma allPlans_ascending (d : Db) :
  (forall p, In p (Rows.allPlans d) -> Tables.pricedFinitely p) ->
  Spec.ascendingByPrice (Rows.allPlans d).
Proof.
  intros Hfin. unfold Spec.ascendingByPrice.
  apply (sortedBy_nth
           (fun a b => Js.num_le (Js.parseFloat (price a)) (Js.parseFloat (price b)))).
  unfold Rows.allPlans. apply orderBy_sorted with (P := Tables.pricedFinitely).
  - intros a b [x Hx] [y Hy]. unfold Sql.numeric. rewrite Hx, Hy. cbn.
    rewrite !Qle_bool_iff.
    destruct (Qlt_le_dec y x) as [H|H]; [right; now apply Qlt_le_weak | now left].
  - intros a b c _ _ _. apply num_le_trans.
  - intros p Hp. apply Hfin. unfold Rows.allPlans. apply orderBy_In. exact Hp.
Qed.

(** X12.  When [GET /api/plans] reads the database (nothing cached, or
    the cache no longer fresh) and the read succeeds, it answers the
    rows of the plan table that are active, and only those, also when
    there are none (the built-in plans are for failed reads only); the
    answer is in ascending order of price when the prices are finite
    numbers; and the answer is cached with the time of the read. *)
Theorem plan_listing_is_active_and_ascending (w : World) :
  dbUp w = true ->
  plansCache w = None \/ cacheIsStale w = true ->
  exists listed,
    routes.getApiPlans w
    = (Fulfilled (ok (JsonPlans listed)),
       withPlansCache (Some listed) (clock w) (logCall GetAllPlans w))
    /\ (forall p, In p listed <-> In p (plans (db w)) /\ plan_isActive p = Some true)
    /\ ((forall p, In p listed -> Tables.pricedFinitely p) ->
        Spec.ascendingByPrice listed).
Proof.
  intros Hup Hcache. exists (Rows.allPlans (db w)).
  split; [now apply getApiPlans_reads|].
  split; [apply allPlans_In | apply allPlans_ascending].
Qed.

Lemma plan_listing_is_active_and_ascending_witness :
  exists listed,
    routes.getApiPlans (Sample.worldOf (Sample.catalogDb [] [Sample.pro; Sample.gratis]))
    = (Fulfilled (ok (JsonPlans listed)),
       withPlansCache (Some listed)
         (clock (Sample.worldOf (Sample.catalogDb [] [Sample.pro; Sample.gratis])))
         (logCall GetAllPlans
            (Sample.worldOf (Sample.catalogDb [] [Sample.pro; Sample.gratis]))))
    /\ (forall p, In p listed <->
                  In p [Sample.pro; Sample.gratis] /\ plan_isActive p = Some true)
    /\ ((forall p, In p listed -> Tables.pricedFinitely p) ->
        Spec.ascendingByPrice listed).
Proof.
  apply (plan_listing_is_active_and_ascending
           (Sample.worldOf (Sample.catalogDb [] [Sample.pro; Sample.gratis])) eq_refl).
  left. reflexivity.
Defined.

(** X13.  After a successful read, [GET /api/plans] serves the plans it
    has cached for as long as less than five minutes have passed since
    that read: the answer is the one of the read, whatever the tables
    hold by then and whether or not the database is up, and no storage
    call is made. *)
Theorem cached_plans_are_served_within_ttl (w w2 : World) :
  dbUp w = true ->
  plansCache w = None \/ cacheIsStale w = true ->
  plansCache w2 = plansCache (snd (routes.getApiPlans w)) ->
  plansCacheTime w2 = plansCacheTime (snd (routes.getApiPlans w)) ->
  clock w2 - clock w < routes.CACHE_TTL ->
  routes.getApiPlans w2
  = (Fulfilled (ok (JsonPlans (Rows.allPlans (db w)))), w2)
  /\ fst (routes.getApiPlans w2) = fst (routes.getApiPlans w).
Proof.
  intros Hup Hcache Hc Ht Hfresh.
  rewrite (getApiPlans_reads w Hup Hcache) in *. cbn [snd fst] in *.
  cbn [plansCache plansCacheTime withPlansCache] in Hc, Ht.
  assert (H : routes.getApiPlans w2
              = (Fulfilled (ok (JsonPlans (Rows.allPlans (db w)))), w2)).
  { unfold routes.getApiPlans. apply tryCatch_fulfilled.
    unfold bind, dateNow, routes.readPlansCache. rewrite Hc, Ht.
    assert (E : (clock w2 - clock w <? routes.CACHE_TTL) = true)
      by now apply Z.ltb_lt.
    now rewrite E. }
  split; [exact H | now rewrite H].
Qed.

Lemma cached_plans_are_served_within_ttl_witness :
  routes.getApiPlans
    (mkWorld Sample.emptyDb false [] (Some [Sample.gratis; Sample.pro])
             (clock Sample.subscriptionWorld)
             (clock Sample.subscriptionWorld + 299999) (-180))
  = (Fulfilled (ok (JsonPlans (Rows.allPlans (db Sample.subscriptionWorld)))),
     mkWorld Sample.emptyDb false [] (Some [Sample.gratis; Sample.pro])
             (clock Sample.subscriptionWorld)
             (clock Sample.subscriptionWorld + 299999) (-180)).
Proof.
  apply (cached_plans_are_served_within_ttl Sample.subscriptionWorld
           (mkWorld Sample.emptyDb false [] (Some [Sample.gratis; Sample.pro])
                    (clock Sample.subscriptionWorld)
                    (clock Sample.subscriptionWorld + 299999) (-180))
           eq_refl (or_introl eq_refl) eq_refl eq_refl).
  vm_compute. reflexivity.
Defined.

(* ------------------------------------------------------------------ *)
(** ** Cancelling a subscription *)
(* ------------------------------------------------------------------ *)

Lemma dbRun_up {A : Type} (q : Db -> A * Db) (w : World) :
  dbUp w = true ->
  DatabaseStorage.dbRun q w = (Fulfilled (fst (q (db w))), withDb (snd (q (db w))) w).
Proof.
  intros Hup. unfold DatabaseStorage.dbRun. rewrite Hup. now destruct (q (db w)).
Qed.

Lemma dbRun_down {A : Type} (q : Db -> A * Db) (w : World) :
  dbUp w = false ->
  DatabaseStorage.dbRun q w = (Rejected "database unavailable", w).
Proof. intros Hdown. unfold DatabaseStorage.dbRun. now rewrite Hdown. Qed.

Section MapFacts.
Context {A : Type} (f : A -> A).

Lemma filter_map_same (g : A -> bool) (l : list A) :
  (forall x, g (f x) = g x) ->
  filter g (map f l) = map f (filter g l).
Proof.
  intros Hg. induction l as [|x l IH]; [reflexivity|].
  cbn. rewrite Hg. destruct (g x); cbn; now rewrite IH.
Qed.

Lemma filter_map_fixed (g : A -> bool) (l : list A) :
  (forall x, g (f x) = g x) ->
  (forall x, g x = true -> f x = x) ->
  filter g (map f l) = filter g l.
Proof.
  intros Hg Hfix. induction l as [|x l IH]; [reflexivity|].
  cbn. rewrite Hg. destruct (g x) eqn:E; [rewrite (Hfix x E)|]; now rewrite IH.
Qed.

Lemma insertRow_map (precedes : A -> A -> bool) (x : A) (l : list A) :
  (forall a b, precedes (f a) (f b) = precedes a b) ->
  Sql.insertRow precedes (f x) (map f l) = map f (Sql.insertRow precedes x l).
Proof.
  intros Hp. induction l as [|y l IH]; [reflexivity|].
  cbn. rewrite Hp. destruct (precedes x y); cbn; [reflexivity|now rewrite IH].
Qed.

Lemma orderBy_map (precedes : A -> A -> bool) (l : list A) :
  (forall a b, precedes (f a) (f b) = precedes a b) ->
  Sql.orderBy precedes (map f l) = map f (Sql.orderBy precedes l).
Proof.
  intros Hp. induction l as [|x l IH]; [reflexivity|].
  cbn. rewrite IH. now apply insertRow_map.
Qed.
End MapFacts.

Lemma cancelSubscription_up (w : World) (userId : string) :
  dbUp w = true ->
  DatabaseStorage.cancelSubscription userId w
  = (Fulfilled tt,
     withDb (DatabaseStorage.withSubscriptions
               (map (fun s => if String.eqb (sub_userId s) userId
                              then DatabaseStorage.canceled s else s)
                    (subscriptions (db w)))
               (db w)) w).
Proof.
  intros Hup. unfold DatabaseStorage.cancelSubscription.
  now rewrite dbRun_up.
Qed.

Lemma postSubscriptionCancel_up (w : World) (userId : string) :
  dbUp w = true ->
  handlers.postSubscriptionCancel userId w
  = (Fulfilled (handlers.mkReply 200
                  (handlers.Success true "Assinatura cancelada com sucesso")),
     withDb (DatabaseStorage.withSubscriptions
               (map (fun s => if String.eqb (sub_userId s) userId
                              then DatabaseStorage.canceled s else s)
                    (subscriptions (db w)))
               (db w)) w).
Proof.
  intros Hup. unfold handlers.postSubscriptionCancel.
  apply tryCatch_fulfilled. unfold bind.
  now rewrite cancelSubscription_up.
Qed.

Lemma subscriptionsOf_cancelled (d : Db) (userId : string) :
  Rows.subscriptionsOf userId
    (DatabaseStorage.withSubscriptions
       (map (fun s => if String.eqb (sub_userId s) userId
                      then DatabaseStorage.canceled s else s)
            (subscriptions d)) d)
  = map DatabaseStorage.canceled (Rows.subscriptionsOf userId d).
Proof.
  unfold Rows.subscriptionsOf. cbn [subscriptions DatabaseStorage.withSubscriptions].
  rewrite filter_map_same
    by (intros x; cbn beta; destruct (String.eqb (sub_userId x) userId) eqn:E;
        cbn; now rewrite ?E).
  rewrite <- orderBy_map by reflexivity. f_equal.
  apply map_ext_in. intros s Hs. apply filter_In in Hs. now rewrite (proj2 Hs).
Qed.

Lemma subscriptionsOf_cancelled_other (d : Db) (userId other : string) :
  other <> userId ->
  Rows.subscriptionsOf other
    (DatabaseStorage.withSubscriptions
       (map (fun s => if String.eqb (sub_userId s) userId
                      then DatabaseStorage.canceled s else s)
            (subscriptions d)) d)
  = Rows.subscriptionsOf other d.
Proof.
  intros Hother. unfold Rows.subscriptionsOf.
  cbn [subscriptions DatabaseStorage.withSubscriptions].
  rewrite filter_map_fixed; [reflexivity| |].
  - intros x. cbn beta. destruct (String.eqb (sub_userId x) userId) eqn:E;
      cbn; now rewrite ?E.
  - intros x Hx. apply String.eqb_eq in Hx.
    destruct (String.eqb (sub_userId x) userId) eqn:E; [|reflexivity].
    apply String.eqb_eq in E. congruence.
Qed.

(** X14.  Cancelling does not bring a subscriber back to the free plan.
    For a user whose subscription resolves to a row with its plan,
    [POST /api/subscription/cancel] answers 200 and from then on the
    user's subscription resolves to the same row and plan with status
    "canceled" and [cancelAtPeriodEnd] set: [GET /api/subscription]
    shows it, and [requireActiveSubscription] answers every request of
    the user 403, so nothing behind it runs. *)
Theorem cancelled_subscriber_is_locked_out
        (w : World) (userId : string) (s : SubscriptionWithPlan) :
  dbUp w = true ->
  Js.truthyStr userId = true ->
  storage.withPlan (Rows.latestSubscriptionJoined userId (db w)) = Some s ->
  exists w',
    handlers.postSubscriptionCancel userId w
    = (Fulfilled (handlers.mkReply 200
                    (handlers.Success true "Assinatura cancelada com sucesso")), w')
    /\ storage.withPlan (Rows.latestSubscriptionJoined userId (db w'))
       = Some (mkSubscriptionWithPlan (DatabaseStorage.canceled (subscription_row s))
                                      (subscription_plan s))
    /\ fst (routes.getApiSubscription userId w')
       = Fulfilled (ok (JsonSubscription
                          (Stored (mkSubscriptionWithPlan
                                     (DatabaseStorage.canceled (subscription_row s))
                                     (subscription_plan s)))))
    /\ forall (req : Request) (rest : list Middleware) (handler : Handler),
         claimsSub req = Some userId ->
         fst (route (requireActiveSubscription :: rest) handler req w')
         = Fulfilled (mkResponse 403
                        (JsonRedirect
                           "Sua assinatura não está ativa. Por favor, renove sua assinatura."
                           "/dashboard/subscription")).
Proof.
  intros Hup Htruthy Hsub.
  eexists. split; [now apply postSubscriptionCancel_up|].
  set (w' := withDb _ w).
  assert (Hup' : dbUp w' = true) by exact Hup.
  assert (Hjoin : storage.withPlan (Rows.latestSubscriptionJoined userId (db w'))
                  = Some (mkSubscriptionWithPlan
                            (DatabaseStorage.canceled (subscription_row s))
                            (subscription_plan s))).
  { unfold Rows.latestSubscriptionJoined in *. subst w'. cbn [db withDb].
    rewrite subscriptionsOf_cancelled.
    destruct (Rows.subscriptionsOf userId (db w)) as [|r rs]; [discriminate Hsub|].
    cbn [map DatabaseStorage.canceled planId].
    change (Rows.planById (planId r) (DatabaseStorage.withSubscriptions _ (db w)))
      with (Rows.planById (planId r) (db w)).
    destruct (Rows.planById (planId r) (db w)) as [p|]; [|discriminate Hsub].
    cbn in Hsub |- *. injection Hsub as <-. reflexivity. }
  split; [exact Hjoin|]. split.
  - rewrite getApiSubscription_up, Hjoin by exact Hup'. reflexivity.
  - intros req rest handler Hreq. cbn [route]. unfold bind.
    rewrite (requireActiveSubscription_stored w' req userId _ Hup' Hreq Htruthy Hjoin).
    reflexivity.
Qed.

Lemma cancelled_subscriber_is_locked_out_witness :
  exists w',
    handlers.postSubscriptionCancel "u1" (Sample.worldOf Fixture.assinante)
    = (Fulfilled (handlers.mkReply 200
                    (handlers.Success true "Assinatura cancelada com sucesso")), w')
    /\ storage.withPlan (Rows.latestSubscriptionJoined "u1" (db w'))
       = Some (mkSubscriptionWithPlan
                 (DatabaseStorage.canceled Fixture.assinatura) Sample.pro)
    /\ fst (routes.getApiSubscription "u1" w')
       = Fulfilled (ok (JsonSubscription
                          (Stored (mkSubscriptionWithPlan
                                     (DatabaseStorage.canceled Fixture.assinatura)
                                     Sample.pro))))
    /\ forall (req : Request) (rest : list Middleware) (handler : Handler),
         claimsSub req = Some "u1" ->
         fst (route (requireActiveSubscription :: rest) handler req w')
         = Fulfilled (mkResponse 403
                        (JsonRedirect
                           "Sua assinatura não está ativa. Por favor, renove sua assinatura."
                           "/dashboard/subscription")).
Proof.
  apply (cancelled_subscriber_is_locked_out
           (Sample.worldOf Fixture.assinante) "u1"
           (mkSubscriptionWithPlan Fixture.assinatura Sample.pro));
    reflexivity.
Defined.

(** X15.  Cancelling touches the caller's rows only: every other user's
    subscription resolves as before, a caller who has no row, or whose
    newest row has no plan row, still reads as unsubscribed, and no
    other table changes.  With the database down the route answers 500
    and changes nothing. *)
Theorem cancel_leaves_other_users_alone (w : World) (userId : string) :
  exists res w',
    handlers.postSubscriptionCancel userId w = (Fulfilled res, w')
    /\ (dbUp w = false ->
        res = handlers.mkReply 500 (handlers.Message "Failed to cancel subscription")
        /\ w' = w)
    /\ (forall other, other <> userId ->
          Rows.latestSubscriptionJoined other (db w')
          = Rows.latestSubscriptionJoined other (db w))
    /\ (storage.withPlan (Rows.latestSubscriptionJoined userId (db w)) = None ->
        storage.withPlan (Rows.latestSubscriptionJoined userId (db w')) = None)
    /\ DatabaseStorage.withSubscriptions (subscriptions (db w)) (db w') = db w.
Proof.
  destruct (dbUp w) eqn:Hup.
  - do 2 eexists. split; [now apply postSubscriptionCancel_up|].
    split; [discriminate|]. cbn [db withDb]. split; [|split].
    + intros other Hother. unfold Rows.latestSubscriptionJoined.
      rewrite subscriptionsOf_cancelled_other by exact Hother.
      destruct (Rows.subscriptionsOf other (db w)); reflexivity.
    + unfold Rows.latestSubscriptionJoined. rewrite subscriptionsOf_cancelled.
      destruct (Rows.subscriptionsOf userId (db w)) as [|r rs]; [reflexivity|].
      cbn [map DatabaseStorage.canceled planId].
      change (Rows.planById (planId r) (DatabaseStorage.withSubscriptions _ (db w)))
        with (Rows.planById (planId r) (db w)).
      now destruct (Rows.planById (planId r) (db w)).
    + unfold DatabaseStorage.withSubscriptions. cbn. now destruct (db w).
  - exists (handlers.mkReply 500 (handlers.Message "Failed to cancel subscription")), w.
    assert (Hrun : handlers.postSubscriptionCancel userId w
                   = (Fulfilled (handlers.mkReply 500
                                   (handlers.Message "Failed to cancel subscription")), w)).
    { unfold handlers.postSubscriptionCancel.
      rewrite (tryCatch_rejected _ _ w "database unavailable" w); [reflexivity|].
      unfold bind, DatabaseStorage.cancelSubscription. now rewrite dbRun_down. }
    split; [exact Hrun|]. split; [now split|].
    split; [reflexivity|]. split; [tauto|].
    unfold DatabaseStorage.withSubscriptions. now destruct (db w).
Qed.

(* ------------------------------------------------------------------ *)
(** ** Activating and deleting products *)
(* ------------------------------------------------------------------ *)

Lemma withDb_same (w : World) : withDb (db w) w = w.
Proof. now destruct w. Qed.

Lemma withProducts_same (d : Db) : DatabaseStorage.withProducts (products d) d = d.
Proof. now destruct d. Qed.

Lemma withDb_withDb (d d' : Db) (w : World) : withDb d' (withDb d w) = withDb d' w.
Proof. reflexivity. Qed.

Lemma withProducts_withProducts (rows rows' : list Product) (d : Db) :
  DatabaseStorage.withProducts rows' (DatabaseStorage.withProducts rows d)
  = DatabaseStorage.withProducts rows' d.
Proof. reflexivity. Qed.

Lemma products_withProducts (rows : list Product) (d : Db) :
  products (DatabaseStorage.withProducts rows d) = rows.
Proof. reflexivity. Qed.

Lemma updateProduct_up (w : World) (id : string) (data : DatabaseStorage.ProductPatch) :
  dbUp w = true ->
  exists row,
    DatabaseStorage.updateProduct id data w
    = (Fulfilled row,
       withDb (DatabaseStorage.withProducts
                 (map (fun p => if String.eqb (product_id p) id
                                then DatabaseStorage.patchProduct data p else p)
                      (products (db w)))
                 (db w)) w).
Proof.
  intros Hup. eexists. unfold DatabaseStorage.updateProduct.
  rewrite dbRun_up by exact Hup. reflexivity.
Qed.

Lemma activated_nil (rows : list Product) : Catalog.activated [] rows = rows.
Proof. unfold Catalog.activated. cbn. apply map_id. Qed.

Lemma activated_step (id : string) (ids : list string) (rows : list Product) :
  Catalog.activated ids
    (map (fun p => if String.eqb (product_id p) id then Catalog.activate p else p) rows)
  = Catalog.activated (id :: ids) rows.
Proof.
  unfold Catalog.activated. rewrite map_map. apply map_ext. intros p.
  cbn [existsb]. destruct (String.eqb (product_id p) id) eqn:E; cbn [orb].
  - change (product_id (Catalog.activate p)) with (product_id p).
    now destruct (existsb _ ids).
  - reflexivity.
Qed.

Lemma activateLoop_up (ps : list Product) :
  forall (n : Z) (w : World),
    dbUp w = true ->
    handlers.activateLoop ps n w
    = (Fulfilled (n + Z.of_nat (List.length (Catalog.inactiveIds ps))),
       withDb (DatabaseStorage.withProducts
                 (Catalog.activated (Catalog.inactiveIds ps) (products (db w)))
                 (db w)) w).
Proof.
  induction ps as [|p ps IH]; intros n w Hup.
  - cbn. now rewrite activated_nil, withProducts_same, withDb_same, Z.add_0_r.
  - cbn [handlers.activateLoop]. unfold Catalog.inactiveIds. cbn [filter].
    change (negb (handlers.truthyOptBool (product_isActive p)))
      with (Catalog.inactive p).
    fold (Catalog.inactiveIds ps).
    destruct (Catalog.inactive p) eqn:E.
    + destruct (updateProduct_up w (product_id p)
                  (DatabaseStorage.mkProductPatch None (Some (Some true))) Hup)
        as [row Hrow].
      unfold bind at 1. rewrite Hrow. rewrite IH by exact Hup.
      cbn [db withDb products DatabaseStorage.withProducts map List.length].
      fold Catalog.activate.
      rewrite activated_step, withDb_withDb, withProducts_withProducts.
      apply f_equal2; [f_equal; unfold Catalog.inactiveIds; lia|reflexivity].
    + fold (Catalog.inactiveIds ps). now rewrite IH.
Qed.

Lemma postFixInactive_up (w : World) (userId : string) (store : Store) :
  dbUp w = true ->
  Rows.storeByUserId (Some userId) (db w) = Some store ->
  handlers.postFixInactive userId w
  = (Fulfilled
       (handlers.mkReply 200
          (handlers.Fixed
             (Js.intToString
                (Z.of_nat (List.length
                   (Catalog.inactiveIds
                      (Rows.productsByStoreId (store_id store) (db w)))))
              ++ " produtos ativados com sucesso")
             (Z.of_nat (List.length
                (Catalog.inactiveIds
                   (Rows.productsByStoreId (store_id store) (db w))))))),
     withDb (DatabaseStorage.withProducts
               (Catalog.activated
                  (Catalog.inactiveIds (Rows.productsByStoreId (store_id store) (db w)))
                  (products (db w)))
               (db w))
            (logCall (GetProductsByStoreId (store_id store))
                     (logCall (GetStoreByUserId (Some userId)) w))).
Proof.
  intros Hup Hstore. unfold handlers.postFixInactive. apply tryCatch_fulfilled.
  unfold bind at 1. storage_read. rewrite Hstore.
  unfold bind at 1. storage_read. cbn [db logCall].
  unfold bind at 1. rewrite activateLoop_up by (cbn; exact Hup).
  reflexivity.
Qed.

Lemma inactiveIds_count (storeId : string) (d : Db) :
  List.length (Catalog.inactiveIds (Rows.productsByStoreId storeId d))
  = List.length (filter (fun p => String.eqb (product_storeId p) storeId
                                  && Catalog.inactive p)
                        (products d)).
Proof.
  unfold Catalog.inactiveIds, Rows.productsByStoreId.
  now rewrite length_map, orderBy_filter_length, filter_filter_length.
Qed.

Lemma inactiveIds_In (storeId : string) (d : Db) (p : Product) :
  In p (products d) ->
  product_storeId p = storeId ->
  Catalog.inactive p = true ->
  existsb (String.eqb (product_id p))
          (Catalog.inactiveIds (Rows.productsByStoreId storeId d)) = true.
Proof.
  intros Hin Hs Hi. apply existsb_exists. exists (product_id p).
  split; [|apply String.eqb_refl].
  unfold Catalog.inactiveIds. apply in_map. apply filter_In. split; [|exact Hi].
  unfold Rows.productsByStoreId. apply orderBy_In. apply filter_In.
  split; [exact Hin|]. now apply String.eqb_eq.
Qed.

Lemma active_activate (p : Product) :
  Catalog.inactive p = false -> Catalog.activate p = p.
Proof.
  unfold Catalog.inactive. destruct p as [i s n [[|]|] c]; cbn; intros H;
    try discriminate H; reflexivity.
Qed.

Lemma activated_store_rows (storeId : string) (d : Db) (p : Product) :
  In p (Catalog.activated
          (Catalog.inactiveIds (Rows.productsByStoreId storeId d)) (products d)) ->
  product_storeId p = storeId ->
  product_isActive p = Some true.
Proof.
  unfold Catalog.activated. intros Hin Hs.
  apply in_map_iff in Hin. destruct Hin as (q & Hq & Hin).
  destruct (existsb _ _) eqn:E; subst p; [reflexivity|].
  destruct (Catalog.inactive q) eqn:Hi.
  - rewrite (inactiveIds_In storeId d q Hin Hs Hi) in E. discriminate E.
  - rewrite <- (active_activate q Hi). reflexivity.
Qed.

Lemma activated_counts (ids : list string) (rows : list Product) (storeId : string) :
  List.length (filter (fun p => String.eqb (product_storeId p) storeId)
                      (Catalog.activated ids rows))
  = List.length (filter (fun p => String.eqb (product_storeId p) storeId) rows).
Proof.
  unfold Catalog.activated. apply filter_map_length.
  intros p. now destruct (existsb _ ids).
Qed.

Lemma filter_everything {A : Type} (keep : A -> bool) (l : list A) :
  (forall x, In x l -> keep x = true) -> filter keep l = l.
Proof.
  induction l as [|x l IH]; intros H; [reflexivity|].
  cbn. rewrite (H x) by now left. f_equal. apply IH. intros y Hy. apply H. now right.
Qed.

(** X16.  [POST /api/products/fix-inactive] answers 200 with the number
    of rows of the caller's first store that were not active ([false] or
    null); afterwards every product of that store is active, no store
    has gained or lost a product, and a second call reports 0. *)
Theorem fix_inactive_activates_first_store
        (w : World) (userId : string) (store : Store) :
  dbUp w = true ->
  Rows.storeByUserId (Some userId) (db w) = Some store ->
  exists n w',
    handlers.postFixInactive userId w
    = (Fulfilled (handlers.mkReply 200
                    (handlers.Fixed
                       (Js.intToString n ++ " produtos ativados com sucesso") n)), w')
    /\ n = Z.of_nat (List.length
                       (filter (fun p => String.eqb (product_storeId p) (store_id store)
                                         && Catalog.inactive p)
                               (products (db w))))
    /\ (forall p, In p (products (db w')) ->
                  product_storeId p = store_id store ->
                  product_isActive p = Some true)
    /\ (forall storeId, Spec.productCount storeId (db w')
                        = Spec.productCount storeId (db w))
    /\ fst (handlers.postFixInactive userId w')
       = Fulfilled (handlers.mkReply 200
                      (handlers.Fixed "0 produtos ativados com sucesso" 0)).
Proof.
  intros Hup Hstore.
  exists (Z.of_nat (List.length
            (Catalog.inactiveIds (Rows.productsByStoreId (store_id store) (db w))))).
  eexists.
  split; [exact (postFixInactive_up w userId store Hup Hstore)|].
  split; [now rewrite inactiveIds_count|].
  cbn [db withDb]. rewrite products_withProducts.
  split; [intros p; apply activated_store_rows|].
  split; [intros storeId; unfold Spec.productCount;
          now rewrite products_withProducts, activated_counts|].
  rewrite (postFixInactive_up _ userId store) by assumption.
  cbn [fst db withDb logCall]. rewrite inactiveIds_count, products_withProducts.
  rewrite filter_none; [reflexivity|].
  intros p Hp. destruct (String.eqb (product_storeId p) (store_id store)) eqn:E;
    [|reflexivity].
  apply String.eqb_eq in E. unfold Catalog.inactive.
  now rewrite (activated_store_rows _ _ p Hp E).
Qed.

Lemma fix_inactive_activates_first_store_witness :
  exists n w',
    handlers.postFixInactive "u1" (Sample.worldOf Fixture.parados)
    = (Fulfilled (handlers.mkReply 200
                    (handlers.Fixed
                       (Js.intToString n ++ " produtos ativados com sucesso") n)), w')
    /\ n = 2
    /\ (forall p, In p (products (db w')) ->
                  product_storeId p = "s1" ->
                  product_isActive p = Some true)
    /\ (forall storeId, Spec.productCount storeId (db w')
                        = Spec.productCount storeId Fixture.parados)
    /\ fst (handlers.postFixInactive "u1" w')
       = Fulfilled (handlers.mkReply 200
                      (handlers.Fixed "0 produtos ativados com sucesso" 0)).
Proof.
  apply (fix_inactive_activates_first_store
           (Sample.worldOf Fixture.parados) "u1" Sample.loja); reflexivity.
Defined.

Lemma uniqueIds_eq (rows : list Product) (p q : Product) :
  Catalog.uniqueIds rows ->
  In p rows -> In q rows -> product_id p = product_id q -> p = q.
Proof.
  unfold Catalog.uniqueIds. induction rows as [|a rows IH]; intros Hu Hp Hq Hid;
    [destruct Hp|].
  cbn [map] in Hu. apply NoDup_cons_iff in Hu. destruct Hu as [Ha Hu].
  destruct Hp as [<-|Hp], Hq as [<-|Hq].
  - reflexivity.
  - exfalso. apply Ha. rewrite Hid. now apply in_map.
  - exfalso. apply Ha. rewrite <- Hid. now apply in_map.
  - now apply IH.
Qed.

Lemma inactiveIds_unique (storeId : string) (d : Db) (p : Product) :
  Catalog.uniqueIds (products d) ->
  In p (products d) ->
  existsb (String.eqb (product_id p))
          (Catalog.inactiveIds (Rows.productsByStoreId storeId d))
  = String.eqb (product_storeId p) storeId && Catalog.inactive p.
Proof.
  intros Hu Hp.
  destruct (String.eqb (product_storeId p) storeId && Catalog.inactive p) eqn:E.
  - apply andb_true_iff in E. destruct E as [Hs Hi].
    apply String.eqb_eq in Hs. now apply inactiveIds_In.
  - destruct (existsb _ _) eqn:Ex; [|reflexivity].
    apply existsb_exists in Ex. destruct Ex as (id & Hid & Heq).
    apply String.eqb_eq in Heq. subst id.
    unfold Catalog.inactiveIds in Hid. apply in_map_iff in Hid.
    destruct Hid as (q & Hq & Hin). apply filter_In in Hin. destruct Hin as [Hin Hi].
    unfold Rows.productsByStoreId in Hin. apply orderBy_In in Hin.
    apply filter_In in Hin. destruct Hin as [Hin Hs].
    assert (q = p) by (apply (uniqueIds_eq (products d)); assumption).
    subst q. rewrite Hs, Hi in E. discriminate E.
Qed.

(** X17.  With [id] a key of the product table, [POST
    /api/products/fix-inactive] sets [isActive] on the rows of the
    caller's first store and changes nothing else: the rows of every
    other store, and every other table, are as before. *)
Theorem fix_inactive_touches_first_store_only
        (w : World) (userId : string) (store : Store) :
  dbUp w = true ->
  Rows.storeByUserId (Some userId) (db w) = Some store ->
  Catalog.uniqueIds (products (db w)) ->
  db (snd (handlers.postFixInactive userId w))
  = DatabaseStorage.withProducts
      (map (fun p => if String.eqb (product_storeId p) (store_id store)
                     then Catalog.activate p else p)
           (products (db w)))
      (db w).
Proof.
  intros Hup Hstore Hu.
  rewrite (postFixInactive_up w userId store Hup Hstore). cbn [snd db withDb].
  f_equal. unfold Catalog.activated. apply map_ext_in. intros p Hp.
  rewrite (inactiveIds_unique _ _ p Hu Hp).
  destruct (String.eqb (product_storeId p) (store_id store)); [|reflexivity].
  cbn [andb]. destruct (Catalog.inactive p) eqn:Hi; [reflexivity|].
  symmetry. now apply active_activate.
Qed.

Lemma fix_inactive_touches_first_store_only_witness :
  db (snd (handlers.postFixInactive "u1" (Sample.worldOf Fixture.parados)))
  = DatabaseStorage.withProducts
      [Sample.produto 1;
       mkProduct "product-2" "s1" "Prato" (Some true) (Some 2);
       mkProduct "product-3" "s1" "Copo" (Some true) (Some 3);
       mkProduct "product-4" "s2" "Jarra" (Some false) (Some 4)]
      Fixture.parados.
Proof.
  apply (fix_inactive_touches_first_store_only
           (Sample.worldOf Fixture.parados) "u1" Sample.loja eq_refl eq_refl).
  unfold Catalog.uniqueIds. cbn.
  repeat (apply NoDup_cons; [cbn; intuition discriminate|]). apply NoDup_nil.
Defined.

Lemma deleteApiProduct_up (w : World) (id : string) :
  dbUp w = true ->
  handlers.deleteApiProduct id w
  = (Fulfilled (handlers.mkReply 200 (handlers.Message "Product deleted")),
     withDb (DatabaseStorage.withProducts
               (filter (fun p => negb (String.eqb (product_id p) id)) (products (db w)))
               (db w)) w).
Proof.
  intros Hup. unfold handlers.deleteApiProduct. apply tryCatch_fulfilled.
  unfold bind, DatabaseStorage.deleteProduct. now rewrite dbRun_up.
Qed.

Lemma delete_count (keep : Product -> bool) (rows : list Product) (p : Product) :
  Catalog.uniqueIds rows ->
  In p rows ->
  (List.length (filter keep rows)
   = List.length (filter keep
                    (filter (fun q => negb (String.eqb (product_id q) (product_id p)))
                            rows))
     + (if keep p then 1 else 0))%nat.
Proof.
  unfold Catalog.uniqueIds. induction rows as [|a rows IH]; intros Hu Hp; [destruct Hp|].
  cbn [map] in Hu. apply NoDup_cons_iff in Hu. destruct Hu as [Ha Hu].
  cbn [filter]. destruct Hp as [->|Hp].
  - rewrite String.eqb_refl. cbn [negb].
    rewrite (filter_everything
               (fun q => negb (String.eqb (product_id q) (product_id p))) rows).
    + destruct (keep p); cbn [List.length]; lia.
    + intros q Hq. apply negb_true_iff. apply String.eqb_neq. intros Hid.
      apply Ha. rewrite <- Hid. now apply in_map.
  - assert (E : String.eqb (product_id a) (product_id p) = false).
    { apply String.eqb_neq. intros Hid. apply Ha. rewrite Hid. now apply in_map. }
    rewrite E. cbn [negb filter]. specialize (IH Hu Hp).
    destruct (keep a); cbn [List.length]; lia.
Qed.

(** X18.  Deleting a product frees a place.  When the caller's first
    store holds exactly as many products as the plan allows, the product
    gate answers 403; after [DELETE /api/products/:id] for one of that
    store's products ([id] being a key of the table) the store holds one
    product less and the gate lets the same request through. *)
Theorem deleting_a_product_frees_a_place
        (w : World) (req : Request) (store : Store) (plan : Plan) (maxP : Z)
        (p : Product) :
  dbUp w = true ->
  Rows.storeByUserId (claimsSub req) (db w) = Some store ->
  optChain (subscription req) planOf = Some plan ->
  maxProducts plan = Some maxP ->
  Catalog.uniqueIds (products (db w)) ->
  In p (products (db w)) ->
  product_storeId p = store_id store ->
  Spec.productCount (store_id store) (db w) = maxP ->
  (exists res, fst (checkProductLimit req w) = Fulfilled (Respond res)
               /\ status res = 403)
  /\ exists w',
       handlers.deleteApiProduct (product_id p) w
       = (Fulfilled (handlers.mkReply 200 (handlers.Message "Product deleted")), w')
       /\ Spec.productCount (store_id store) (db w') = maxP - 1
       /\ fst (checkProductLimit req w') = Fulfilled (Next req).
Proof.
  intros Hup Hstore Hplan Hmax Hu Hp Hs Hcount. split.
  - rewrite (checkProductLimit_limited w req store plan maxP) by assumption.
    rewrite Hcount. cbn [fst].
    assert (E : (maxP >=? maxP) = true) by (rewrite Z.geb_leb; apply Z.leb_refl).
    rewrite E. eexists. split; reflexivity.
  - eexists. split; [now apply deleteApiProduct_up|].
    set (w' := withDb _ w).
    assert (Hc : Spec.productCount (store_id store) (db w') = maxP - 1).
    { subst w'. cbn [db withDb]. unfold Spec.productCount in *.
      rewrite products_withProducts.
      pose proof (delete_count
                    (fun q => String.eqb (product_storeId q) (store_id store))
                    (products (db w)) p Hu Hp) as Hd.
      cbn beta in Hd. rewrite Hs, String.eqb_refl in Hd. lia. }
    split; [exact Hc|].
    rewrite (checkProductLimit_limited w' req store plan maxP) by assumption.
    rewrite Hc. cbn [fst].
    assert (E : (maxP - 1 >=? maxP) = false) by (rewrite Z.geb_leb; apply Z.leb_gt; lia).
    now rewrite E.
Qed.

Lemma deleting_a_product_frees_a_place_witness :
  (exists res,
      fst (checkProductLimit (Fixture.resolved Sample.gratis)
             (Sample.worldOf (Sample.catalogDb Sample.fiveProducts [Sample.gratis])))
      = Fulfilled (Respond res)
      /\ status res = 403)
  /\ exists w',
       handlers.deleteApiProduct "product-3"
         (Sample.worldOf (Sample.catalogDb Sample.fiveProducts [Sample.gratis]))
       = (Fulfilled (handlers.mkReply 200 (handlers.Message "Product deleted")), w')
       /\ Spec.productCount "s1" (db w') = 5 - 1
       /\ fst (checkProductLimit (Fixture.resolved Sample.gratis) w')
          = Fulfilled (Next (Fixture.resolved Sample.gratis)).
Proof.
  apply (deleting_a_product_frees_a_place
           (Sample.worldOf (Sample.catalogDb Sample.fiveProducts [Sample.gratis]))
           (Fixture.resolved Sample.gratis) Sample.loja Sample.gratis 5
           (Sample.produto 3) eq_refl eq_refl eq_refl eq_refl).
  - unfold Catalog.uniqueIds. cbn.
    repeat (apply NoDup_cons; [cbn; intuition discriminate|]). apply NoDup_nil.
  - cbn. tauto.
  - reflexivity.
  - reflexivity.
Defined.

(** X19.  [DELETE /api/products/:id] with an id that no row has is
    answered 200 "Product deleted" like any other, and leaves the world
    as it is; with the database down the answer is 500. *)
Theorem deleting_an_unknown_product_answers_200 (w : World) (id : string) :
  (forall p, In p (products (db w)) -> product_id p <> id) ->
  handlers.deleteApiProduct id w
  = (Fulfilled
       (if dbUp w then handlers.mkReply 200 (handlers.Message "Product deleted")
        else handlers.mkReply 500 (handlers.Message "Failed to delete product")),
     w).
Proof.
  intros Hnone. destruct (dbUp w) eqn:Hup.
  - rewrite deleteApiProduct_up by exact Hup.
    rewrite filter_everything, withProducts_same, withDb_same; [reflexivity|].
    intros p Hp. apply negb_true_iff. apply String.eqb_neq. now apply Hnone.
  - unfold handlers.deleteApiProduct.
    rewrite (tryCatch_rejected _ _ w "database unavailable" w); [reflexivity|].
    unfold bind, DatabaseStorage.deleteProduct. now rewrite dbRun_down.
Qed.

Lemma deleting_an_unknown_product_answers_200_witness :
  handlers.deleteApiProduct "product-9"
    (Sample.worldOf (Sample.catalogDb Sample.fiveProducts [Sample.gratis]))
  = (Fulfilled (handlers.mkReply 200 (handlers.Message "Product deleted")),
     Sample.worldOf (Sample.catalogDb Sample.fiveProducts [Sample.gratis])).
Proof.
  apply (deleting_an_unknown_product_answers_200
           (Sample.worldOf (Sample.catalogDb Sample.fiveProducts [Sample.gratis]))
           "product-9").
  cbn. intros p H. repeat (destruct H as [<-|H]; [discriminate|]). destruct H.
Defined.

(* ------------------------------------------------------------------ *)
(** ** The recipient of the SMS *)
(* ------------------------------------------------------------------ *)

Lemma stripNonDigits_allDigits (s : string) :
  Text.allDigits (Js.stripNonDigits s) = true.
Proof.
  induction s as [|c r IH]; [reflexivity|].
  cbn [Js.stripNonDigits]. destruct (Js.isDigit c) eqn:E; [|exact IH].
  cbn [Text.allDigits]. now rewrite E, IH.
Qed.

Lemma stripNonDigits_fixed (s : string) :
  Text.allDigits s = true -> Js.stripNonDigits s = s.
Proof.
  induction s as [|c r IH]; [reflexivity|].
  cbn [Text.allDigits Js.stripNonDigits]. intros H.
  apply andb_true_iff in H. destruct H as [Hc Hr]. now rewrite Hc, IH.
Qed.

Lemma stripNonDigits_idem (s : string) :
  Js.stripNonDigits (Js.stripNonDigits s) = Js.stripNonDigits s.
Proof. apply stripNonDigits_fixed, stripNonDigits_allDigits. Qed.

Lemma prefix_55 (s : string) :
  String.prefix "55" s = true -> exists rest, s = "55" ++ rest.
Proof.
  destruct s as [|a [|b r]]; cbn [String.prefix]; try discriminate.
  - destruct (ascii_dec "5" a); discriminate.
  - destruct (ascii_dec "5" a) as [<-|]; [|discriminate].
    destruct (ascii_dec "5" b) as [<-|]; [|discriminate].
    intros _. now exists r.
Qed.

Lemma prefix_55_app (rest : string) : String.prefix "55" ("55" ++ rest) = true.
Proof. destruct rest; reflexivity. Qed.

Lemma toNumber_of_digits (digits : string) :
  Text.allDigits digits = true ->
  notifications.toNumber digits
  = "+" ++ (if String.prefix "55" digits then digits else "55" ++ digits).
Proof.
  intros Hd. unfold notifications.toNumber. rewrite (stripNonDigits_fixed _ Hd).
  destruct (String.prefix "55" digits) eqn:E; cbn [negb].
  - destruct (prefix_55 _ E) as [rest ->]. reflexivity.
  - reflexivity.
Qed.

(** X20.  The number an order's SMS is sent to is always [+55] followed
    by digits only, and formatting it again changes nothing.  The
    country code is added exactly when the digits of the customer's
    phone do not already begin with 55: a national number whose area
    code is 55 is sent as it is, with its area code read as the country
    code. *)
Theorem sms_recipient_is_plus_55_and_digits (customerPhone : string) :
  exists rest,
    notifications.toNumber customerPhone = "+55" ++ rest
    /\ Text.allDigits rest = true
    /\ (if String.prefix "55" (Js.stripNonDigits customerPhone)
        then "55" ++ rest = Js.stripNonDigits customerPhone
        else rest = Js.stripNonDigits customerPhone)
    /\ notifications.toNumber (notifications.toNumber customerPhone)
       = notifications.toNumber customerPhone.
Proof.
  pose proof (stripNonDigits_allDigits customerPhone) as Hd.
  assert (Hn : notifications.toNumber customerPhone
               = notifications.toNumber (Js.stripNonDigits customerPhone)).
  { unfold notifications.toNumber. now rewrite stripNonDigits_idem. }
  rewrite Hn, (toNumber_of_digits _ Hd).
  destruct (String.prefix "55" (Js.stripNonDigits customerPhone)) eqn:E.
  - destruct (prefix_55 _ E) as [rest Hrest]. exists rest.
    rewrite Hrest in Hd |- *. cbn in Hd.
    split; [reflexivity|]. split; [exact Hd|]. split; [reflexivity|].
    unfold notifications.toNumber.
    change (Js.stripNonDigits ("+" ++ "55" ++ rest))
      with ("55" ++ Js.stripNonDigits rest).
    rewrite (stripNonDigits_fixed _ Hd), prefix_55_app. reflexivity.
  - exists (Js.stripNonDigits customerPhone).
    split; [reflexivity|]. split; [exact Hd|]. split; [reflexivity|].
    unfold notifications.toNumber.
    change (Js.stripNonDigits ("+" ++ "55" ++ Js.stripNonDigits customerPhone))
      with ("55" ++ Js.stripNonDigits (Js.stripNonDigits customerPhone)).
    rewrite stripNonDigits_idem, prefix_55_app. reflexivity.
Qed.

(** A mobile number of Santa Maria (area code 55) and one of São Paulo
    (area code 11), as the order form accepts them. *)
Example sms_recipient_of_area_55 :
  notifications.toNumber "55999887766" = "+55999887766"
  /\ notifications.toNumber "11999887766" = "+5511999887766"
  /\ notifications.toNumber "(11) 99988-7766" = "+5511999887766".
Proof. repeat split. Qed.

(* ------------------------------------------------------------------ *)
(** ** The cart *)
(* ------------------------------------------------------------------ *)

(** X21.  [updateQuantity] of the cart keeps the products and their
    order and changes only the items of the given product; their new
    quantity is at least 1 and at most the stock, or 1 when the stock is
    1, less, or null: a product that is out of stock stays in the cart
    with quantity 1, whatever [delta]. *)
Theorem cart_quantity_stays_within_stock
        (cartItems : list Cart.CartItem) (productId : string) (delta : Z) :
  map Cart.product (Cart.updateQuantity cartItems productId delta)
  = map Cart.product cartItems
  /\ (forall item,
         In item (Cart.updateQuantity cartItems productId delta) ->
         Cart.cart_product_id (Cart.product item) = productId ->
         1 <= Cart.quantity item
         /\ Cart.quantity item
            <= Z.max 1 (Cart.numberOf (Cart.stock (Cart.product item))))
  /\ (forall item,
         In item (Cart.updateQuantity cartItems productId delta) ->
         Cart.cart_product_id (Cart.product item) <> productId ->
         In item cartItems)
  /\ (forall item,
         In item cartItems ->
         Cart.cart_product_id (Cart.product item) = productId ->
         Cart.numberOf (Cart.stock (Cart.product item)) <= 1 ->
         In (Cart.mkCartItem (Cart.product item) 1)
            (Cart.updateQuantity cartItems productId delta)).
Proof.
  unfold Cart.updateQuantity. split; [|split; [|split]].
  - rewrite map_map. apply map_ext. intros item.
    now destruct (String.eqb _ productId).
  - intros item Hin Hid. apply in_map_iff in Hin. destruct Hin as (old & <- & _).
    destruct (String.eqb (Cart.cart_product_id (Cart.product old)) productId) eqn:E.
    + cbn [Cart.quantity Cart.product]. lia.
    + apply String.eqb_neq in E. contradiction.
  - intros item Hin Hid. apply in_map_iff in Hin. destruct Hin as (old & <- & Hold).
    destruct (String.eqb (Cart.cart_product_id (Cart.product old)) productId) eqn:E;
      [|exact Hold].
    apply String.eqb_eq in E. cbn [Cart.product] in Hid. contradiction.
  - intros item Hin Hid Hstock. apply in_map_iff. exists item.
    split; [|exact Hin]. apply String.eqb_eq in Hid. rewrite Hid.
    f_equal. lia.
Qed.

(** X22.  Removing a product from the cart and changing its quantity do
    not interfere: after [removeItem] no item of the product is left,
    [updateQuantity] for it then changes nothing, and removing after an
    update gives the same cart as removing at once. *)
Theorem cart_remove_forgets_quantity
        (cartItems : list Cart.CartItem) (productId : string) (delta : Z) :
  (forall item, In item (Cart.removeItem cartItems productId) ->
                Cart.cart_product_id (Cart.product item) <> productId)
  /\ Cart.updateQuantity (Cart.removeItem cartItems productId) productId delta
     = Cart.removeItem cartItems productId
  /\ Cart.removeItem (Cart.updateQuantity cartItems productId delta) productId
     = Cart.removeItem cartItems productId.
Proof.
  assert (Hleft : forall item, In item (Cart.removeItem cartItems productId) ->
                    Cart.cart_product_id (Cart.product item) <> productId).
  { intros item Hin. apply filter_In in Hin. destruct Hin as [_ Hid].
    apply negb_true_iff in Hid. now apply String.eqb_neq. }
  split; [exact Hleft|]. split.
  - unfold Cart.updateQuantity. rewrite <- (map_id (Cart.removeItem cartItems productId)) at 2.
    apply map_ext_in. intros item Hin. apply Hleft in Hin.
    apply String.eqb_neq in Hin. now rewrite Hin.
  - clear Hleft. unfold Cart.removeItem, Cart.updateQuantity.
    induction cartItems as [|item rest IH]; [reflexivity|].
    cbn [map filter]. rewrite IH.
    destruct (String.eqb (Cart.cart_product_id (Cart.product item)) productId) eqn:E;
      cbn [Cart.product Cart.cart_product_id]; rewrite E; reflexivity.
Qed.

(* ------------------------------------------------------------------ *)
(** ** Shipping at the checkout *)
(* ------------------------------------------------------------------ *)





Lemma postShippingCalculate_refuses (w : World) (storeSlug zipCode : string)
      (orderTotal : option Js.number) :
  Js.truthyStr storeSlug = true ->
  dbUp w = false \/ Rows.storeBySlug storeSlug (db w) = None \/ zipCode = "" ->
  exists res w',
    routes.postShippingCalculate (Some storeSlug) (Some zipCode) orderTotal w
    = (Fulfilled res, w')
    /\ Checkout.responseOk res = false.
Proof.
  intros Hslug Hwhy. unfold routes.postShippingCalculate. rewrite Hslug.
  destruct (Js.truthyStr zipCode) eqn:Hzip; cbn [negb orb].
  - destruct (dbUp w) eqn:Hup.
    + destruct (Rows.storeBySlug storeSlug (db w)) as [store|] eqn:Hstore.
      * exfalso. destruct Hwhy as [H|[H|H]]; try discriminate H.
        subst zipCode. discriminate Hzip.
      * exists (mkResponse 404 (JsonMessage "Store not found")).
        eexists. split; [|reflexivity].
        apply tryCatch_fulfilled. unfold bind at 1. storage_read.
        now rewrite Hstore.
    + do 2 eexists. split.
      * rewrite (tryCatch_rejected _ _ w "database unavailable"
                   (logCall (GetStoreBySlug storeSlug) w)); [reflexivity|].
        unfold bind, storage.getStoreBySlug. now rewrite dbSelect_down.
      * reflexivity.
  - do 2 eexists. split; [now apply tryCatch_fulfilled|reflexivity].
Qed.

(** X23.  The checkout asks for a quote only when it has a store slug
    and a zip code of at least 8 characters; otherwise its shipping
    state stays as it was, an earlier quote included.  When it asks and
    the server cannot quote (the database is down, the store is unknown,
    or the zip code holds no digit), it charges no shipping: the cost is
    set to 0 with the message that shipping could not be calculated. *)
Theorem checkout_charges_no_shipping_without_quote
        (w : World) (storeSlug : option string) (zipCode : string)
        (subtotal discount : Js.number) (s : Checkout.Shipping) :
  (truthyOptStr storeSlug = false \/ Z.of_nat (String.length zipCode) < 8 ->
   Checkout.calculateShipping storeSlug subtotal discount zipCode s w
   = (Fulfilled s, w))
  /\ (forall slug,
         storeSlug = Some slug ->
         Js.truthyStr slug = true ->
         8 <= Z.of_nat (String.length zipCode) ->
         dbUp w = false \/ Rows.storeBySlug slug (db w) = None
         \/ Js.stripNonDigits zipCode = "" ->
         fst (Checkout.calculateShipping storeSlug subtotal discount zipCode s w)
         = Fulfilled (Checkout.mkShipping Js.zero Checkout.NaoFoiPossivel false)).
Proof.
  unfold Checkout.calculateShipping. split.
  - intros [H|H].
    + now rewrite H.
    + apply Z.ltb_lt in H. rewrite H. now rewrite orb_true_r.
  - intros slug -> Hslug Hlen Hwhy. cbn [truthyOptStr]. rewrite Hslug.
    apply Z.ltb_ge in Hlen. rewrite Hlen. cbn [negb orb].
    destruct (postShippingCalculate_refuses w slug (Js.stripNonDigits zipCode)
                (Checkout.jsonNumber (Checkout.num_sub subtotal discount))
                Hslug Hwhy) as (res & w' & Hres & Hok).
    unfold tryCatch, bind. rewrite Hres, Hok. reflexivity.
Qed.

Lemma checkout_charges_no_shipping_without_quote_witness :
  Checkout.calculateShipping (Some "loja-um") (Js.Fin 60) (Js.Fin 10) "0131010"
    (Checkout.mkShipping (Js.Fin 10) (Checkout.Frete (Js.Fin 10) (Some 3)) false)
    Sample.shippingWorld
  = (Fulfilled
       (Checkout.mkShipping (Js.Fin 10) (Checkout.Frete (Js.Fin 10) (Some 3)) false),
     Sample.shippingWorld)
  /\ fst (Checkout.calculateShipping (Some "loja-um") (Js.Fin 60) (Js.Fin 10)
            "--------"
            (Checkout.mkShipping (Js.Fin 10) (Checkout.Frete (Js.Fin 10) (Some 3)) false)
            Sample.shippingWorld)
     = Fulfilled (Checkout.mkShipping Js.zero Checkout.NaoFoiPossivel false).
Proof.
  split.
  - apply (checkout_charges_no_shipping_without_quote
             Sample.shippingWorld (Some "loja-um") "0131010" (Js.Fin 60) (Js.Fin 10)).
    right. cbn. lia.
  - apply (proj2 (checkout_charges_no_shipping_without_quote
                    Sample.shippingWorld (Some "loja-um") "--------"
                    (Js.Fin 60) (Js.Fin 10) _) "loja-um" eq_refl eq_refl).
    + cbn. lia.
    + right. right. reflexivity.
Defined.



(** The quote of the sample store for a zip code in the capital, as the
    checkout shows it. *)
Example checkout_quote_in_capital :
  valueOf (Checkout.calculateShipping (Some "loja-um") (Js.Fin 60) (Js.Fin 10)
             "01310-100"
             (Checkout.mkShipping Js.zero Checkout.NoMessage false)
             Sample.shippingWorld)
  = Some (Checkout.mkShipping (Js.Fin (10 # 1))
            (Checkout.Frete (Js.Fin (10 # 1)) (Some 3)) false).
Proof. reflexivity. Qed.

(* ------------------------------------------------------------------ *)
(** ** The plan usage widget and the gate *)
(* ------------------------------------------------------------------ *)

Lemma isAtLimit_percentageOf (current l : Z) :
  0 <= current ->
  PlanUsageWidget.isAtLimit (percentageOf current (Some l))
  = (0 <? l) && (l <=? current).
Proof.
  intros Hc. unfold percentageOf. destruct (Z.eqb_spec l 0) as [->|Hl]; [reflexivity|].
  unfold PlanUsageWidget.isAtLimit, Js.num_ge, Js.ofZ, Js.num_div.
  assert (E : Qeq_bool (inject_Z l) 0 = false) by (destruct l; [contradiction| |]; reflexivity).
  rewrite E. cbn [Js.num_mul Js.num_le].
  apply eq_true_iff_eq.
  rewrite Qle_bool_iff, andb_true_iff, Z.ltb_lt, Z.leb_le, !Qred_correct.
  destruct l as [|p|p]; [contradiction| |];
    unfold Qle, Qdiv, Qmult, Qinv, inject_Z; cbn [Qnum Qden];
    rewrite Pos.mul_1_l, Pos.mul_1_r; lia.
Qed.

Lemma isAtLimit_entry (current : Z) (limit : option Z) :
  0 <= current ->
  PlanUsageWidget.isAtLimit (percentageOf current limit) = true
  <-> exists l, limit = Some l /\ 0 < l <= current.
Proof.
  intros Hc. destruct limit as [l|].
  - rewrite isAtLimit_percentageOf, andb_true_iff, Z.ltb_lt, Z.leb_le by exact Hc.
    split.
    + intros H. exists l. split; [reflexivity|lia].
    + intros (l' & Hl & H). injection Hl as <-. lia.
  - split; [discriminate|]. intros (l & Hl & _). discriminate Hl.
Qed.

(** X25.  The usage widget shows "limit reached" under a bar exactly
    when the plan's limit is above zero and the count has reached it.
    Where the limit is positive this is when the gate of the same count
    refuses; under a limit of 0 the gate refuses every request while
    the widget, reading 0 percent, shows no warning. *)
Theorem usage_widget_warns_only_above_zero_limit
        (w : World) (userId : string) (u : PlanUsage) :
  valueOf (getPlanUsage userId w) = Some (Some u) ->
  (PlanUsageWidget.isAtLimit (percentage (usage_products u)) = true
   <-> exists l, limit (usage_products u) = Some l
                 /\ 0 < l <= current (usage_products u))
  /\ (PlanUsageWidget.isAtLimit (percentage (usage_orders u)) = true
      <-> exists l, limit (usage_orders u) = Some l
                    /\ 0 < l <= current (usage_orders u)).
Proof.
  intros Hu. apply getPlanUsage_snapshot in Hu.
  destruct Hu as (plan & products & ordersThisMonth & ->).
  cbn [usageSnapshot usage_products usage_orders percentage limit current].
  split; apply isAtLimit_entry; lia.
Qed.

Lemma usage_widget_warns_only_above_zero_limit_witness :
  exists u,
    valueOf (getPlanUsage "u1" Sample.zeroLimitWorld) = Some (Some u)
    /\ limit (usage_products u) = Some 0
    /\ current (usage_products u) = 3
    /\ (PlanUsageWidget.isAtLimit (percentage (usage_products u)) = true
        <-> exists l, limit (usage_products u) = Some l
                      /\ 0 < l <= current (usage_products u)).
Proof.
  eexists. split; [vm_compute; reflexivity|].
  split; [reflexivity|]. split; [reflexivity|].
  apply (usage_widget_warns_only_above_zero_limit Sample.zeroLimitWorld "u1").
  vm_compute. reflexivity.
Defined.

(* ------------------------------------------------------------------ *)
(** ** The public product listing *)
(* ------------------------------------------------------------------ *)

Lemma getStoreProducts_up (w : World) (slug : string) (store : Store) :
  dbUp w = true ->
  Rows.storeBySlug slug (db w) = Some store ->
  handlers.getStoreProducts slug w
  = (Fulfilled
       (handlers.mkReply 200
          (handlers.Products
             (filter (fun p => handlers.truthyOptBool (product_isActive p))
                     (Rows.productsByStoreId (store_id store) (db w))))),
     logCall (GetProductsByStoreId (store_id store))
             (logCall (GetStoreBySlug slug) w)).
Proof.
  intros Hup Hstore. unfold handlers.getStoreProducts. apply tryCatch_fulfilled.
  unfold bind at 1. storage_read. rewrite Hstore.
  unfold bind at 1. storage_read. reflexivity.
Qed.

Lemma filter_split_length {A : Type} (f : A -> bool) (l : list A) :
  (List.length (filter f l) + List.length (filter (fun x => negb (f x)) l)
   = List.length l)%nat.
Proof.
  induction l as [|x l IH]; [reflexivity|].
  cbn [filter]. destruct (f x); cbn [negb List.length]; lia.
Qed.

(** X26.  [POST /api/products/fix-inactive] brings every product of the
    caller's first store into the public listing: before it, [GET
    /api/stores/:slug/products] lists the store's active products;
    after it, it lists all of the store's products, which are as many
    more as the number the route has reported. *)
Theorem fix_inactive_makes_every_product_listed
        (w : World) (userId slug : string) (store : Store) :
  dbUp w = true ->
  Rows.storeByUserId (Some userId) (db w) = Some store ->
  Rows.storeBySlug slug (db w) = Some store ->
  exists n before listed,
    fst (handlers.postFixInactive userId w)
    = Fulfilled (handlers.mkReply 200
                   (handlers.Fixed
                      (Js.intToString n ++ " produtos ativados com sucesso") n))
    /\ fst (handlers.getStoreProducts slug w)
       = Fulfilled (handlers.mkReply 200 (handlers.Products before))
    /\ fst (handlers.getStoreProducts slug (snd (handlers.postFixInactive userId w)))
       = Fulfilled (handlers.mkReply 200 (handlers.Products listed))
    /\ Z.of_nat (List.length listed) = Z.of_nat (List.length before) + n
    /\ Z.of_nat (List.length listed) = Spec.productCount (store_id store) (db w)
    /\ forall p, In p listed ->
                 product_storeId p = store_id store
                 /\ product_isActive p = Some true.
Proof.
  intros Hup Hstore Hslug.
  rewrite (postFixInactive_up w userId store Hup Hstore). cbn [fst snd].
  set (ids := Catalog.inactiveIds (Rows.productsByStoreId (store_id store) (db w))).
  set (w' := withDb _ _).
  assert (Hup' : dbUp w' = true) by exact Hup.
  assert (Hslug' : Rows.storeBySlug slug (db w') = Some store) by exact Hslug.
  rewrite (getStoreProducts_up w slug store Hup Hslug).
  rewrite (getStoreProducts_up w' slug store Hup' Hslug'). cbn [fst].
  do 3 eexists. split; [reflexivity|]. split; [reflexivity|]. split; [reflexivity|].
  assert (Hall : forall p,
             In p (Rows.productsByStoreId (store_id store) (db w')) ->
             product_storeId p = store_id store /\ product_isActive p = Some true).
  { intros p Hp. unfold Rows.productsByStoreId in Hp. apply orderBy_In in Hp.
    apply filter_In in Hp. destruct Hp as [Hp Hs]. apply String.eqb_eq in Hs.
    split; [exact Hs|]. subst w'. cbn [db withDb] in Hp.
    rewrite products_withProducts in Hp.
    now apply (activated_store_rows (store_id store) (db w) p Hp). }
  assert (Hlisted : filter (fun p => handlers.truthyOptBool (product_isActive p))
                           (Rows.productsByStoreId (store_id store) (db w'))
                    = Rows.productsByStoreId (store_id store) (db w')).
  { apply filter_everything. intros p Hp. now rewrite (proj2 (Hall p Hp)). }
  rewrite Hlisted.
  assert (Hcount : Z.of_nat (List.length (Rows.productsByStoreId (store_id store) (db w')))
                   = Spec.productCount (store_id store) (db w)).
  { rewrite productsByStoreId_count. subst w'. cbn [db withDb].
    unfold Spec.productCount. now rewrite products_withProducts, activated_counts. }
  split; [|split; [exact Hcount|exact Hall]].
  rewrite Hcount, <- productsByStoreId_count.
  subst ids. unfold Catalog.inactiveIds. rewrite length_map.
  rewrite <- (filter_split_length
                (fun p => handlers.truthyOptBool (product_isActive p))
                (Rows.productsByStoreId (store_id store) (db w))).
  unfold Catalog.inactive. lia.
Qed.

Lemma fix_inactive_makes_every_product_listed_witness :
  exists n before listed,
    fst (handlers.postFixInactive "u1" (Sample.worldOf Fixture.parados))
    = Fulfilled (handlers.mkReply 200
                   (handlers.Fixed
                      (Js.intToString n ++ " produtos ativados com sucesso") n))
    /\ fst (handlers.getStoreProducts "LOJA-UM" (Sample.worldOf Fixture.parados))
       = Fulfilled (handlers.mkReply 200 (handlers.Products before))
    /\ fst (handlers.getStoreProducts "LOJA-UM"
              (snd (handlers.postFixInactive "u1" (Sample.worldOf Fixture.parados))))
       = Fulfilled (handlers.mkReply 200 (handlers.Products listed))
    /\ Z.of_nat (List.length listed) = Z.of_nat (List.length before) + n
    /\ Z.of_nat (List.length listed) = Spec.productCount "s1" Fixture.parados
    /\ forall p, In p listed ->
                 product_storeId p = "s1" /\ product_isActive p = Some true.
Proof.
  apply (fix_inactive_makes_every_product_listed
           (Sample.worldOf Fixture.parados) "u1" "LOJA-UM" Sample.loja);
    reflexivity.
Defined.

(* ------------------------------------------------------------------ *)
(** ** The storefront *)
(* ------------------------------------------------------------------ *)

Lemma addToCart_cons (item : Cart.CartItem) (rest : list Cart.CartItem)
      (product : Cart.CartProduct) :
  Storefront.addToCart (item :: rest) product
  = if String.eqb (Cart.cart_product_id (Cart.product item))
                  (Cart.cart_product_id product)
    then Cart.mkCartItem (Cart.product item) (Cart.quantity item + 1) :: rest
    else item :: Storefront.addToCart rest product.
Proof.
  unfold Storefront.addToCart. cbn [Storefront.findIndex].
  destruct (String.eqb _ _); [reflexivity|].
  now destruct (Storefront.findIndex _ rest).
Qed.

Lemma fold_quantities (l : list Cart.CartItem) (a : Z) :
  fold_left (fun sum item => sum + Cart.quantity item) l a
  = a + fold_left (fun sum item => sum + Cart.quantity item) l 0.
Proof.
  revert a. induction l as [|x l IH]; intros a; cbn [fold_left]; [lia|].
  rewrite (IH (a + Cart.quantity x)), (IH (0 + Cart.quantity x)). lia.
Qed.

Lemma cartCount_cons (item : Cart.CartItem) (rest : list Cart.CartItem) :
  Storefront.cartCount (item :: rest)
  = Cart.quantity item + Storefront.cartCount rest.
Proof.
  unfold Storefront.cartCount. cbn [fold_left]. rewrite fold_quantities. lia.
Qed.

Lemma cartCount_app (l r : list Cart.CartItem) :
  Storefront.cartCount (l ++ r) = Storefront.cartCount l + Storefront.cartCount r.
Proof.
  induction l as [|x l IH]; [reflexivity|].
  cbn [app]. rewrite !cartCount_cons, IH. lia.
Qed.

(** X27.  [addToCart] of the storefront adds one unit and never looks
    at the stock: a product that is not in the cart is appended with
    quantity 1, and otherwise the first item of the product gets one
    unit more, whatever its stock, the cart staying as it is around it;
    either way the cart count grows by exactly 1. *)
Theorem add_to_cart_adds_one_unit
        (cart : list Cart.CartItem) (product : Cart.CartProduct) :
  Storefront.cartCount (Storefront.addToCart cart product)
  = Storefront.cartCount cart + 1
  /\ ((forall item, In item cart ->
         Cart.cart_product_id (Cart.product item) <> Cart.cart_product_id product) ->
      Storefront.addToCart cart product
      = (cart ++ [Cart.mkCartItem product 1])%list)
  /\ (forall before item rest,
         cart = (before ++ item :: rest)%list ->
         (forall x, In x before ->
            Cart.cart_product_id (Cart.product x) <> Cart.cart_product_id product) ->
         Cart.cart_product_id (Cart.product item) = Cart.cart_product_id product ->
         Storefront.addToCart cart product
         = (before
            ++ Cart.mkCartItem (Cart.product item) (Cart.quantity item + 1) :: rest)%list).
Proof.
  split; [|split].
  - induction cart as [|x cart IH]; [reflexivity|].
    rewrite addToCart_cons. destruct (String.eqb _ _).
    + rewrite !cartCount_cons. cbn [Cart.quantity]. lia.
    + rewrite !cartCount_cons, IH. lia.
  - induction cart as [|x cart IH]; intros Hnone; [reflexivity|].
    rewrite addToCart_cons.
    assert (E : String.eqb (Cart.cart_product_id (Cart.product x))
                           (Cart.cart_product_id product) = false)
      by (apply String.eqb_neq, Hnone; now left).
    rewrite E, IH; [reflexivity|]. intros item Hin. apply Hnone. now right.
  - intros before item rest -> Hbefore Hitem.
    induction before as [|x before IH]; cbn [app]; rewrite addToCart_cons.
    + apply String.eqb_eq in Hitem. now rewrite Hitem.
    + assert (E : String.eqb (Cart.cart_product_id (Cart.product x))
                             (Cart.cart_product_id product) = false)
        by (apply String.eqb_neq, Hbefore; now left).
      rewrite E, IH; [reflexivity|]. intros y Hy. apply Hbefore. now right.
Qed.

(** A product with two units in stock, added to the cart three times. *)
Example third_unit_of_two_in_stock :
  Storefront.addToCart
    (Storefront.addToCart
       (Storefront.addToCart [] (Cart.mkCartProduct "p1" "10.00" (Some 2)))
       (Cart.mkCartProduct "p1" "10.00" (Some 2)))
    (Cart.mkCartProduct "p1" "10.00" (Some 2))
  = [Cart.mkCartItem (Cart.mkCartProduct "p1" "10.00" (Some 2)) 3].
Proof. reflexivity. Qed.

Lemma groups_In (regular : list Storefront.Item) (categories : list Storefront.Category) :
  forall (acc : list Storefront.Group) (g : Storefront.Group),
    In g (fold_left
            (fun byCategory category =>
               let categoryProducts :=
                 filter (Storefront.inCategory category) regular in
               if (0 <? List.length categoryProducts)%nat
               then (byCategory
                     ++ [Storefront.mkGroup (Some category) categoryProducts])%list
               else byCategory)
            categories acc)
    <-> In g acc
        \/ exists category,
             In category categories
             /\ filter (Storefront.inCategory category) regular <> []
             /\ g = Storefront.mkGroup (Some category)
                      (filter (Storefront.inCategory category) regular).
Proof.
  induction categories as [|c categories IH]; intros acc g; cbn [fold_left].
  - split; [now left|]. intros [H|(c & [] & _)]. exact H.
  - rewrite IH. cbn zeta.
    destruct (filter (Storefront.inCategory c) regular) as [|p ps] eqn:E;
      cbn [List.length Nat.ltb Nat.leb].
    + split.
      * intros [H|(c' & Hc' & Hne & Hg)]; [now left|].
        right. exists c'. split; [now right|]. now split.
      * intros [H|(c' & [<-|Hc'] & Hne & Hg)]; [now left| |].
        -- rewrite E in Hne. contradiction.
        -- right. exists c'. now split.
    + rewrite in_app_iff. cbn [In]. split.
      * intros [[H|[H|[]]]|(c' & Hc' & Hne & Hg)].
        -- now left.
        -- right. exists c. split; [now left|]. rewrite E. split; [discriminate|].
           now symmetry.
        -- right. exists c'. split; [now right|]. now split.
      * intros [H|(c' & [<-|Hc'] & Hne & Hg)].
        -- left. now left.
        -- left. right. left. rewrite E in Hg. now symmetry.
        -- right. exists c'. now split.
Qed.

(** X28.  The storefront shows products of the filtered list only, and
    leaves out exactly the regular ones (neither featured nor on
    promotion) whose category is set but is not among the store's
    categories; no group of the category section is empty. *)
Theorem storefront_hides_products_of_unknown_categories
        (filteredProducts : list Storefront.Item)
        (categories : list Storefront.Category) (p : Storefront.Item) :
  let o := Storefront.organizedProducts (Some filteredProducts) categories in
  (In p (Storefront.shown o)
   <-> In p filteredProducts
       /\ (handlers.truthyOptBool (Storefront.isFeatured p) = true
           \/ handlers.truthyOptBool (Storefront.isPromotion p) = true
           \/ truthyOptStr (Storefront.categoryId p) = false
           \/ exists category,
                In category categories
                /\ Storefront.categoryId p = Some (Storefront.category_id category)))
  /\ (forall g, In g (Storefront.byCategory o) -> Storefront.group_products g <> []).
Proof.
  cbn zeta. unfold Storefront.shown, Storefront.organizedProducts.
  cbn [Storefront.featured Storefront.promotions Storefront.byCategory].
  set (regular := filter (fun q => negb (handlers.truthyOptBool (Storefront.isFeatured q))
                                   && negb (handlers.truthyOptBool
                                              (Storefront.isPromotion q)))
                         filteredProducts).
  set (uncategorized := filter (fun q => negb (truthyOptStr (Storefront.categoryId q)))
                               regular).
  assert (Hreg : forall q, In q regular
                   <-> In q filteredProducts
                       /\ handlers.truthyOptBool (Storefront.isFeatured q) = false
                       /\ handlers.truthyOptBool (Storefront.isPromotion q) = false).
  { intros q. unfold regular. rewrite filter_In, andb_true_iff, !negb_true_iff.
    tauto. }
  assert (Hcat : forall c q, Storefront.inCategory c q = true
                   <-> Storefront.categoryId q = Some (Storefront.category_id c)).
  { intros c q. unfold Storefront.inCategory.
    destruct (Storefront.categoryId q) as [i|]; [|split; discriminate].
    rewrite String.eqb_eq. split; [now intros ->|]. intros H. now injection H. }
  assert (Hstart : forall g,
             In g (if (0 <? List.length uncategorized)%nat
                   then [Storefront.mkGroup None uncategorized] else [])
             <-> uncategorized <> [] /\ g = Storefront.mkGroup None uncategorized).
  { intros g. destruct uncategorized as [|q qs]; cbn.
    - split; [intros []|]. now intros [H _].
    - split; [intros [<-|[]]; split; [discriminate|reflexivity]|].
      intros [_ ->]. now left. }
  split.
  - rewrite !in_app_iff, !filter_In, in_concat. split.
    + intros [[Hin Hf]|[[Hin Hp]|(l & Hl & Hpl)]].
      * split; [exact Hin|]. now left.
      * split; [exact Hin|]. apply andb_true_iff in Hp. right. left. tauto.
      * apply in_map_iff in Hl. destruct Hl as (g & <- & Hg).
        apply groups_In in Hg. destruct Hg as [Hg|(c & Hc & _ & ->)].
        -- apply Hstart in Hg. destruct Hg as [_ ->].
           cbn [Storefront.group_products] in Hpl. unfold uncategorized in Hpl.
           apply filter_In in Hpl. destruct Hpl as [Hr Hu].
           apply negb_true_iff in Hu. apply Hreg in Hr. split; [tauto|].
           right. right. now left.
        -- cbn [Storefront.group_products] in Hpl. apply filter_In in Hpl.
           destruct Hpl as [Hr Hc']. apply Hreg in Hr. apply Hcat in Hc'.
           split; [tauto|]. right. right. right. now exists c.
    + intros [Hin Hwhy].
      destruct (handlers.truthyOptBool (Storefront.isFeatured p)) eqn:Ef;
        [left; now split|].
      destruct (handlers.truthyOptBool (Storefront.isPromotion p)) eqn:Ep;
        [right; left; now split|].
      right. right.
      assert (Hr : In p regular) by (apply Hreg; tauto).
      destruct Hwhy as [H|[H|[H|(c & Hc & Hpc)]]]; try discriminate H.
      * exists uncategorized.
        assert (Hpu : In p uncategorized)
          by (unfold uncategorized; apply filter_In; split;
              [exact Hr|now apply negb_true_iff]).
        split; [|exact Hpu].
        apply in_map_iff. exists (Storefront.mkGroup None uncategorized).
        split; [reflexivity|]. apply groups_In. left. apply Hstart.
        split; [|reflexivity]. intros E. rewrite E in Hpu. destruct Hpu.
      * exists (filter (Storefront.inCategory c) regular).
        assert (Hpc' : In p (filter (Storefront.inCategory c) regular))
          by (apply filter_In; split; [exact Hr|now apply Hcat]).
        split; [|exact Hpc'].
        apply in_map_iff.
        exists (Storefront.mkGroup (Some c) (filter (Storefront.inCategory c) regular)).
        split; [reflexivity|]. apply groups_In. right. exists c.
        split; [exact Hc|]. split; [|reflexivity].
        intros E. rewrite E in Hpc'. destruct Hpc'.
  - intros g Hg. apply groups_In in Hg. destruct Hg as [Hg|(c & _ & Hne & ->)].
    + apply Hstart in Hg. now destruct Hg as [Hne ->].
    + exact Hne.
Qed.

(** A regular product whose category the store no longer has. *)
Example orphan_product_is_not_shown :
  Storefront.shown
    (Storefront.organizedProducts
       (Some [Storefront.mkItem "p1" (Some "c1") None None;
              Storefront.mkItem "p2" (Some "c9") (Some false) (Some false);
              Storefront.mkItem "p3" None None None;
              Storefront.mkItem "p4" (Some "c9") (Some true) None])
       [Storefront.mkCategory "c1" "Canecas"])
  = [Storefront.mkItem "p4" (Some "c9") (Some true) None;
     Storefront.mkItem "p3" None None None;
     Storefront.mkItem "p1" (Some "c1") None None].
Proof. reflexivity. Qed.
